(** * TrendRadar: the query facade of [mcp_server/tools/data_query.py]

    A shallow embedding of [DataQueryTools] and of the grouping engine inside
    [get_news_for_summary], together with the properties its specification
    states about them.

    Python values that the facade only passes around are kept in a small
    universal type [PyVal]; insertion-ordered dictionaries are association
    lists; exceptions are an explicit error monad [Outcome]; the external
    collaborators (validators, data service, parser) are the fields of a
    record [Env]. *)

From Stdlib Require Import List String Ascii ZArith Lia Bool Arith.
From Stdlib Require Import Sorting.Sorted Sorting.Permutation.
From Stdlib Require DecimalString.
Import ListNotations.

Local Open Scope string_scope.
Local Open Scope Z_scope.

(** ** Python values *)

#[warnings="-register-all"]
Inductive PyVal : Type :=
| VNone
| VBool (b : bool)
| VInt (z : Z)
| VStr (s : string)
| VList (l : list PyVal)
| VDict (d : list (string * PyVal)).

Definition Dict : Type := list (string * PyVal).

(** [d.get(k)] on an insertion-ordered dictionary. *)
Fixpoint dict_get {V : Type} (k : string) (d : list (string * V)) : option V :=
  match d with
  | [] => None
  | (k', v) :: d' => if String.eqb k k' then Some v else dict_get k d'
  end.

(** [d.get(k, dflt)]. *)
Definition dict_get_default {V : Type} (k : string) (dflt : V)
    (d : list (string * V)) : V :=
  match dict_get k d with
  | Some v => v
  | None => dflt
  end.

(** [k in d]. *)
Definition dict_mem {V : Type} (k : string) (d : list (string * V)) : bool :=
  match dict_get k d with
  | Some _ => true
  | None => false
  end.

(** ** Strings *)

(** [sub in s] for Python strings: [sub] occurs as a contiguous run of [s]. *)
Fixpoint contains (sub s : string) : bool :=
  String.prefix sub s
  || match s with
     | EmptyString => false
     | String _ s' => contains sub s'
     end.

(** Truthiness of a string: [bool(word)]. *)
Definition nonempty (s : string) : bool :=
  match s with
  | EmptyString => false
  | String _ _ => true
  end.

Definition squote : ascii := ascii_of_nat 39.
Definition dquote : ascii := ascii_of_nat 34.
Definition backslash : ascii := ascii_of_nat 92.

Fixpoint has_char (c : ascii) (s : string) : bool :=
  match s with
  | EmptyString => false
  | String c' s' => Ascii.eqb c c' || has_char c s'
  end.

Fixpoint join (sep : string) (l : list string) : string :=
  match l with
  | [] => ""
  | [x] => x
  | x :: l' => x ++ sep ++ join sep l'
  end.

(** [repr(s)] for a string: single quotes unless the text holds a single quote
    and no double quote; the chosen quote and the backslash are escaped, as
    are newline, carriage return and tab.  Other control characters (which
    Python prints as [\xNN]) are left as they are. *)
Fixpoint repr_body (q : ascii) (s : string) : string :=
  match s with
  | EmptyString => EmptyString
  | String c s' =>
      if Ascii.eqb c backslash then String backslash (String backslash (repr_body q s'))
      else if Ascii.eqb c q then String backslash (String q (repr_body q s'))
      else if Ascii.eqb c (ascii_of_nat 10) then String backslash (String "n" (repr_body q s'))
      else if Ascii.eqb c (ascii_of_nat 13) then String backslash (String "r" (repr_body q s'))
      else if Ascii.eqb c (ascii_of_nat 9) then String backslash (String "t" (repr_body q s'))
      else String c (repr_body q s')
  end.

Definition repr_str (s : string) : string :=
  let q := if has_char squote s && negb (has_char dquote s) then dquote else squote in
  String q (repr_body q s ++ String q EmptyString).

Definition string_of_Z (z : Z) : string :=
  DecimalString.NilZero.string_of_int (Z.to_int z).

(** [repr(v)]. *)
Fixpoint py_repr (v : PyVal) : string :=
  match v with
  | VNone => "None"
  | VBool true => "True"
  | VBool false => "False"
  | VInt z => string_of_Z z
  | VStr s => repr_str s
  | VList l => "[" ++ join ", " (map py_repr l) ++ "]"
  | VDict d =>
      "{" ++ join ", " (map (fun kv => repr_str (fst kv) ++ ": " ++ py_repr (snd kv)) d) ++ "}"
  end.

(** [str(v)]: the text itself for a string, [repr] for everything else. *)
Definition py_str (v : PyVal) : string :=
  match v with
  | VStr s => s
  | _ => py_repr v
  end.

(** The class name Python prints in type errors. *)
Definition type_name (v : PyVal) : string :=
  match v with
  | VNone => "NoneType"
  | VBool _ => "bool"
  | VInt _ => "int"
  | VStr _ => "str"
  | VList _ => "list"
  | VDict _ => "dict"
  end.

(** ** Exceptions *)

(** The dictionary an [MCPError] turns into: [{code, message, suggestion?}]. *)
Record ErrorDict : Type := mkError {
  code : string;
  message : string;
  suggestion : option string
}.

(** What a call can raise: an [MCPError], which carries the dictionary its
    [to_dict()] returns; any other [Exception], of which a handler only uses
    [str(e)]; an exception that is no [Exception] ([SystemExit],
    [KeyboardInterrupt], [GeneratorExit]), which [except Exception] does not
    catch; and an [Exception] that cannot be rendered: its [to_dict()], for an
    [MCPError], or its [str()], for any other, raises [inner] when a handler
    evaluates it. *)
Inductive PyExc : Type :=
| MCPError (d : ErrorDict)
| OtherException (msg : string)
| BaseException (name : string)
| Unprintable (inner : PyExc).

Inductive Outcome (A : Type) : Type :=
| Ok (a : A)
| Raise (e : PyExc).

Arguments Ok {A} a.
Arguments Raise {A} e.

Definition bind {A B : Type} (m : Outcome A) (f : A -> Outcome B) : Outcome B :=
  match m with
  | Ok a => f a
  | Raise e => Raise e
  end.

Notation "x <- m ;; k" := (bind m (fun x => k))
  (at level 61, m at next level, right associativity).
Notation "' p <- m ;; k" := (bind m (fun x => match x with p => k end))
  (at level 61, p pattern, m at next level, right associativity).

(** A [for] loop whose body may raise: the state is threaded through the
    elements and the first exception leaves the loop. *)
Fixpoint foldM {A S : Type} (f : S -> A -> Outcome S) (l : list A) (s : S)
    : Outcome S :=
  match l with
  | [] => Ok s
  | x :: l' => s' <- f s x ;; foldM f l' s'
  end.

Definition TypeError (msg : string) : PyExc := OtherException msg.
(** [str(KeyError(k))] is [repr(k)]. *)
Definition KeyError (k : string) : PyExc := OtherException (repr_str k).

(** [len(v)]. *)
Definition py_len (v : PyVal) : Outcome Z :=
  match v with
  | VStr s => Ok (Z.of_nat (String.length s))
  | VList l => Ok (Z.of_nat (List.length l))
  | VDict d => Ok (Z.of_nat (List.length d))
  | _ => Raise (TypeError ("object of type " ++ repr_str (type_name v) ++ " has no len()"))
  end.

(** [{**v, ...}]: the operand must be a mapping. *)
Definition py_mapping (v : PyVal) : Outcome Dict :=
  match v with
  | VDict d => Ok d
  | _ => Raise (TypeError (repr_str (type_name v) ++ " object is not a mapping"))
  end.

(** ** The title store and the taxonomy, as [get_news_for_summary] reads them *)

(** One title record: [info["ranks"]], [info.get("url")],
    [info.get("mobileUrl")].  A key the record does not have is [None]. *)
Record TitleInfo : Type := mkInfo {
  ranks : option (list Z);
  url : option string;
  mobileUrl : option string
}.

(** [titles]: title text to record, in insertion order. *)
Definition Titles : Type := list (string * TitleInfo).
(** [all_titles]: platform id to [titles], in insertion order. *)
Definition AllTitles : Type := list (string * Titles).
(** [id_to_name]: platform id to display name. *)
Definition IdToName : Type := list (string * string).

(** A taxonomy term comes as [{"word": ...}], as a bare string, or as a value
    of another type, which the engine skips. *)
Inductive WordEntry : Type :=
| WordDict (d : list (string * string))
| WordStr (s : string)
| WordOther.

(** A keyword group: [group.get("required")] and [group.get("normal")]. *)
Record WordGroup : Type := mkGroup {
  required : option (list WordEntry);
  normal : option (list WordEntry)
}.

(** The projection of a title record that the engine hands out.  [urls] holds
    [(url, mobile_url)] and is present only when URLs were asked for. *)
Record NewsItem : Type := mkItem {
  title : string;
  source_name : string;
  rank : Z;
  is_new : bool;
  urls : option (string * string)
}.

(** [keyword_to_news] and [platform_to_news]: key to list of items, keys in
    the order in which they were first inserted. *)
Definition Buckets : Type := list (string * list NewsItem).

(** [if key not in d: d[key] = []] followed by [d[key].append(item)]. *)
Fixpoint bucket_append (key : string) (item : NewsItem) (b : Buckets) : Buckets :=
  match b with
  | [] => [(key, [item])]
  | (k, l) :: b' =>
      if String.eqb key k then (k, (l ++ [item])%list) :: b'
      else (k, l) :: bucket_append key item b'
  end.

(** The two loops that fill [all_words] for one group. *)
Definition words_of (entries : list WordEntry) : list string :=
  flat_map (fun e =>
    match e with
    | WordDict d => [dict_get_default "word" "" d]
    | WordStr s => [s]
    | WordOther => []
    end) entries.

Definition entries_or_empty (o : option (list WordEntry)) : list WordEntry :=
  match o with
  | Some l => l
  | None => []
  end.

Definition all_words (g : WordGroup) : list string :=
  (words_of (entries_or_empty (required g)) ++ words_of (entries_or_empty (normal g)))%list.

(** [info["ranks"][0] if info["ranks"] else 0]. *)
Definition first_rank (info : TitleInfo) : Outcome Z :=
  match ranks info with
  | None => Raise (KeyError "ranks")
  | Some [] => Ok 0
  | Some (r :: _) => Ok r
  end.

(** [len(info.get("ranks", [])) == 1]. *)
Definition seen_once (info : TitleInfo) : bool :=
  match ranks info with
  | Some l => Nat.eqb (List.length l) 1
  | None => Nat.eqb (List.length (@nil Z)) 1
  end.

Definition string_or_empty (o : option string) : string :=
  match o with
  | Some s => s
  | None => ""
  end.

(** The [news_item] dictionary built for one title. *)
Definition make_news_item (include_url : bool) (platform_name t : string)
    (info : TitleInfo) : Outcome NewsItem :=
  r <- first_rank info ;;
  Ok {| title := t;
        source_name := platform_name;
        rank := r;
        is_new := seen_once info;
        urls := if include_url
                then Some (string_or_empty (url info), string_or_empty (mobileUrl info))
                else None |}.

(** [for word in all_words: if word and word in title: ...append(news_item)]. *)
Definition match_words (words : list string) (t : string) (item : NewsItem)
    (kw : Buckets) : Buckets :=
  fold_left (fun kw word =>
               if nonempty word && contains word t
               then bucket_append word item kw
               else kw)
            words kw.

(** [for group in word_groups: ...]. *)
Definition match_groups (word_groups : list WordGroup) (t : string)
    (item : NewsItem) (kw : Buckets) : Buckets :=
  fold_left (fun kw g => match_words (all_words g) t item kw) word_groups kw.

(** Body of [for title, info in titles.items()]; the state is
    [(keyword_to_news, platform_to_news)]. *)
Definition scan_title (include_url : bool) (word_groups : list WordGroup)
    (platform_id platform_name : string) (st : Buckets * Buckets)
    (rec : string * TitleInfo) : Outcome (Buckets * Buckets) :=
  item <- make_news_item include_url platform_name (fst rec) (snd rec) ;;
  let pf := bucket_append platform_id item (snd st) in
  let kw := match_groups word_groups (fst rec) item (fst st) in
  Ok (kw, pf).

(** Body of [for platform_id, titles in all_titles.items()]. *)
Definition scan_platform (include_url : bool) (word_groups : list WordGroup)
    (id_to_name : IdToName) (st : Buckets * Buckets)
    (p : string * Titles) : Outcome (Buckets * Buckets) :=
  let platform_name := dict_get_default (fst p) (fst p) id_to_name in
  foldM (scan_title include_url word_groups (fst p) platform_name) (snd p) st.

Definition build_buckets (include_url : bool) (word_groups : list WordGroup)
    (id_to_name : IdToName) (all_titles : AllTitles) : Outcome (Buckets * Buckets) :=
  foldM (scan_platform include_url word_groups id_to_name) all_titles ([], []).

(** ** Sorting

    [list.sort(key=...)] and [sorted(..., key=..., reverse=True)] are stable:
    elements with equal keys keep their order, also under [reverse=True].
    The stable arrangement of a list is unique, so a stable insertion sort
    gives the list Python's sort gives; the descending one is the stable
    ascending sort on the negated key. *)

Section Sort.
Context {A : Type} (key : A -> Z).

Fixpoint insert_on (x : A) (l : list A) : list A :=
  match l with
  | [] => [x]
  | y :: l' => if key x <=? key y then x :: y :: l' else y :: insert_on x l'
  end.

Fixpoint sort_on (l : list A) : list A :=
  match l with
  | [] => []
  | x :: l' => insert_on x (sort_on l')
  end.
End Sort.

Definition sort_desc_on {A : Type} (key : A -> Z) (l : list A) : list A :=
  sort_on (fun x => - key x) l.

Definition bucket_size (kv : string * list NewsItem) : Z :=
  Z.of_nat (List.length (snd kv)).

(** [sorted(buckets.items(), key=lambda x: len(x[1]), reverse=True)]. *)
Definition sorted_buckets (b : Buckets) : Buckets := sort_desc_on bucket_size b.

(** ** The groups of the answer *)

(** [{"keyword": ..., "count": ..., "news": ...}] *)
Record KeywordGroup : Type := mkKeywordGroup {
  keyword : string;
  kg_count : nat;
  kg_news : list NewsItem
}.

(** [{"platform": ..., "platform_name": ..., "count": ..., "news": ...}] *)
Record PlatformGroup : Type := mkPlatformGroup {
  platform : string;
  platform_name : string;
  pg_count : nat;
  pg_news : list NewsItem
}.

(** [news_list.sort(key=lambda x: x["rank"])] and
    [news_list[:max_news_per_keyword]], for a cap of at least 1. *)
Definition ranked (news_list : list NewsItem) : list NewsItem := sort_on rank news_list.
Definition limited (cap : Z) (news_list : list NewsItem) : list NewsItem :=
  firstn (Z.to_nat cap) news_list.

Definition keyword_group (cap : Z) (kv : string * list NewsItem) : KeywordGroup :=
  let news_list := ranked (snd kv) in
  {| keyword := fst kv;
     kg_count := List.length news_list;
     kg_news := limited cap news_list |}.

Definition platform_group (cap : Z) (id_to_name : IdToName)
    (kv : string * list NewsItem) : PlatformGroup :=
  let news_list := ranked (snd kv) in
  {| platform := fst kv;
     platform_name := dict_get_default (fst kv) (fst kv) id_to_name;
     pg_count := List.length news_list;
     pg_news := limited cap news_list |}.

Definition keyword_groups_of (cap : Z) (kw : Buckets) : list KeywordGroup :=
  map (keyword_group cap) (sorted_buckets kw).

Definition platform_groups_of (cap : Z) (id_to_name : IdToName) (pf : Buckets)
    : list PlatformGroup :=
  map (platform_group cap id_to_name) (sorted_buckets pf).

(** [sum(g["count"] for g in groups)]. *)
Definition sum_counts (counts : list nat) : nat := fold_right Nat.add 0%nat counts.

(** ** The collaborators *)

(** What [DataQueryTools] imports and calls: the validators of
    [utils.validators], the methods of [DataService] and of its parser.  Each
    one may return or raise.  [Date] is the [datetime] that
    [validate_date_query] returns and [strftime d] is
    [d.strftime("%Y-%m-%d")]. *)
Record Env : Type := mkEnv {
  Date : Type;
  strftime : Date -> string;
  validate_platforms : PyVal -> Outcome PyVal;
  validate_limit : PyVal -> Z -> Outcome PyVal;
  validate_keyword : PyVal -> Outcome PyVal;
  validate_date_range : PyVal -> Outcome PyVal;
  validate_top_n : PyVal -> Z -> Outcome PyVal;
  validate_mode : PyVal -> list string -> string -> Outcome PyVal;
  validate_date_query : PyVal -> Outcome Date;
  normalize_date_range : PyVal -> Outcome PyVal;
  ds_get_latest_news : PyVal -> PyVal -> bool -> Outcome PyVal;
  ds_search_news_by_keyword : PyVal -> PyVal -> PyVal -> PyVal -> Outcome PyVal;
  ds_get_trending_topics : PyVal -> PyVal -> PyVal -> Outcome PyVal;
  ds_get_news_by_date : Date -> PyVal -> PyVal -> bool -> Outcome PyVal;
  ds_get_latest_rss : PyVal -> PyVal -> bool -> Outcome PyVal;
  ds_search_rss : PyVal -> PyVal -> PyVal -> PyVal -> bool -> Outcome PyVal;
  ds_get_rss_feeds_status : Outcome PyVal;
  read_all_titles_for_date : Date -> Outcome (AllTitles * IdToName * PyVal);
  parse_frequency_words : Outcome (list WordGroup)
}.

(** ** The response envelope *)

(** [Success p] is the dictionary [{**p, "success": True}] and [Failure e] is
    [{"success": False, "error": e}]. *)
Inductive Response (P : Type) : Type :=
| Success (payload : P)
| Failure (error : ErrorDict).

Arguments Success {P} payload.
Arguments Failure {P} error.

Definition is_success {P : Type} (r : Response P) : bool :=
  match r with
  | Success _ => true
  | Failure _ => false
  end.

(** [d[k] = v] on an insertion-ordered dictionary: a key that is present
    keeps its place. *)
Fixpoint dict_set (k : string) (v : PyVal) (d : Dict) : Dict :=
  match d with
  | [] => [(k, v)]
  | (k', v') :: d' =>
      if String.eqb k k' then (k', v) :: d' else (k', v') :: dict_set k v d'
  end.

Definition error_dict (e : ErrorDict) : Dict :=
  ([("code", VStr (code e)); ("message", VStr (message e))]
   ++ match suggestion e with
      | Some s => [("suggestion", VStr s)]
      | None => []
      end)%list.

(** The dictionary a response of a list-style operation stands for. *)
Definition response_dict (r : Response Dict) : Dict :=
  match r with
  | Success p => dict_set "success" (VBool true) p
  | Failure e => [("success", VBool false); ("error", VDict (error_dict e))]
  end.

(** The two [except] clauses that close every operation. *)
Definition try_except {P : Type} (body : Outcome (Response P))
    : Outcome (Response P) :=
  match body with
  | Ok r => Ok r
  | Raise (MCPError d) => Ok (Failure d)
  | Raise (OtherException msg) =>
      Ok (Failure {| code := "INTERNAL_ERROR"; message := msg; suggestion := None |})
  | Raise (BaseException name) => Raise (BaseException name)
  | Raise (Unprintable inner) => Raise inner
  end.

(** ** Small pieces of Python the operations use *)

(** [v in [s1, s2, ...]] for a list of strings. *)
Definition py_in_strings (v : PyVal) (l : list string) : bool :=
  match v with
  | VStr s => existsb (String.eqb s) l
  | _ => false
  end.

(** The integer an [int] instance stands for ([bool] is a subclass of [int]);
    [None] for a value that is not an [int]. *)
Definition py_int_value (v : PyVal) : option Z :=
  match v with
  | VInt z => Some z
  | VBool true => Some 1
  | VBool false => Some 0
  | _ => None
  end.

Definition today_word : string := "今天".

(** ** The operations *)

Definition get_latest_news_body (E : Env) (platforms limit : PyVal)
    (include_url : bool) : Outcome (Response Dict) :=
  platforms <- validate_platforms E platforms ;;
  limit <- validate_limit E limit 50 ;;
  news_list <- ds_get_latest_news E platforms limit include_url ;;
  total <- py_len news_list ;;
  Ok (Success [("news", news_list); ("total", VInt total); ("platforms", platforms)]).

Definition get_latest_news (E : Env) (platforms limit : PyVal)
    (include_url : bool) : Outcome (Response Dict) :=
  try_except (get_latest_news_body E platforms limit include_url).

Definition search_news_by_keyword_body (E : Env)
    (keyword date_range platforms limit : PyVal) : Outcome (Response Dict) :=
  keyword <- validate_keyword E keyword ;;
  date_range_tuple <- validate_date_range E date_range ;;
  platforms <- validate_platforms E platforms ;;
  limit <- match limit with
           | VNone => Ok VNone
           | _ => validate_limit E limit 100
           end ;;
  search_result <- ds_search_news_by_keyword E keyword date_range_tuple platforms limit ;;
  payload <- py_mapping search_result ;;
  Ok (Success payload).

Definition search_news_by_keyword (E : Env)
    (keyword date_range platforms limit : PyVal) : Outcome (Response Dict) :=
  try_except (search_news_by_keyword_body E keyword date_range platforms limit).

Definition get_trending_topics_body (E : Env) (top_n mode extract_mode : PyVal)
    : Outcome (Response Dict) :=
  top_n <- validate_top_n E top_n 10 ;;
  mode <- validate_mode E mode ["daily"; "current"] "current" ;;
  let proceed (extract_mode : PyVal) :=
    trending_result <- ds_get_trending_topics E top_n mode extract_mode ;;
    payload <- py_mapping trending_result ;;
    Ok (Success payload) in
  match extract_mode with
  | VNone => proceed (VStr "keywords")
  | _ =>
      if negb (py_in_strings extract_mode ["keywords"; "auto_extract"])
      then Ok (Failure {| code := "INVALID_PARAMETER";
                          message := "不支持的提取模式: " ++ py_str extract_mode;
                          suggestion := Some "支持的模式: keywords, auto_extract" |})
      else proceed extract_mode
  end.

Definition get_trending_topics (E : Env) (top_n mode extract_mode : PyVal)
    : Outcome (Response Dict) :=
  try_except (get_trending_topics_body E top_n mode extract_mode).

Definition get_news_by_date_body (E : Env) (date_range platforms limit : PyVal)
    (include_url : bool) : Outcome (Response Dict) :=
  let date_range := match date_range with
                    | VNone => VStr today_word
                    | _ => date_range
                    end in
  date_range <- normalize_date_range E date_range ;;
  let date_str := match date_range with
                  | VDict d => dict_get_default "start" (VStr today_word) d
                  | _ => date_range
                  end in
  target_date <- validate_date_query E date_str ;;
  platforms <- validate_platforms E platforms ;;
  limit <- validate_limit E limit 50 ;;
  news_list <- ds_get_news_by_date E target_date platforms limit include_url ;;
  total <- py_len news_list ;;
  Ok (Success [("news", news_list); ("total", VInt total);
               ("date", VStr (strftime E target_date));
               ("date_range", date_range); ("platforms", platforms)]).

Definition get_news_by_date (E : Env) (date_range platforms limit : PyVal)
    (include_url : bool) : Outcome (Response Dict) :=
  try_except (get_news_by_date_body E date_range platforms limit include_url).

Definition get_latest_rss_body (E : Env) (feeds limit : PyVal)
    (include_summary : bool) : Outcome (Response Dict) :=
  limit <- validate_limit E limit 50 ;;
  rss_list <- ds_get_latest_rss E feeds limit include_summary ;;
  total <- py_len rss_list ;;
  Ok (Success [("rss", rss_list); ("total", VInt total); ("feeds", feeds)]).

Definition get_latest_rss (E : Env) (feeds limit : PyVal)
    (include_summary : bool) : Outcome (Response Dict) :=
  try_except (get_latest_rss_body E feeds limit include_summary).

(** [if days < 1 or days > 30: days = 7]; comparing a value that is not a
    number with [1] raises [TypeError]. *)
Definition effective_days (days : PyVal) : Outcome PyVal :=
  match py_int_value days with
  | Some z => Ok (if (z <? 1) || (z >? 30) then VInt 7 else days)
  | None =>
      Raise (TypeError ("'<' not supported between instances of "
                        ++ repr_str (type_name days) ++ " and 'int'"))
  end.

Definition search_rss_body (E : Env) (keyword feeds days limit : PyVal)
    (include_summary : bool) : Outcome (Response Dict) :=
  keyword <- validate_keyword E keyword ;;
  limit <- validate_limit E limit 50 ;;
  days <- effective_days days ;;
  rss_list <- ds_search_rss E keyword feeds days limit include_summary ;;
  total <- py_len rss_list ;;
  Ok (Success [("rss", rss_list); ("total", VInt total); ("keyword", keyword);
               ("feeds", feeds); ("days", days)]).

Definition search_rss (E : Env) (keyword feeds days limit : PyVal)
    (include_summary : bool) : Outcome (Response Dict) :=
  try_except (search_rss_body E keyword feeds days limit include_summary).

Definition get_rss_feeds_status_body (E : Env) : Outcome (Response Dict) :=
  status <- ds_get_rss_feeds_status E ;;
  payload <- py_mapping status ;;
  Ok (Success payload).

Definition get_rss_feeds_status (E : Env) : Outcome (Response Dict) :=
  try_except (get_rss_feeds_status_body E).

(** ** [get_news_for_summary] *)

(** The success dictionary of keyword grouping. *)
Record KeywordSummary : Type := mkKeywordSummary {
  ks_date : string;
  ks_mode : PyVal;
  ks_group_by : string;
  total_keywords : nat;
  ks_total_news : nat;
  keyword_groups : list KeywordGroup
}.

(** The success dictionary of platform grouping. *)
Record PlatformSummary : Type := mkPlatformSummary {
  ps_date : string;
  ps_mode : PyVal;
  ps_group_by : string;
  total_platforms : nat;
  ps_total_news : nat;
  platform_groups : list PlatformGroup
}.

Inductive Summary : Type :=
| ByKeyword (s : KeywordSummary)
| ByPlatform (s : PlatformSummary).

(** [if group_by not in ["keyword", "platform"]: group_by = "keyword"]. *)
Definition effective_group_by (group_by : PyVal) : string :=
  match group_by with
  | VStr s => if py_in_strings group_by ["keyword"; "platform"] then s else "keyword"
  | _ => "keyword"
  end.

(** [if not isinstance(n, int) or n < 1: n = 10]. *)
Definition effective_cap (max_news_per_keyword : PyVal) : Z :=
  match py_int_value max_news_per_keyword with
  | Some z => if z <? 1 then 10 else z
  | None => 10
  end.

(** The text of [date_range] that goes to [normalize_date_range]: ["今天"] for
    [None], and [str(date_range)] for a value that is not a string. *)
Definition date_range_text (date_range : PyVal) : PyVal :=
  let date_range := match date_range with
                    | VNone => VStr today_word
                    | _ => date_range
                    end in
  match date_range with
  | VStr _ => date_range
  | _ => VStr (py_str date_range)
  end.

(** The expression handed to [validate_date_query]. *)
Definition summary_date_str (normalized_range : PyVal) : PyVal :=
  match normalized_range with
  | VDict d => dict_get_default "start" (VStr today_word) d
  | VStr _ => normalized_range
  | _ => VStr today_word
  end.

Definition data_not_found (date_str : PyVal) : ErrorDict :=
  {| code := "DATA_NOT_FOUND";
     message := "未找到 " ++ py_str date_str ++ " 的新闻数据";
     suggestion := Some "请确保爬虫已经运行并生成了数据" |}.

Definition keyword_summary (date : string) (mode : PyVal) (group_by : string)
    (groups : list KeywordGroup) : KeywordSummary :=
  {| ks_date := date;
     ks_mode := mode;
     ks_group_by := group_by;
     total_keywords := List.length groups;
     ks_total_news := sum_counts (map kg_count groups);
     keyword_groups := groups |}.

Definition platform_summary (date : string) (mode : PyVal) (group_by : string)
    (groups : list PlatformGroup) : PlatformSummary :=
  {| ps_date := date;
     ps_mode := mode;
     ps_group_by := group_by;
     total_platforms := List.length groups;
     ps_total_news := sum_counts (map pg_count groups);
     platform_groups := groups |}.

(** What follows the [if not all_titles] test. *)
Definition summarize (E : Env) (target_date : Date E) (mode : PyVal)
    (group_by : string) (cap : Z) (include_url : bool)
    (all_titles : AllTitles) (id_to_name : IdToName)
    : Outcome (Response Summary) :=
  word_groups <- parse_frequency_words E ;;
  st <- build_buckets include_url word_groups id_to_name all_titles ;;
  let keyword_to_news := fst st in
  let platform_to_news := snd st in
  if String.eqb group_by "keyword"
  then Ok (Success (ByKeyword
             (keyword_summary (strftime E target_date) mode group_by
                (keyword_groups_of cap keyword_to_news))))
  else Ok (Success (ByPlatform
             (platform_summary (strftime E target_date) mode group_by
                (platform_groups_of cap id_to_name platform_to_news)))).

Definition get_news_for_summary_body (E : Env)
    (date_range mode group_by max_news_per_keyword : PyVal) (include_url : bool)
    : Outcome (Response Summary) :=
  mode <- validate_mode E mode ["daily"; "current"; "incremental"] "daily" ;;
  let group_by := effective_group_by group_by in
  let cap := effective_cap max_news_per_keyword in
  let date_range := date_range_text date_range in
  normalized_range <- normalize_date_range E date_range ;;
  let date_str := summary_date_str normalized_range in
  target_date <- validate_date_query E date_str ;;
  data <- read_all_titles_for_date E target_date ;;
  let all_titles := fst (fst data) in
  let id_to_name := snd (fst data) in
  match all_titles with
  | [] => Ok (Failure (data_not_found date_str))
  | _ :: _ => summarize E target_date mode group_by cap include_url all_titles id_to_name
  end.

Definition get_news_for_summary (E : Env)
    (date_range mode group_by max_news_per_keyword : PyVal) (include_url : bool)
    : Outcome (Response Summary) :=
  try_except (get_news_for_summary_body E date_range mode group_by
                max_news_per_keyword include_url).

(** The groups of a summary, whichever the grouping: key, count, news. *)
Definition group_views (s : Summary) : list (string * nat * list NewsItem) :=
  match s with
  | ByKeyword k => map (fun g => (keyword g, kg_count g, kg_news g)) (keyword_groups k)
  | ByPlatform p => map (fun g => (platform g, pg_count g, pg_news g)) (platform_groups p)
  end.

Definition total_news (s : Summary) : nat :=
  match s with
  | ByKeyword k => ks_total_news k
  | ByPlatform p => ps_total_news p
  end.

(** ** The date resolver

    [normalize_date_range] and [validate_date_query] live in
    [utils/validators.py], which is not among the sources at hand.  The two
    definitions of this section follow section 4.1 of the specification and
    serve as a reference environment in which the operations can be run. *)

Definition is_space (c : ascii) : bool :=
  Ascii.eqb c " " || Ascii.eqb c (ascii_of_nat 9)
  || Ascii.eqb c (ascii_of_nat 10) || Ascii.eqb c (ascii_of_nat 13).

Definition snoc (s : string) (c : ascii) : string := s ++ String c EmptyString.

(** Where the reader of a serialized range object stands. *)
Inductive JState : Type :=
| JOpen
| JKeyOrClose
| JKey
| JInKey (acc : string) (escaped : bool)
| JColon (key : string)
| JValue (key : string)
| JInValue (key : string) (acc : string) (escaped : bool)
| JCommaOrClose
| JDone.

(** The character a JSON escape stands for; [\u] escapes are not read. *)
Definition json_unescape (c : ascii) : option ascii :=
  if Ascii.eqb c dquote then Some dquote
  else if Ascii.eqb c backslash then Some backslash
  else if Ascii.eqb c "/" then Some "/"%char
  else if Ascii.eqb c "n" then Some (ascii_of_nat 10)
  else if Ascii.eqb c "r" then Some (ascii_of_nat 13)
  else if Ascii.eqb c "t" then Some (ascii_of_nat 9)
  else if Ascii.eqb c "b" then Some (ascii_of_nat 8)
  else if Ascii.eqb c "f" then Some (ascii_of_nat 12)
  else None.

(** Reads a JSON object whose members are all strings; a repeated key keeps
    its last value. *)
Fixpoint json_scan (st : JState) (members : Dict) (s : string) : option Dict :=
  match s with
  | EmptyString =>
      match st with
      | JDone => Some members
      | _ => None
      end
  | String c s' =>
      match st with
      | JOpen =>
          if is_space c then json_scan JOpen members s'
          else if Ascii.eqb c "{" then json_scan JKeyOrClose members s'
          else None
      | JKeyOrClose =>
          if is_space c then json_scan JKeyOrClose members s'
          else if Ascii.eqb c "}" then json_scan JDone members s'
          else if Ascii.eqb c dquote then json_scan (JInKey "" false) members s'
          else None
      | JKey =>
          if is_space c then json_scan JKey members s'
          else if Ascii.eqb c dquote then json_scan (JInKey "" false) members s'
          else None
      | JInKey acc true =>
          match json_unescape c with
          | Some c' => json_scan (JInKey (snoc acc c') false) members s'
          | None => None
          end
      | JInKey acc false =>
          if Ascii.eqb c backslash then json_scan (JInKey acc true) members s'
          else if Ascii.eqb c dquote then json_scan (JColon acc) members s'
          else json_scan (JInKey (snoc acc c) false) members s'
      | JColon key =>
          if is_space c then json_scan (JColon key) members s'
          else if Ascii.eqb c ":" then json_scan (JValue key) members s'
          else None
      | JValue key =>
          if is_space c then json_scan (JValue key) members s'
          else if Ascii.eqb c dquote then json_scan (JInValue key "" false) members s'
          else None
      | JInValue key acc true =>
          match json_unescape c with
          | Some c' => json_scan (JInValue key (snoc acc c') false) members s'
          | None => None
          end
      | JInValue key acc false =>
          if Ascii.eqb c backslash then json_scan (JInValue key acc true) members s'
          else if Ascii.eqb c dquote
          then json_scan JCommaOrClose (dict_set key (VStr acc) members) s'
          else json_scan (JInValue key (snoc acc c) false) members s'
      | JCommaOrClose =>
          if is_space c then json_scan JCommaOrClose members s'
          else if Ascii.eqb c "," then json_scan JKey members s'
          else if Ascii.eqb c "}" then json_scan JDone members s'
          else None
      | JDone =>
          if is_space c then json_scan JDone members s' else None
      end
  end.

Definition json_object (s : string) : option Dict := json_scan JOpen [] s.

(** Modelled from the spec: [normalize_date_range] of [utils/validators.py],
    which is not in the sources.  A text that is the JSON serialization of a
    range object [{start, end}] becomes that object; every other value is
    returned as it is. *)
Definition spec_normalize_date_range (v : PyVal) : Outcome PyVal :=
  match v with
  | VStr s =>
      match json_object s with
      | Some d => if dict_mem "start" d && dict_mem "end" d then Ok (VDict d) else Ok v
      | None => Ok v
      end
  | _ => Ok v
  end.

(** A calendar date. *)
Record CalDate : Type := mkDate {
  year : Z;
  month : Z;
  day : Z
}.

Definition is_leap (y : Z) : bool :=
  (y mod 4 =? 0) && (negb (y mod 100 =? 0) || (y mod 400 =? 0)).

Definition days_in_month (y m : Z) : Z :=
  if m =? 2 then (if is_leap y then 29 else 28)
  else if (m =? 4) || (m =? 6) || (m =? 9) || (m =? 11) then 30
  else 31.

Definition prev_day (d : CalDate) : CalDate :=
  if 1 <? day d then mkDate (year d) (month d) (day d - 1)
  else if 1 <? month d
       then mkDate (year d) (month d - 1) (days_in_month (year d) (month d - 1))
       else mkDate (year d - 1) 12 31.

Fixpoint days_before (n : nat) (d : CalDate) : CalDate :=
  match n with
  | O => d
  | S n' => days_before n' (prev_day d)
  end.

Definition digit_value (c : ascii) : option Z :=
  let n := nat_of_ascii c in
  if ((48 <=? n) && (n <=? 57))%nat then Some (Z.of_nat n - 48) else None.

(** The number a run of decimal digits denotes, most significant first. *)
Fixpoint digits_value (acc : Z) (s : string) : option Z :=
  match s with
  | EmptyString => Some acc
  | String c s' =>
      match digit_value c with
      | Some v => digits_value (10 * acc + v) s'
      | None => None
      end
  end.

Definition number_of (s : string) : option Z :=
  if nonempty s then digits_value 0 s else None.

(** [YYYY-MM-DD] with a month and a day that exist. *)
Definition parse_iso_date (s : string) : option CalDate :=
  if negb (Nat.eqb (String.length s) 10) then None
  else if negb (String.eqb (substring 4 1 s) "-" && String.eqb (substring 7 1 s) "-")
  then None
  else
    match number_of (substring 0 4 s), number_of (substring 5 2 s),
          number_of (substring 8 2 s) with
    | Some y, Some m, Some d =>
        if (1 <=? m) && (m <=? 12) && (1 <=? d) && (d <=? days_in_month y m)
        then Some (mkDate y m d)
        else None
    | _, _, _ => None
    end.

(** [s] without the ending [suffix], when it ends with it. *)
Definition strip_suffix (suffix s : string) : option string :=
  let n := (String.length s - String.length suffix)%nat in
  if (String.length suffix <=? String.length s)%nat
     && String.eqb (substring n (String.length suffix) s) suffix
  then Some (substring 0 n s)
  else None.

(** ["today"], ["yesterday"] and ["N days ago"], in either language. *)
Definition parse_relative_date (today : CalDate) (s : string) : option CalDate :=
  if String.eqb s today_word || String.eqb s "today" then Some today
  else if String.eqb s "昨天" || String.eqb s "yesterday" then Some (prev_day today)
  else
    let count := match strip_suffix "天前" s with
                 | Some n => number_of n
                 | None =>
                     match strip_suffix " days ago" s with
                     | Some n => number_of n
                     | None => None
                     end
                 end in
    match count with
    | Some n => Some (days_before (Z.to_nat n) today)
    | None => None
    end.

Definition invalid_date (expr : PyVal) : ErrorDict :=
  {| code := "INVALID_PARAMETER";
     message := "unparsable date expression: " ++ py_str expr;
     suggestion := Some "use YYYY-MM-DD, today, yesterday or N days ago" |}.

(** Modelled from the spec: [validate_date_query] of [utils/validators.py],
    which is not in the sources.  A relative expression is tried first, then
    a literal date; the first that parses wins, and an expression that
    neither parses is a validation error. *)
Definition spec_validate_date_query (today : CalDate) (v : PyVal) : Outcome CalDate :=
  match v with
  | VStr s =>
      match parse_relative_date today s with
      | Some d => Ok d
      | None =>
          match parse_iso_date s with
          | Some d => Ok d
          | None => Raise (MCPError (invalid_date v))
          end
      end
  | _ => Raise (MCPError (invalid_date v))
  end.

Definition pad (width : nat) (z : Z) : string :=
  let s := string_of_Z z in
  (fold_right (fun _ acc => String "0" acc) "" (seq 0 (width - String.length s)) ++ s).

(** [d.strftime("%Y-%m-%d")]. *)
Definition cal_strftime (d : CalDate) : string :=
  pad 4 (year d) ++ "-" ++ pad 2 (month d) ++ "-" ++ pad 2 (day d).

(** Modelled from the spec: [validate_mode] of [utils/validators.py], which
    is not in the sources.  A missing mode is the default and a mode outside
    the valid ones is a validation error. *)
Definition spec_validate_mode (mode : PyVal) (valid : list string)
    (default : string) : Outcome PyVal :=
  match mode with
  | VNone => Ok (VStr default)
  | _ =>
      if py_in_strings mode valid then Ok mode
      else Raise (MCPError {| code := "INVALID_PARAMETER";
                              message := "unsupported mode: " ++ py_str mode;
                              suggestion := Some (join ", " valid) |})
  end.

(** A reference environment: the date resolver above, a title store and a
    taxonomy given as data, validators that accept what they get, and a data
    service that answers with the arguments it was called with. *)
Definition reference_env (today : CalDate)
    (store : CalDate -> Outcome (AllTitles * IdToName * PyVal))
    (taxonomy : Outcome (list WordGroup)) : Env :=
  {| Date := CalDate;
     strftime := cal_strftime;
     validate_platforms := fun v => Ok v;
     validate_limit := fun v dflt => match v with VNone => Ok (VInt dflt) | _ => Ok v end;
     validate_keyword := fun v => Ok v;
     validate_date_range := fun v => Ok v;
     validate_top_n := fun v dflt => match v with VNone => Ok (VInt dflt) | _ => Ok v end;
     validate_mode := spec_validate_mode;
     validate_date_query := spec_validate_date_query today;
     normalize_date_range := spec_normalize_date_range;
     ds_get_latest_news := fun platforms limit _ => Ok (VList [platforms; limit]);
     ds_search_news_by_keyword := fun keyword range platforms limit =>
       Ok (VDict [("keyword", keyword); ("date_range", range);
                  ("platforms", platforms); ("limit", limit)]);
     ds_get_trending_topics := fun top_n mode extract_mode =>
       Ok (VDict [("top_n", top_n); ("mode", mode); ("extract_mode", extract_mode)]);
     ds_get_news_by_date := fun date platforms limit _ =>
       Ok (VList [VStr (cal_strftime date); platforms; limit]);
     ds_get_latest_rss := fun feeds limit _ => Ok (VList [feeds; limit]);
     ds_search_rss := fun keyword feeds days limit _ =>
       Ok (VList [keyword; feeds; days; limit]);
     ds_get_rss_feeds_status := Ok (VDict []);
     read_all_titles_for_date := store;
     parse_frequency_words := taxonomy |}.

(** [json.dumps(r)] of a range object. *)
Definition quoted (s : string) : string := String dquote (s ++ String dquote EmptyString).

Definition json_range (s e : string) : string :=
  "{" ++ quoted "start" ++ ": " ++ quoted s ++ ", " ++ quoted "end" ++ ": " ++ quoted e ++ "}".

(** The same text with no blanks, as the specification writes it. *)
Definition json_range_compact (s e : string) : string :=
  "{" ++ quoted "start" ++ ":" ++ quoted s ++ "," ++ quoted "end" ++ ":" ++ quoted e ++ "}".

Definition range_object (s e : string) : PyVal :=
  VDict [("start", VStr s); ("end", VStr e)].

(** ** Views of the engine used to state its properties *)

Local Open Scope list_scope.

(** [buckets.get(key, [])]. *)
Definition bucket_of (key : string) (b : Buckets) : list NewsItem :=
  dict_get_default key [] b.

(** Appending a run of [(key, item)] pairs, one after the other. *)
Definition add_events (evs : list (string * NewsItem)) (b : Buckets) : Buckets :=
  fold_left (fun b e => bucket_append (fst e) (snd e) b) evs b.

(** The items of [evs] that go to [key], in the order of [evs]. *)
Definition events_for (key : string) (evs : list (string * NewsItem)) : list NewsItem :=
  map snd (filter (fun e => String.eqb key (fst e)) evs).

(** The keys of [evs] in the order of their first occurrence. *)
Definition insertion_order (evs : list (string * NewsItem)) : list string :=
  fold_left (fun ks e => if existsb (String.eqb (fst e)) ks then ks else ks ++ [fst e])
            evs [].

(** One step of the two nested loops: a title record together with the
    platform it is met under. *)
Record Visit : Type := mkVisit {
  at_platform : string;
  at_name : string;
  at_title : string;
  at_info : TitleInfo
}.

(** The title records in the order in which the loops over platforms and
    titles meet them. *)
Definition visits (id_to_name : IdToName) (all_titles : AllTitles) : list Visit :=
  flat_map (fun p =>
              map (fun rec => mkVisit (fst p) (dict_get_default (fst p) (fst p) id_to_name)
                                      (fst rec) (snd rec))
                  (snd p))
           all_titles.

Fixpoint mapM {A B : Type} (f : A -> Outcome B) (l : list A) : Outcome (list B) :=
  match l with
  | [] => Ok []
  | x :: l' => y <- f x ;; ys <- mapM f l' ;; Ok (y :: ys)
  end.

Definition visit_item (include_url : bool) (v : Visit) : Outcome (string * NewsItem) :=
  item <- make_news_item include_url (at_name v) (at_title v) (at_info v) ;;
  Ok (at_platform v, item).

(** The news items in encounter order, each with the id of its platform. *)
Definition scanned (include_url : bool) (id_to_name : IdToName)
    (all_titles : AllTitles) : Outcome (list (string * NewsItem)) :=
  mapM (visit_item include_url) (visits id_to_name all_titles).

(** The candidate terms of the whole taxonomy, group after group. *)
Definition candidate_terms (word_groups : list WordGroup) : list string :=
  flat_map all_words word_groups.

Definition term_matches (t : string) (word : string) : bool :=
  nonempty word && contains word t.

(** The [(term, item)] pairs the matching loops append, in order. *)
Definition keyword_events (word_groups : list WordGroup)
    (items : list (string * NewsItem)) : list (string * NewsItem) :=
  flat_map (fun it =>
              map (fun w => (w, snd it))
                  (filter (term_matches (title (snd it))) (candidate_terms word_groups)))
           items.

(** The bucket dictionary the answer is built from. *)
Definition chosen_buckets (group_by : PyVal) (kw pf : Buckets) : Buckets :=
  if String.eqb (effective_group_by group_by) "keyword" then kw else pf.

(** The group a bucket turns into: key, count before the cap, capped news. *)
Definition bucket_view (cap : Z) (kv : string * list NewsItem)
    : string * nat * list NewsItem :=
  (fst kv, List.length (snd kv), limited cap (ranked (snd kv))).

Definition group_key (g : string * nat * list NewsItem) : string := fst (fst g).
Definition group_count (g : string * nat * list NewsItem) : nat := snd (fst g).
Definition group_news (g : string * nat * list NewsItem) : list NewsItem := snd g.




(** Every bucket holds its items in the order the scan met them. *)
Definition in_encounter_order (word_groups : list WordGroup)
    (items : list (string * NewsItem)) (kw pf : Buckets) : Prop :=
  forall key,
    bucket_of key kw = events_for key (keyword_events word_groups items) /\
    bucket_of key pf = events_for key items.

(** Groups descend in count, and those of one count stand in the order of
    the bucket dictionary [b]. *)
Definition by_descending_count (b : Buckets)
    (groups : list (string * nat * list NewsItem)) : Prop :=
  StronglySorted (fun x y => (group_count y <= group_count x)%nat) groups /\
  forall c : nat,
    map group_key (filter (fun g => Nat.eqb (group_count g) c) groups)
    = map fst (filter (fun kv => Nat.eqb (List.length (snd kv)) c) b).

(** A call that got as far as filling the buckets: every collaborator
    returned, the store had titles, and the scan met [items] and left
    [keyword_to_news = kw] and [platform_to_news = pf]. *)
Definition collected (E : Env) (date_range mode : PyVal) (include_url : bool)
    (word_groups : list WordGroup) (items : list (string * NewsItem))
    (kw pf : Buckets) : Prop :=
  exists mode' normalized target_date all_titles id_to_name timestamps,
    validate_mode E mode ["daily"; "current"; "incremental"] "daily" = Ok mode' /\
    normalize_date_range E (date_range_text date_range) = Ok normalized /\
    validate_date_query E (summary_date_str normalized) = Ok target_date /\
    read_all_titles_for_date E target_date = Ok (all_titles, id_to_name, timestamps) /\
    all_titles <> [] /\
    parse_frequency_words E = Ok word_groups /\
    scanned include_url id_to_name all_titles = Ok items /\
    build_buckets include_url word_groups id_to_name all_titles = Ok (kw, pf).

(** How often a title occurs in a list of items. *)
Definition count_title (t : string) (news : list NewsItem) : nat :=
  List.length (filter (fun it => String.eqb (title it) t) news).

(** How often a term occurs among the candidate terms. *)
Definition term_multiplicity (word : string) (word_groups : list WordGroup) : nat :=
  count_occ string_dec (candidate_terms word_groups) word.

(** Following the spec's words: [days] clamped to the interval from 1 to 30. *)
Definition clamp_days (z : Z) : Z := Z.max 1 (Z.min 30 z).

(** What [search_rss] does with [days]: a value outside the interval is
    replaced by 7. *)
Definition days_used (z : Z) : Z := if (z <? 1) || (z >? 30) then 7 else z.

(** The failure an exception turns into at the end of an operation. *)
Definition internal_error (msg : string) : ErrorDict :=
  {| code := "INTERNAL_ERROR"; message := msg; suggestion := None |}.

(** What an operation does, given how its [try] block ended: it returns
    what the block returned, turns an [MCPError] and any other [Exception]
    into a failure, and lets everything else through. *)
Definition enveloped {P : Type} (body result : Outcome (Response P)) : Prop :=
  match body with
  | Ok r => result = Ok r
  | Raise (MCPError d) => result = Ok (Failure d)
  | Raise (OtherException msg) => result = Ok (Failure (internal_error msg))
  | Raise (BaseException name) => result = Raise (BaseException name)
  | Raise (Unprintable inner) => result = Raise inner
  end.

(** An exception that the two [except] clauses turn into a failure. *)
Definition catchable (e : PyExc) : Prop :=
  match e with
  | MCPError _ | OtherException _ => True
  | BaseException _ | Unprintable _ => False
  end.

(** [e] is raised by a collaborator, for some arguments. *)
Inductive raised_in (E : Env) (e : PyExc) : Prop :=
| raised_validate_platforms v :
    validate_platforms E v = Raise e -> raised_in E e
| raised_validate_limit v dflt :
    validate_limit E v dflt = Raise e -> raised_in E e
| raised_validate_keyword v :
    validate_keyword E v = Raise e -> raised_in E e
| raised_validate_date_range v :
    validate_date_range E v = Raise e -> raised_in E e
| raised_validate_top_n v dflt :
    validate_top_n E v dflt = Raise e -> raised_in E e
| raised_validate_mode v valid dflt :
    validate_mode E v valid dflt = Raise e -> raised_in E e
| raised_validate_date_query v :
    validate_date_query E v = Raise e -> raised_in E e
| raised_normalize_date_range v :
    normalize_date_range E v = Raise e -> raised_in E e
| raised_get_latest_news platforms limit include_url :
    ds_get_latest_news E platforms limit include_url = Raise e -> raised_in E e
| raised_search_news_by_keyword keyword range platforms limit :
    ds_search_news_by_keyword E keyword range platforms limit = Raise e ->
    raised_in E e
| raised_get_trending_topics top_n mode extract_mode :
    ds_get_trending_topics E top_n mode extract_mode = Raise e -> raised_in E e
| raised_get_news_by_date target_date platforms limit include_url :
    ds_get_news_by_date E target_date platforms limit include_url = Raise e ->
    raised_in E e
| raised_get_latest_rss feeds limit include_summary :
    ds_get_latest_rss E feeds limit include_summary = Raise e -> raised_in E e
| raised_search_rss keyword feeds days limit include_summary :
    ds_search_rss E keyword feeds days limit include_summary = Raise e ->
    raised_in E e
| raised_get_rss_feeds_status :
    ds_get_rss_feeds_status E = Raise e -> raised_in E e
| raised_read_all_titles target_date :
    read_all_titles_for_date E target_date = Raise e -> raised_in E e
| raised_parse_frequency_words :
    parse_frequency_words E = Raise e -> raised_in E e.

(** [e] is raised by the Python of an operation itself: by [len], by the
    [**] spread, by the comparison of [days], or by [info["ranks"]]. *)
Inductive own_exception (e : PyExc) : Prop :=
| own_len v : py_len v = Raise e -> own_exception e
| own_mapping v : py_mapping v = Raise e -> own_exception e
| own_days v : effective_days v = Raise e -> own_exception e
| own_ranks : e = KeyError "ranks" -> own_exception e.

(** Where a response comes from: a success; the dictionary of an [MCPError]
    that a collaborator raised; the [INTERNAL_ERROR] failure carrying the
    message of another exception, raised by a collaborator or by the
    operation's own Python; or an explicit failure return, whose code is
    among [codes]. *)
Definition explained {P : Type} (E : Env) (codes : list string)
    (r : Response P) : Prop :=
  match r with
  | Success _ => True
  | Failure err =>
      (exists d, raised_in E (MCPError d) /\ err = d) \/
      (exists msg,
          (raised_in E (OtherException msg) \/ own_exception (OtherException msg)) /\
          err = internal_error msg) \/
      In (code err) codes
  end.

(** [Q] holds of each of the eight operations: of the codes of its explicit
    failure returns, of its [try] block and of its result, for all
    arguments. *)
Definition for_every_operation (E : Env)
    (Q : forall P : Type,
        list string -> Outcome (Response P) -> Outcome (Response P) -> Prop)
    : Prop :=
  (forall platforms limit include_url,
      Q Dict [] (get_latest_news_body E platforms limit include_url)
                (get_latest_news E platforms limit include_url)) /\
  (forall keyword date_range platforms limit,
      Q Dict [] (search_news_by_keyword_body E keyword date_range platforms limit)
                (search_news_by_keyword E keyword date_range platforms limit)) /\
  (forall top_n mode extract_mode,
      Q Dict ["INVALID_PARAMETER"%string]
        (get_trending_topics_body E top_n mode extract_mode)
        (get_trending_topics E top_n mode extract_mode)) /\
  (forall date_range platforms limit include_url,
      Q Dict [] (get_news_by_date_body E date_range platforms limit include_url)
                (get_news_by_date E date_range platforms limit include_url)) /\
  (forall feeds limit include_summary,
      Q Dict [] (get_latest_rss_body E feeds limit include_summary)
                (get_latest_rss E feeds limit include_summary)) /\
  (forall keyword feeds days limit include_summary,
      Q Dict [] (search_rss_body E keyword feeds days limit include_summary)
                (search_rss E keyword feeds days limit include_summary)) /\
  Q Dict [] (get_rss_feeds_status_body E) (get_rss_feeds_status E) /\
  (forall date_range mode group_by max_news include_url,
      Q Summary ["DATA_NOT_FOUND"%string]
        (get_news_for_summary_body E date_range mode group_by max_news include_url)
        (get_news_for_summary E date_range mode group_by max_news include_url)).

(** How a [try] block can end: an exception it raises comes from a
    collaborator or from the operation's own Python, and a failure it returns
    has its code among [codes]. *)
Definition traced {P : Type} (E : Env) (codes : list string)
    (body : Outcome (Response P)) : Prop :=
  (forall e, body = Raise e -> raised_in E e \/ own_exception e) /\
  (forall r, body = Ok r ->
     match r with
     | Success _ => True
     | Failure err => In (code err) codes
     end).

(** The keys and counts of the groups of an answer, in order. *)
Definition keys_and_counts (s : Summary) : list (string * nat) :=
  map fst (group_views s).

(** The keyword part of an answer; empty for a platform answer. *)
Definition keyword_part (s : Summary) : KeywordSummary :=
  match s with
  | ByKeyword k => k
  | ByPlatform p => keyword_summary (ps_date p) (ps_mode p) (ps_group_by p) []
  end.

(** A text free of quotes and backslashes. *)
Fixpoint plain (s : string) : bool :=
  match s with
  | EmptyString => true
  | String c s' => negb (Ascii.eqb c dquote) && negb (Ascii.eqb c backslash) && plain s'
  end.

(** The platform part of an answer; empty for a keyword answer. *)
Definition platform_part (s : Summary) : PlatformSummary :=
  match s with
  | ByPlatform p => p
  | ByKeyword k => platform_summary (ks_date k) (ks_mode k) (ks_group_by k) []
  end.

(** ** Sample data *)

Definition with_ranks (l : list Z) : TitleInfo :=
  {| ranks := Some l; url := None; mobileUrl := None |}.

(** Platform [p2] with one title comes before platform [p1] with three. *)
Definition sample_titles : AllTitles :=
  [("p2", [("AI on the rise", with_ranks [2])]);
   ("p1", [("AI breakthrough", with_ranks [3]);
           ("New AI chip", with_ranks [1; 2]);
           ("Weather", with_ranks [1])])].

(** The same store with [p1] first. *)
Definition sample_titles_p1_first : AllTitles :=
  [("p1", [("AI breakthrough", with_ranks [3]);
           ("New AI chip", with_ranks [1; 2]);
           ("Weather", with_ranks [1])]);
   ("p2", [("AI on the rise", with_ranks [2])])].

Definition sample_names : IdToName := [("p1", "Platform One")].

(** Titles on 2025-01-01 and on 2025-01-03, none on any other day. *)
Definition sample_store (d : CalDate) : Outcome (AllTitles * IdToName * PyVal) :=
  if (year d =? 2025) && (month d =? 1) && (day d =? 1)
  then Ok (sample_titles, sample_names, VNone)
  else if (year d =? 2025) && (month d =? 1) && (day d =? 3)
  then Ok (sample_titles_p1_first, sample_names, VNone)
  else Ok ([], [], VNone).

Definition sample_taxonomy : list WordGroup :=
  [{| required := None;
      normal := Some [WordStr "AI"; WordDict [("word", "chip")]; WordStr "quantum"] |}].

Definition sample_env : Env :=
  reference_env (mkDate 2025 1 5) sample_store (Ok sample_taxonomy).

(** A taxonomy that names the term [AI] twice, once in each shape. *)
Definition repeating_taxonomy : list WordGroup :=
  [{| required := Some [WordStr "AI"]; normal := Some [WordDict [("word", "AI")]] |}].

Definition repeating_env : Env :=
  reference_env (mkDate 2025 1 5) sample_store (Ok repeating_taxonomy).

(** The range of the specification's example, as an object and as text. *)
Definition sample_range : PyVal := range_object "2025-01-01" "2025-01-02".
Definition sample_range_text : PyVal :=
  VStr (json_range_compact "2025-01-01" "2025-01-02").
Definition sample_range_dumped : PyVal :=
  VStr (json_range "2025-01-01" "2025-01-02").

Definition summary_of (o : Outcome (Response Summary)) : Summary :=
  match o with
  | Ok (Success s) => s
  | _ => ByKeyword (keyword_summary "" VNone "" [])
  end.

Definition sample_keyword_summary : Summary :=
  Eval vm_compute in
    summary_of (get_news_for_summary sample_env (VStr "2025-01-01") VNone
                  (VStr "keyword") (VInt 2) false).

Definition sample_platform_summary : Summary :=
  Eval vm_compute in
    summary_of (get_news_for_summary sample_env (VStr "2025-01-01") VNone
                  (VStr "platform") (VInt 2) true).

Definition repeating_summary : Summary :=
  Eval vm_compute in
    summary_of (get_news_for_summary repeating_env (VStr "2025-01-01") VNone
                  (VStr "keyword") (VInt 1) false).

Definition sample_buckets : Buckets * Buckets :=
  Eval vm_compute in
    match build_buckets false sample_taxonomy sample_names sample_titles with
    | Ok st => st
    | Raise _ => ([], [])
    end.

(** ** Further views *)

(** The number of items a bucket dictionary holds in all. *)
Definition total_size (b : Buckets) : nat :=
  sum_counts (map (fun kv => List.length (snd kv)) b).

(** The number of title records of a store. *)
Definition record_count (all_titles : AllTitles) : nat :=
  sum_counts (map (fun p => List.length (snd p)) all_titles).

(** A taxonomy term in its dictionary shape, and in its bare shape. *)
Definition as_word_dict (e : WordEntry) : WordEntry :=
  match e with
  | WordStr s => WordDict [("word", s)]
  | _ => e
  end.

Definition as_bare_word (e : WordEntry) : WordEntry :=
  match e with
  | WordDict d => WordStr (dict_get_default "word" "" d)
  | _ => e
  end.

Definition reshape_group (f : WordEntry -> WordEntry) (g : WordGroup) : WordGroup :=
  {| required := option_map (map f) (required g);
     normal := option_map (map f) (normal g) |}.

(** All news items of an answer, group after group. *)
Definition all_news (s : Summary) : list NewsItem :=
  flat_map group_news (group_views s).

(** [bool(v)]. *)
Definition py_truthy (v : PyVal) : bool :=
  match v with
  | VNone => false
  | VBool b => b
  | VInt z => negb (z =? 0)
  | VStr s => nonempty s
  | VList l => match l with [] => false | _ :: _ => true end
  | VDict d => match d with [] => false | _ :: _ => true end
  end.

Definition empty_taxonomy_env : Env :=
  reference_env (mkDate 2025 1 5) sample_store (Ok []).

Definition empty_taxonomy_summary : Summary :=
  Eval vm_compute in
    summary_of (get_news_for_summary empty_taxonomy_env (VStr "2025-01-01") VNone
                  (VStr "keyword") (VInt 2) false).

(** A store in which one record of [p1] has no [ranks] key. *)
Definition broken_titles : AllTitles :=
  [("p1", [("AI breakthrough", with_ranks [3]);
           ("Broken", {| ranks := None; url := None; mobileUrl := None |})])].

Definition broken_env : Env :=
  reference_env (mkDate 2025 1 5)
    (fun _ => Ok (broken_titles, sample_names, VNone)) (Ok sample_taxonomy).

(** ** The summary scripts

    [scripts/generate_ai_summary.py] and [scripts/ai_summary_integration.py]
    read the keyword groups of [get_news_for_summary], write a prompt and
    hand it to an AI client; [scripts/send_ai_summary_notification.py] sends
    the result.  What the scripts print is returned as a list of lines next
    to their result.  The groups are read as the records the facade builds:
    [group.get("keyword")] is [keyword group], [news.get("url", "")] is the
    first of [urls news] or the empty text. *)

Definition newline : string := String (ascii_of_nat 10) EmptyString.

(** [news.get("url", "")]. *)
Definition news_url (news : NewsItem) : string :=
  match urls news with
  | Some (u, _) => u
  | None => ""%string
  end.

(** Body of [for news in news_list[:3]]. *)
Definition add_news_line (prompt : string) (news : NewsItem) : string :=
  let prompt :=
    (prompt ++ "- " ++ title news ++ " (" ++ source_name news ++ ")")%string in
  let prompt :=
    if nonempty (news_url news) then (prompt ++ " " ++ news_url news)%string
    else prompt in
  (prompt ++ newline)%string.

(** Body of [for group in keyword_groups[:10]]. *)
Definition add_group (prompt : string) (group : KeywordGroup) : string :=
  let prompt :=
    (prompt ++ "## " ++ keyword group ++ " ("
     ++ string_of_Z (Z.of_nat (kg_count group)) ++ "条)" ++ newline)%string in
  let prompt := fold_left add_news_line (firstn 3 (kg_news group)) prompt in
  (prompt ++ newline)%string.

Definition add_groups (prompt : string) (keyword_groups : list KeywordGroup) : string :=
  fold_left add_group (firstn 10 keyword_groups) prompt.

(** [build_summary_prompt] of [generate_ai_summary.py]. *)
Definition build_summary_prompt (keyword_groups : list KeywordGroup) : string :=
  let prompt := ("请根据以下热点新闻数据生成每日摘要。" ++ newline ++ newline)%string in
  let prompt :=
    (prompt ++ "按关键词分组，每组用 1-2 句话总结，最后列出相关链接。"
     ++ newline ++ newline)%string in
  let prompt := add_groups prompt keyword_groups in
  (prompt ++ newline ++ "请生成简洁的摘要，突出重点。")%string.

(** [result.get("keyword_groups", [])] on a success answer. *)
Definition summary_keyword_groups (s : Summary) : list KeywordGroup :=
  match s with
  | ByKeyword k => keyword_groups k
  | ByPlatform _ => []
  end.

(** How a call to an AI client ends: with the text of the reply, with an
    [ImportError] because the library is missing, or with any other
    exception. *)
Inductive ClientReply : Type :=
| Replied (content : PyVal)
| ImportFailed (msg : string)
| CallFailed (msg : string).

(** The two client libraries.  Each takes the keyword arguments of the
    client constructor, the model and the messages as (role, content) pairs;
    [max_tokens=2000] and, for OpenAI, [temperature=0.7] are fixed. *)
Record AiClients : Type := mkClients {
  openai_chat : Dict -> PyVal -> list (string * string) -> ClientReply;
  anthropic_messages : Dict -> PyVal -> list (string * string) -> ClientReply
}.

(** [client_kwargs = {"api_key": api_key}], with [base_url] when it is set. *)
Definition client_kwargs (api_key base_url : PyVal) : Dict :=
  let kwargs := [("api_key"%string, api_key)] in
  if py_truthy base_url then dict_set "base_url" base_url kwargs else kwargs.

(** [v == s] for a text [s]. *)
Definition py_is_text (v : PyVal) (s : string) : bool :=
  match v with
  | VStr s' => String.eqb s' s
  | _ => false
  end.

Definition system_message : string := "你是一个新闻摘要助手，擅长提炼要点。".

(** The client a call goes to, with its arguments; [None] for a provider
    that is not supported. *)
Definition ai_request (C : AiClients) (provider api_key base_url model : PyVal)
    (prompt : string) : option ClientReply :=
  if py_is_text provider "openai" || py_truthy base_url
  then Some (openai_chat C (client_kwargs api_key base_url) model
               [("system"%string, system_message); ("user"%string, prompt)])
  else if py_is_text provider "anthropic"
  then Some (anthropic_messages C (client_kwargs api_key base_url) model
               [("user"%string, prompt)])
  else None.

(** [call_ai_api] of [generate_ai_summary.py]: every exception is reported
    alike. *)
Definition call_ai_api (C : AiClients) (provider api_key base_url model : PyVal)
    (prompt : string) : list string * PyVal :=
  match ai_request C provider api_key base_url model prompt with
  | Some (Replied content) => ([], content)
  | Some (ImportFailed msg) | Some (CallFailed msg) =>
      ([("[ERROR] AI API call failed: " ++ msg)%string], VNone)
  | None => ([("[ERROR] Unsupported provider: " ++ py_str provider)%string], VNone)
  end.

(** [_call_ai_api] of [ai_summary_integration.py]: a missing library is
    reported apart. *)
Definition _call_ai_api (C : AiClients) (provider api_key base_url model : PyVal)
    (prompt : string) : list string * PyVal :=
  match ai_request C provider api_key base_url model prompt with
  | Some (Replied content) => ([], content)
  | Some (ImportFailed msg) => ([("[ERROR] Missing AI library: " ++ msg)%string], VNone)
  | Some (CallFailed msg) => ([("[ERROR] AI API call failed: " ++ msg)%string], VNone)
  | None => ([("[ERROR] Unsupported AI provider: " ++ py_str provider)%string], VNone)
  end.

Definition AttributeError (v : PyVal) (attr : string) : PyExc :=
  OtherException (repr_str (type_name v) ++ " object has no attribute "
                  ++ repr_str attr)%string.

(** [config.get(key, {})], read as the dictionary the next [.get] is called
    on: a value that is no dictionary makes that call raise. *)
Definition config_section (key : string) (config : Dict) : Outcome Dict :=
  match dict_get key config with
  | None => Ok []
  | Some (VDict d) => Ok d
  | Some v => Raise (AttributeError v "get")
  end.

(** [generate_ai_summary] of [generate_ai_summary.py].  [load_config] is
    [trendradar.core.load_config]; [E] stands for [DataQueryTools()]. *)
Definition generate_ai_summary (load_config : Outcome Dict) (E : Env)
    (C : AiClients) : Outcome (list string * PyVal) :=
  config <- load_config ;;
  ai_config <- config_section "AI" config ;;
  let provider := dict_get_default "PROVIDER" (VStr "openai") ai_config in
  let api_key := dict_get_default "API_KEY" (VStr "") ai_config in
  let base_url := dict_get_default "BASE_URL" (VStr "") ai_config in
  let model := dict_get_default "MODEL" (VStr "gpt-4") ai_config in
  let started := ["Generating AI summary..."%string] in
  if negb (py_truthy api_key)
  then Ok (started ++ ["[ERROR] AI_API_KEY not configured"%string], VNone)
  else
    result <- get_news_for_summary E VNone (VStr "current") (VStr "keyword")
                (VInt 10) true ;;
    match result with
    | Failure e => Ok (started ++ [("[ERROR] " ++ message e)%string], VNone)
    | Success s =>
        let summary_data := summary_keyword_groups s in
        let prompt := build_summary_prompt summary_data in
        let reply := call_ai_api C provider api_key base_url model prompt in
        Ok (started ++ fst reply, snd reply)
    end.

Definition default_prompt_template : string :=
  "请根据以下热点新闻数据生成每日摘要。按关键词分组，每组用 1-2 句话总结，最后列出相关链接。".

(** [prompt_template + "\n\n"]: the template has to be a text. *)
Definition template_text (v : PyVal) : Outcome string :=
  match v with
  | VStr s => Ok s
  | VList _ =>
      Raise (TypeError ("can only concatenate list (not " ++ String dquote "str"
                        ++ String dquote ") to list")%string)
  | _ =>
      Raise (TypeError ("unsupported operand type(s) for +: "
                        ++ repr_str (type_name v) ++ " and 'str'")%string)
  end.

(** [_build_summary_prompt] of [ai_summary_integration.py]; [now] is
    [self.ctx.get_time().strftime('%Y-%m-%d %H:%M')]. *)
Definition _build_summary_prompt (now : string)
    (keyword_groups : list KeywordGroup) (summary_config : Dict) : Outcome string :=
  prompt_template <-
    template_text (dict_get_default "PROMPT_TEMPLATE" (VStr default_prompt_template)
                     summary_config) ;;
  let prompt := (prompt_template ++ newline ++ newline)%string in
  let prompt := (prompt ++ "生成时间: " ++ now ++ newline ++ newline)%string in
  Ok (add_groups prompt keyword_groups).

(** The [try] block of [_generate_ai_summary]. *)
Definition summarize_with_ai (now : string) (E : Env) (C : AiClients)
    (summary_config : Dict) (provider api_key base_url model : PyVal)
    : Outcome (list string * PyVal) :=
  result <- get_news_for_summary E VNone
              (dict_get_default "MODE" (VStr "current") summary_config)
              (dict_get_default "GROUP_BY" (VStr "keyword") summary_config)
              (dict_get_default "MAX_NEWS_PER_KEYWORD" (VInt 10) summary_config)
              (py_truthy (dict_get_default "INCLUDE_URL" (VBool true) summary_config)) ;;
  match result with
  | Failure e =>
      Ok ([("[WARNING] Failed to get summary data: " ++ message e)%string], VNone)
  | Success s =>
      let summary_data := summary_keyword_groups s in
      prompt <- _build_summary_prompt now summary_data summary_config ;;
      let reply := _call_ai_api C provider api_key base_url model prompt in
      if py_truthy (snd reply)
      then Ok (fst reply ++ ["[AI] Summary generated successfully"%string], snd reply)
      else Ok (fst reply ++ ["[WARNING] AI API returned empty response"%string], VNone)
  end.

(** [_generate_ai_summary] of [ai_summary_integration.py]; [config] is
    [self.ctx.config]. *)
Definition _generate_ai_summary (config : Dict) (now : string) (E : Env)
    (C : AiClients) : Outcome (list string * PyVal) :=
  ai_config <- config_section "AI" config ;;
  summary_config <- config_section "SUMMARY" ai_config ;;
  if negb (py_truthy (dict_get_default "ENABLED" (VBool false) summary_config))
  then Ok ([], VNone)
  else
    let provider := dict_get_default "PROVIDER" (VStr "openai") ai_config in
    let api_key := dict_get_default "API_KEY" (VStr "") ai_config in
    let base_url := dict_get_default "BASE_URL" (VStr "") ai_config in
    let model := dict_get_default "MODEL" (VStr "gpt-4") ai_config in
    if negb (py_truthy api_key)
    then Ok (["[WARNING] AI_API_KEY not configured, skipping AI summary"%string], VNone)
    else
      match summarize_with_ai now E C summary_config provider api_key base_url model with
      | Ok r => Ok r
      | Raise (MCPError d) =>
          Ok ([("[WARNING] AI summary generation failed: " ++ message d)%string], VNone)
      | Raise (OtherException msg) =>
          Ok ([("[WARNING] AI summary generation failed: " ++ msg)%string], VNone)
      | Raise (BaseException name) => Raise (BaseException name)
      | Raise (Unprintable inner) => Raise inner
      end.

(** [a and b]. *)
Definition py_and (a b : PyVal) : PyVal := if py_truthy a then b else a.

(** [d.get(key)]. *)
Definition config_value (key : string) (d : Dict) : PyVal :=
  dict_get_default key VNone d.

(** The list handed to [any] in [send_ai_notification]. *)
Definition channel_settings (notification_config : Dict) : list PyVal :=
  [config_value "FEISHU_WEBHOOK_URL" notification_config;
   config_value "DINGTALK_WEBHOOK_URL" notification_config;
   py_and (config_value "TELEGRAM_BOT_TOKEN" notification_config)
          (config_value "TELEGRAM_CHAT_ID" notification_config);
   config_value "WEWORK_WEBHOOK_URL" notification_config;
   config_value "EMAIL_TO" notification_config;
   config_value "NTFY_SERVER_URL" notification_config;
   config_value "BARK_URL" notification_config;
   config_value "SLACK_WEBHOOK_URL" notification_config].

Definition has_any_channel (notification_config : Dict) : bool :=
  existsb py_truthy (channel_settings notification_config).

(** [sum(1 for v in results.values() if v)]. *)
Definition success_count (results : Dict) : nat :=
  List.length (filter py_truthy (map snd results)).

Definition string_of_nat (n : nat) : string := string_of_Z (Z.of_nat n).

(** [send_ai_notification] of [send_ai_summary_notification.py].  [files]
    gives for a path that exists the outcome of reading it; [dispatch] takes
    the configuration and the summary and stands for the context, the
    dispatcher and its [dispatch_all], whose result is a dictionary from
    channel to outcome. *)
Definition send_ai_notification (files : string -> option (Outcome string))
    (load_config : Outcome Dict) (dispatch : Dict -> string -> Outcome Dict)
    (summary_file : string) : Outcome (list string * bool) :=
  match files summary_file with
  | None => Ok ([("[ERROR] Summary file not found: " ++ summary_file)%string], false)
  | Some read =>
      summary_content <- read ;;
      config <- load_config ;;
      notification_config <- config_section "NOTIFICATION" config ;;
      if negb (has_any_channel notification_config)
      then Ok (["[WARNING] No notification channels configured"%string], false)
      else
        results <- dispatch config summary_content ;;
        let sent :=
          ("[OK] Sent to " ++ string_of_nat (success_count results) ++ "/"
           ++ string_of_nat (List.length results) ++ " channels")%string in
        if Nat.eqb (success_count results) 0
        then Ok ([sent; "[ERROR] All notification channels failed"%string], false)
        else Ok ([sent], true)
  end.

(** A group cut to what the prompt shows of it. *)
Definition shown_part (g : KeywordGroup) : KeywordGroup :=
  {| keyword := keyword g; kg_count := kg_count g; kg_news := firstn 3 (kg_news g) |}.

(** Sample clients that answer with the prompt they were given. *)
Definition echo_clients : AiClients :=
  {| openai_chat := fun kwargs _ messages =>
       Replied (VList [VStr "openai"; VDict kwargs;
                       VStr (dict_get_default "user" "" messages)]);
     anthropic_messages := fun kwargs _ messages =>
       Replied (VList [VStr "anthropic"; VDict kwargs;
                       VStr (dict_get_default "user" "" messages)]) |}.

(** The settings each of which names a channel by itself. *)
Definition single_channel_keys : list string :=
  ["FEISHU_WEBHOOK_URL"; "DINGTALK_WEBHOOK_URL"; "WEWORK_WEBHOOK_URL"; "EMAIL_TO";
   "NTFY_SERVER_URL"; "BARK_URL"; "SLACK_WEBHOOK_URL"]%string.

(** What [_generate_ai_summary] makes of the client's reply. *)
Definition checked_reply (reply : list string * PyVal) : list string * PyVal :=
  if py_truthy (snd reply)
  then (fst reply ++ ["[AI] Summary generated successfully"%string], snd reply)
  else (fst reply ++ ["[WARNING] AI API returned empty response"%string], VNone).





(** A configuration with a key, summaries enabled and platform grouping. *)
Definition platform_config : Dict :=
  [("AI"%string,
    VDict [("API_KEY"%string, VStr "key");
           ("SUMMARY"%string,
            VDict [("ENABLED"%string, VBool true);
                   ("GROUP_BY"%string, VStr "platform")])])].

(** A configuration without an API key. *)
Definition keyless_config : Dict :=
  [("AI"%string, VDict [("PROVIDER"%string, VStr "openai")])].

Definition keyed_config : Dict :=
  [("AI"%string, VDict [("API_KEY"%string, VStr "key")])].

(** A configuration with a Telegram token, a chat id and nothing else. *)
Definition telegram_config : Dict :=
  [("NOTIFICATION"%string,
    VDict [("TELEGRAM_BOT_TOKEN"%string, VStr "token");
           ("TELEGRAM_CHAT_ID"%string, VStr "42")])].

(** The sample environment with a data service that exits the process,
    as [sys.exit()] does, when asked for the latest news. *)
Definition exiting_env : Env :=
  {| Date := CalDate;
     strftime := cal_strftime;
     validate_platforms := validate_platforms sample_env;
     validate_limit := validate_limit sample_env;
     validate_keyword := validate_keyword sample_env;
     validate_date_range := validate_date_range sample_env;
     validate_top_n := validate_top_n sample_env;
     validate_mode := validate_mode sample_env;
     validate_date_query := validate_date_query sample_env;
     normalize_date_range := normalize_date_range sample_env;
     ds_get_latest_news := fun _ _ _ => Raise (BaseException "SystemExit");
     ds_search_news_by_keyword := ds_search_news_by_keyword sample_env;
     ds_get_trending_topics := ds_get_trending_topics sample_env;
     ds_get_news_by_date := ds_get_news_by_date sample_env;
     ds_get_latest_rss := ds_get_latest_rss sample_env;
     ds_search_rss := ds_search_rss sample_env;
     ds_get_rss_feeds_status := ds_get_rss_feeds_status sample_env;
     read_all_titles_for_date := read_all_titles_for_date sample_env;
     parse_frequency_words := parse_frequency_words sample_env |}.

(** A store whose records carry links. *)
Definition linked_titles : AllTitles :=
  [("p1", [("AI breakthrough",
            {| ranks := Some [3]; url := Some "https://p1.example/1"%string;
               mobileUrl := None |});
           ("New AI chip",
            {| ranks := Some [1; 2]; url := None;
               mobileUrl := Some "https://m.p1.example/2"%string |})])].

Definition linked_env : Env :=
  reference_env (mkDate 2025 1 5)
    (fun _ => Ok (linked_titles, sample_names, VNone)) (Ok sample_taxonomy).

Definition linked_summary : Summary :=
  Eval vm_compute in
    summary_of (get_news_for_summary linked_env (VStr "2025-01-01") VNone
                  (VStr "keyword") (VInt 2) true).

(** * Properties *)

(** ** The error monad *)

Lemma bind_Ok_inv {A B : Type} (m : Outcome A) (f : A -> Outcome B) (b : B) :
  bind m f = Ok b -> exists a, m = Ok a /\ f a = Ok b.
Proof.
  destruct m as [a|e]; simpl; intros H.
  - exists a. split; [reflexivity | exact H].
  - discriminate H.
Qed.

Lemma mapM_app {A B : Type} (f : A -> Outcome B) (l1 l2 : list A) :
  mapM f (l1 ++ l2) =
  bind (mapM f l1) (fun xs => bind (mapM f l2) (fun ys => Ok (xs ++ ys))).
Proof.
  induction l1 as [|x l1 IH]; simpl.
  - destruct (mapM f l2); reflexivity.
  - destruct (f x) as [y|e]; simpl; [|reflexivity].
    rewrite IH. destruct (mapM f l1) as [xs|e]; simpl; [|reflexivity].
    destruct (mapM f l2); reflexivity.
Qed.

Lemma mapM_Ok_Forall2 {A B : Type} (f : A -> Outcome B) (l : list A) (ys : list B) :
  mapM f l = Ok ys -> Forall2 (fun x y => f x = Ok y) l ys.
Proof.
  revert ys. induction l as [|x l IH]; simpl; intros ys H.
  - injection H as <-. constructor.
  - apply bind_Ok_inv in H. destruct H as (y & Hy & H).
    apply bind_Ok_inv in H. destruct H as (ys' & Hys & H).
    injection H as <-. constructor; [exact Hy | apply IH; exact Hys].
Qed.

(** ** Stable sorting *)

Section SortFacts.
Context {A : Type} (key : A -> Z).

Lemma insert_on_perm (x : A) (l : list A) :
  Permutation (insert_on key x l) (x :: l).
Proof.
  induction l as [|y l IH]; simpl.
  - reflexivity.
  - destruct (key x <=? key y).
    + reflexivity.
    + apply perm_trans with (y :: x :: l).
      * constructor. exact IH.
      * apply perm_swap.
Qed.

Lemma sort_on_perm (l : list A) : Permutation (sort_on key l) l.
Proof.
  induction l as [|x l IH]; simpl.
  - constructor.
  - apply perm_trans with (x :: sort_on key l).
    + apply insert_on_perm.
    + constructor. exact IH.
Qed.

Lemma sort_on_length (l : list A) : List.length (sort_on key l) = List.length l.
Proof. apply Permutation_length, sort_on_perm. Qed.

Lemma sort_on_In (x : A) (l : list A) : In x (sort_on key l) <-> In x l.
Proof.
  split; apply Permutation_in; [|symmetry]; apply sort_on_perm.
Qed.

Lemma insert_on_sorted (x : A) (l : list A) :
  Sorted (fun a b => key a <= key b) l ->
  Sorted (fun a b => key a <= key b) (insert_on key x l).
Proof.
  induction l as [|y l IH]; simpl; intros Hs.
  - constructor; constructor.
  - destruct (Z.leb_spec (key x) (key y)) as [Hle|Hgt].
    + constructor; [exact Hs | constructor; exact Hle].
    + inversion Hs as [|? ? Hs' Hhd]; subst.
      constructor; [apply IH; exact Hs'|].
      destruct l as [|z l]; simpl.
      * constructor. lia.
      * destruct (key x <=? key z); constructor.
        -- lia.
        -- inversion Hhd; assumption.
Qed.

Lemma sort_on_Sorted (l : list A) :
  Sorted (fun a b => key a <= key b) (sort_on key l).
Proof.
  induction l as [|x l IH]; simpl.
  - constructor.
  - apply insert_on_sorted. exact IH.
Qed.

Lemma sort_on_sorted (l : list A) :
  StronglySorted (fun a b => key a <= key b) (sort_on key l).
Proof.
  apply Sorted_StronglySorted.
  - intros a b c Hab Hbc. lia.
  - apply sort_on_Sorted.
Qed.

(** Inserting an element does not move the elements of any key class. *)
Lemma insert_on_filter (v : Z) (x : A) (l : list A) :
  filter (fun y => key y =? v) (insert_on key x l) =
  filter (fun y => key y =? v) (x :: l).
Proof.
  induction l as [|y l IH]; simpl.
  - reflexivity.
  - destruct (Z.leb_spec (key x) (key y)) as [Hle|Hgt]; simpl.
    + reflexivity.
    + rewrite IH. simpl.
      destruct (Z.eqb_spec (key x) v) as [Hx|Hx];
        destruct (Z.eqb_spec (key y) v) as [Hy|Hy]; try reflexivity.
      lia.
Qed.

(** Stability: the elements of equal key come out in the order they went in. *)
Lemma sort_on_stable (v : Z) (l : list A) :
  filter (fun y => key y =? v) (sort_on key l) = filter (fun y => key y =? v) l.
Proof.
  induction l as [|x l IH]; simpl.
  - reflexivity.
  - rewrite insert_on_filter. simpl. rewrite IH. reflexivity.
Qed.
End SortFacts.

Lemma StronglySorted_weaken {A : Type} (R R' : A -> A -> Prop) (l : list A) :
  (forall a b, R a b -> R' a b) -> StronglySorted R l -> StronglySorted R' l.
Proof.
  intros HR Hs. induction Hs as [|x l Hs IH Hall]; constructor.
  - exact IH.
  - eapply Forall_impl; [|exact Hall]. intros b Hb. apply HR. exact Hb.
Qed.

Lemma sort_desc_on_perm {A : Type} (key : A -> Z) (l : list A) :
  Permutation (sort_desc_on key l) l.
Proof. apply sort_on_perm. Qed.

Lemma sort_desc_on_sorted {A : Type} (key : A -> Z) (l : list A) :
  StronglySorted (fun a b => key b <= key a) (sort_desc_on key l).
Proof.
  apply StronglySorted_weaken with (R := fun a b => - key a <= - key b).
  - intros a b H. lia.
  - apply (sort_on_sorted (fun x => - key x)).
Qed.

Lemma sort_desc_on_stable {A : Type} (key : A -> Z) (v : Z) (l : list A) :
  filter (fun y => key y =? v) (sort_desc_on key l) = filter (fun y => key y =? v) l.
Proof.
  assert (Hext : forall l' : list A,
             filter (fun y => key y =? v) l' = filter (fun y => - key y =? - v) l').
  { intros l'. apply filter_ext. intros y.
    destruct (Z.eqb_spec (key y) v), (Z.eqb_spec (- key y) (- v)); try reflexivity; lia. }
  rewrite !Hext. apply (sort_on_stable (fun x => - key x)).
Qed.



(** ** Buckets *)

Lemma dict_get_bucket_append (key k : string) (it : NewsItem) (b : Buckets) :
  dict_get key (bucket_append k it b) =
  if String.eqb key k then Some (bucket_of k b ++ [it]) else dict_get key b.
Proof.
  unfold bucket_of, dict_get_default.
  induction b as [|[k' l] b IH]; simpl.
  - destruct (String.eqb key k); reflexivity.
  - destruct (String.eqb_spec k k') as [Hk|Hk]; simpl.
    + subst k'. destruct (String.eqb key k); reflexivity.
    + rewrite IH. destruct (String.eqb_spec key k') as [Hkey|Hkey].
      * subst k'. destruct (String.eqb_spec key k) as [Heq|_]; [|reflexivity].
        congruence.
      * reflexivity.
Qed.

Lemma bucket_of_append (key k : string) (it : NewsItem) (b : Buckets) :
  bucket_of key (bucket_append k it b) =
  if String.eqb key k then bucket_of k b ++ [it] else bucket_of key b.
Proof.
  unfold bucket_of at 1. unfold dict_get_default.
  rewrite dict_get_bucket_append.
  destruct (String.eqb key k); reflexivity.
Qed.

Lemma dict_mem_bucket_append (key k : string) (it : NewsItem) (b : Buckets) :
  dict_mem key (bucket_append k it b) = String.eqb key k || dict_mem key b.
Proof.
  unfold dict_mem. rewrite dict_get_bucket_append.
  destruct (String.eqb key k); reflexivity.
Qed.

Lemma add_events_app (evs1 evs2 : list (string * NewsItem)) (b : Buckets) :
  add_events (evs1 ++ evs2) b = add_events evs2 (add_events evs1 b).
Proof. apply fold_left_app. Qed.

Lemma events_for_app (key : string) (evs1 evs2 : list (string * NewsItem)) :
  events_for key (evs1 ++ evs2) = events_for key evs1 ++ events_for key evs2.
Proof. unfold events_for. rewrite filter_app, map_app. reflexivity. Qed.

(** A bucket holds the items of its key in the order they were appended. *)
Lemma bucket_of_add_events (key : string) (evs : list (string * NewsItem)) (b : Buckets) :
  bucket_of key (add_events evs b) = bucket_of key b ++ events_for key evs.
Proof.
  revert b. induction evs as [|[k it] evs IH]; intros b; simpl.
  - unfold events_for. simpl. rewrite app_nil_r. reflexivity.
  - fold (add_events evs (bucket_append k it b)). rewrite IH, bucket_of_append.
    unfold events_for. simpl.
    destruct (String.eqb_spec key k) as [->|_]; simpl.
    + rewrite <- app_assoc. reflexivity.
    + reflexivity.
Qed.

Lemma dict_mem_add_events (key : string) (evs : list (string * NewsItem)) (b : Buckets) :
  dict_mem key (add_events evs b) =
  dict_mem key b || existsb (fun e => String.eqb key (fst e)) evs.
Proof.
  revert b. induction evs as [|[k it] evs IH]; intros b; simpl.
  - rewrite orb_false_r. reflexivity.
  - fold (add_events evs (bucket_append k it b)).
    rewrite IH, dict_mem_bucket_append. simpl.
    destruct (String.eqb key k), (dict_mem key b); reflexivity.
Qed.

Lemma dict_mem_keys {V : Type} (key : string) (d : list (string * V)) :
  dict_mem key d = existsb (String.eqb key) (map fst d).
Proof.
  unfold dict_mem. induction d as [|[k v] d IH]; simpl.
  - reflexivity.
  - destruct (String.eqb key k); simpl; [reflexivity | exact IH].
Qed.

Lemma keys_bucket_append (k : string) (it : NewsItem) (b : Buckets) :
  map fst (bucket_append k it b) =
  if existsb (String.eqb k) (map fst b) then map fst b else map fst b ++ [k].
Proof.
  induction b as [|[k' l] b IH]; simpl.
  - reflexivity.
  - destruct (String.eqb k k'); simpl.
    + reflexivity.
    + rewrite IH. destruct (existsb (String.eqb k) (map fst b)); reflexivity.
Qed.

(** The keys of a bucket dictionary stand in the order of their first use. *)
Lemma keys_add_events (evs : list (string * NewsItem)) (b : Buckets) :
  map fst (add_events evs b) =
  fold_left (fun ks e => if existsb (String.eqb (fst e)) ks then ks else ks ++ [fst e])
            evs (map fst b).
Proof.
  revert b. induction evs as [|[k it] evs IH]; intros b; simpl.
  - reflexivity.
  - fold (add_events evs (bucket_append k it b)).
    rewrite IH, keys_bucket_append. reflexivity.
Qed.

Lemma keys_from_empty (evs : list (string * NewsItem)) :
  map fst (add_events evs []) = insertion_order evs.
Proof. apply keys_add_events. Qed.

Lemma existsb_eqb_In (k : string) (ks : list string) :
  existsb (String.eqb k) ks = true <-> In k ks.
Proof.
  rewrite existsb_exists. split.
  - intros (x & Hin & Heq). apply String.eqb_eq in Heq. subst. exact Hin.
  - intros Hin. exists k. split; [exact Hin | apply String.eqb_refl].
Qed.

Lemma NoDup_bucket_append (k : string) (it : NewsItem) (b : Buckets) :
  NoDup (map fst b) -> NoDup (map fst (bucket_append k it b)).
Proof.
  intros Hnd. rewrite keys_bucket_append.
  destruct (existsb (String.eqb k) (map fst b)) eqn:Hex.
  - exact Hnd.
  - apply NoDup_app.
    + exact Hnd.
    + constructor; [intros [] | constructor].
    + intros x Hx [<-|[]].
      apply existsb_eqb_In in Hx. congruence.
Qed.

Lemma NoDup_add_events (evs : list (string * NewsItem)) (b : Buckets) :
  NoDup (map fst b) -> NoDup (map fst (add_events evs b)).
Proof.
  revert b. induction evs as [|[k it] evs IH]; intros b Hnd; simpl.
  - exact Hnd.
  - apply IH. apply NoDup_bucket_append. exact Hnd.
Qed.

(** With distinct keys, an entry of the dictionary is what lookup finds. *)
Lemma bucket_of_entry (k : string) (l : list NewsItem) (b : Buckets) :
  NoDup (map fst b) -> In (k, l) b -> bucket_of k b = l /\ dict_mem k b = true.
Proof.
  unfold bucket_of, dict_get_default, dict_mem.
  induction b as [|[k' l'] b IH]; simpl; intros Hnd Hin.
  - contradiction.
  - inversion Hnd as [|? ? Hnotin Hnd']; subst.
    destruct Hin as [Heq|Hin].
    + injection Heq as -> ->. rewrite String.eqb_refl. split; reflexivity.
    + destruct (String.eqb_spec k k') as [->|_].
      * exfalso. apply Hnotin. apply (in_map fst) in Hin. exact Hin.
      * apply IH; assumption.
Qed.

Lemma dict_mem_entry (k : string) (b : Buckets) :
  dict_mem k b = true -> In (k, bucket_of k b) b.
Proof.
  unfold bucket_of, dict_get_default, dict_mem.
  induction b as [|[k' l'] b IH]; simpl.
  - discriminate.
  - destruct (String.eqb_spec k k') as [->|_].
    + intros _. left. reflexivity.
    + intros H. right. apply IH. exact H.
Qed.

(** ** The scan over platforms and titles *)

Lemma make_news_item_Ok (include_url : bool) (pn t : string) (info : TitleInfo)
    (item : NewsItem) :
  make_news_item include_url pn t info = Ok item ->
  exists l, ranks info = Some l /\
    item = {| title := t;
              source_name := pn;
              rank := match l with [] => 0 | r :: _ => r end;
              is_new := Nat.eqb (List.length l) 1;
              urls := if include_url
                      then Some (string_or_empty (url info),
                                 string_or_empty (mobileUrl info))
                      else None |}.
Proof.
  unfold make_news_item, first_rank, seen_once.
  destruct (ranks info) as [[|r l]|]; simpl; intros H; try discriminate.
  - exists []. split; [reflexivity|]. injection H as <-. reflexivity.
  - exists (r :: l). split; [reflexivity|]. injection H as <-. reflexivity.
Qed.

Lemma make_news_item_title (include_url : bool) (pn t : string) (info : TitleInfo)
    (item : NewsItem) :
  make_news_item include_url pn t info = Ok item -> title item = t.
Proof.
  intros H. apply make_news_item_Ok in H. destruct H as (l & _ & ->). reflexivity.
Qed.

Lemma make_news_item_total (include_url : bool) (pn t : string) (info : TitleInfo)
    (l : list Z) :
  ranks info = Some l -> exists item, make_news_item include_url pn t info = Ok item.
Proof.
  unfold make_news_item, first_rank. intros ->.
  destruct l; simpl; eexists; reflexivity.
Qed.

Lemma make_news_item_missing (include_url : bool) (pn t : string) (info : TitleInfo) :
  ranks info = None ->
  make_news_item include_url pn t info = Raise (KeyError "ranks").
Proof. unfold make_news_item, first_rank. intros ->. reflexivity. Qed.

Lemma match_words_events (words : list string) (t : string) (item : NewsItem)
    (kw : Buckets) :
  match_words words t item kw =
  add_events (map (fun w => (w, item)) (filter (term_matches t) words)) kw.
Proof.
  unfold match_words, add_events, term_matches. revert kw.
  induction words as [|w words IH]; intros kw; simpl.
  - reflexivity.
  - rewrite IH. destruct (nonempty w && contains w t); reflexivity.
Qed.

Lemma match_groups_events (word_groups : list WordGroup) (t : string)
    (item : NewsItem) (kw : Buckets) :
  match_groups word_groups t item kw =
  add_events (map (fun w => (w, item))
                  (filter (term_matches t) (candidate_terms word_groups))) kw.
Proof.
  unfold match_groups, candidate_terms. revert kw.
  induction word_groups as [|g gs IH]; intros kw; simpl.
  - reflexivity.
  - rewrite IH, match_words_events, filter_app, map_app, add_events_app.
    reflexivity.
Qed.

Lemma keyword_events_app (word_groups : list WordGroup)
    (xs ys : list (string * NewsItem)) :
  keyword_events word_groups (xs ++ ys) =
  keyword_events word_groups xs ++ keyword_events word_groups ys.
Proof. unfold keyword_events. apply flat_map_app. Qed.

Lemma scan_titles (include_url : bool) (word_groups : list WordGroup)
    (pid pn : string) (titles : Titles) (kw pf : Buckets) :
  foldM (scan_title include_url word_groups pid pn) titles (kw, pf) =
  bind (mapM (visit_item include_url)
             (map (fun rec => mkVisit pid pn (fst rec) (snd rec)) titles))
       (fun items => Ok (add_events (keyword_events word_groups items) kw,
                         add_events items pf)).
Proof.
  revert kw pf. induction titles as [|[t info] titles IH]; intros kw pf; simpl.
  - reflexivity.
  - unfold scan_title at 1, visit_item at 1. simpl.
    destruct (make_news_item include_url pn t info) as [item|e] eqn:Hitem; simpl.
    + rewrite IH.
      destruct (mapM (visit_item include_url)
                  (map (fun rec => mkVisit pid pn (fst rec) (snd rec)) titles))
        as [items|e]; simpl; [|reflexivity].
      rewrite match_groups_events.
      unfold keyword_events at 2. simpl. fold (keyword_events word_groups items).
      rewrite add_events_app, (make_news_item_title _ _ _ _ _ Hitem).
      reflexivity.
    + reflexivity.
Qed.

Lemma scan_platforms (include_url : bool) (word_groups : list WordGroup)
    (id_to_name : IdToName) (all_titles : AllTitles) (kw pf : Buckets) :
  foldM (scan_platform include_url word_groups id_to_name) all_titles (kw, pf) =
  bind (mapM (visit_item include_url) (visits id_to_name all_titles))
       (fun items => Ok (add_events (keyword_events word_groups items) kw,
                         add_events items pf)).
Proof.
  revert kw pf. induction all_titles as [|[pid titles] rest IH]; intros kw pf.
  - reflexivity.
  - cbn [foldM]. unfold scan_platform at 1. cbn [fst snd].
    rewrite scan_titles.
    change (visits id_to_name ((pid, titles) :: rest))
      with (map (fun rec => mkVisit pid (dict_get_default pid pid id_to_name)
                                    (fst rec) (snd rec)) titles
            ++ visits id_to_name rest).
    rewrite mapM_app.
    destruct (mapM (visit_item include_url)
                (map (fun rec => mkVisit pid (dict_get_default pid pid id_to_name)
                                         (fst rec) (snd rec)) titles))
      as [xs|e]; simpl; [|reflexivity].
    rewrite IH.
    destruct (mapM (visit_item include_url) (visits id_to_name rest))
      as [ys|e]; simpl; [|reflexivity].
    rewrite keyword_events_app, !add_events_app. reflexivity.
Qed.

(** The two bucket dictionaries are the appends of the scan, in scan order. *)
Lemma build_buckets_scanned (include_url : bool) (word_groups : list WordGroup)
    (id_to_name : IdToName) (all_titles : AllTitles) :
  build_buckets include_url word_groups id_to_name all_titles =
  bind (scanned include_url id_to_name all_titles)
       (fun items => Ok (add_events (keyword_events word_groups items) [],
                         add_events items [])).
Proof. apply scan_platforms. Qed.

Lemma build_buckets_Ok (include_url : bool) (word_groups : list WordGroup)
    (id_to_name : IdToName) (all_titles : AllTitles) (kw pf : Buckets) :
  build_buckets include_url word_groups id_to_name all_titles = Ok (kw, pf) ->
  exists items,
    scanned include_url id_to_name all_titles = Ok items /\
    kw = add_events (keyword_events word_groups items) [] /\
    pf = add_events items [].
Proof.
  rewrite build_buckets_scanned. intros H.
  apply bind_Ok_inv in H. destruct H as (items & Hs & H).
  injection H as <- <-. exists items. auto.
Qed.

Lemma In_visits (id_to_name : IdToName) (all_titles : AllTitles) (v : Visit) :
  In v (visits id_to_name all_titles) <->
  exists pid titles t info,
    In (pid, titles) all_titles /\ In (t, info) titles /\
    v = mkVisit pid (dict_get_default pid pid id_to_name) t info.
Proof.
  unfold visits. rewrite in_flat_map. split.
  - intros ([pid titles] & Hp & Hv). apply in_map_iff in Hv.
    destruct Hv as ([t info] & <- & Hrec).
    exists pid, titles, t, info. auto.
  - intros (pid & titles & t & info & Hp & Hrec & ->).
    exists (pid, titles). split; [exact Hp|].
    apply in_map_iff. exists (t, info). auto.
Qed.

Lemma Forall2_In_l {A B : Type} (R : A -> B -> Prop) (l : list A) (l' : list B) (x : A) :
  Forall2 R l l' -> In x l -> exists y, In y l' /\ R x y.
Proof.
  induction 1 as [|a b l l' Hab _ IH]; intros Hin.
  - contradiction.
  - destruct Hin as [<-|Hin].
    + exists b. split; [left; reflexivity | exact Hab].
    + destruct (IH Hin) as (y & Hy & HR). exists y. split; [right|]; assumption.
Qed.

Lemma Forall2_In_r {A B : Type} (R : A -> B -> Prop) (l : list A) (l' : list B) (y : B) :
  Forall2 R l l' -> In y l' -> exists x, In x l /\ R x y.
Proof.
  induction 1 as [|a b l l' Hab _ IH]; intros Hin.
  - contradiction.
  - destruct Hin as [<-|Hin].
    + exists a. split; [left; reflexivity | exact Hab].
    + destruct (IH Hin) as (x & Hx & HR). exists x. split; [right|]; assumption.
Qed.

(** A scan that ends well met a record with ranks at every step. *)
Lemma scanned_visits (include_url : bool) (id_to_name : IdToName)
    (all_titles : AllTitles) (items : list (string * NewsItem)) :
  scanned include_url id_to_name all_titles = Ok items ->
  Forall2 (fun v it => visit_item include_url v = Ok it)
          (visits id_to_name all_titles) items.
Proof. apply mapM_Ok_Forall2. Qed.

Lemma visit_item_Ok (include_url : bool) (v : Visit) (it : string * NewsItem) :
  visit_item include_url v = Ok it ->
  fst it = at_platform v /\
  make_news_item include_url (at_name v) (at_title v) (at_info v) = Ok (snd it).
Proof.
  unfold visit_item. intros H. apply bind_Ok_inv in H.
  destruct H as (item & Hitem & H). injection H as <-. auto.
Qed.

(** ** A successful [get_news_for_summary] *)

Lemma try_except_Success {P : Type} (body : Outcome (Response P)) (p : P) :
  try_except body = Ok (Success p) -> body = Ok (Success p).
Proof.
  destruct body as [r|[d|msg|name|inner]]; simpl; intros H;
    [exact H | discriminate H ..].
Qed.

Lemma ranked_length (l : list NewsItem) : List.length (ranked l) = List.length l.
Proof. apply sort_on_length. Qed.

(** What a success answer holds, read off the buckets the scan filled. *)
Lemma summary_success (E : Env) (date_range mode group_by max_news : PyVal)
    (include_url : bool) (s : Summary) :
  get_news_for_summary E date_range mode group_by max_news include_url
    = Ok (Success s) ->
  exists word_groups items kw pf,
    collected E date_range mode include_url word_groups items kw pf /\
    group_views s =
      map (bucket_view (effective_cap max_news))
          (sorted_buckets (chosen_buckets group_by kw pf)) /\
    total_news s = sum_counts (map (fun v => snd (fst v)) (group_views s)) /\
    (match s with
     | ByKeyword _ => effective_group_by group_by = "keyword"
     | ByPlatform _ => effective_group_by group_by <> "keyword"
     end).
Proof.
  unfold get_news_for_summary. intros H. apply try_except_Success in H.
  unfold get_news_for_summary_body in H.
  apply bind_Ok_inv in H. destruct H as (mode' & Hmode & H).
  apply bind_Ok_inv in H. destruct H as (normalized & Hnorm & H).
  apply bind_Ok_inv in H. destruct H as (target & Hdate & H).
  apply bind_Ok_inv in H. destruct H as ([[all_titles id_to_name] ts] & Hread & H).
  cbn [fst snd] in H.
  destruct all_titles as [|p rest] eqn:Hall; [discriminate H|].
  rewrite <- Hall in *.
  unfold summarize in H.
  apply bind_Ok_inv in H. destruct H as (word_groups & Hwords & H).
  apply bind_Ok_inv in H. destruct H as ([kw pf] & Hbuild & H).
  cbn [fst snd] in H.
  destruct (build_buckets_Ok _ _ _ _ _ _ Hbuild) as (items & Hscan & Hkw & Hpf).
  exists word_groups, items, kw, pf.
  assert (Hcol : collected E date_range mode include_url word_groups items kw pf).
  { exists mode', normalized, target, all_titles, id_to_name, ts.
    repeat split; try assumption. rewrite Hall. discriminate. }
  unfold chosen_buckets.
  destruct (String.eqb_spec (effective_group_by group_by) "keyword") as [Hg|Hg];
    injection H as <-; (split; [exact Hcol|]); simpl.
  - unfold keyword_groups_of. rewrite !map_map. simpl.
    split; [|split; [|exact Hg]].
    + apply map_ext. intros kv. unfold bucket_view. rewrite ranked_length. reflexivity.
    + reflexivity.
  - unfold platform_groups_of. rewrite !map_map. simpl.
    split; [|split; [|exact Hg]].
    + apply map_ext. intros kv. unfold bucket_view. rewrite ranked_length. reflexivity.
    + reflexivity.
Qed.

Lemma collected_buckets (E : Env) (date_range mode : PyVal) (include_url : bool)
    (word_groups : list WordGroup) (items : list (string * NewsItem))
    (kw pf : Buckets) :
  collected E date_range mode include_url word_groups items kw pf ->
  kw = add_events (keyword_events word_groups items) [] /\
  pf = add_events items [].
Proof.
  intros (mode' & nr & d & all & names & ts & _ & _ & _ & _ & _ & _ & Hscan & Hbuild).
  destruct (build_buckets_Ok _ _ _ _ _ _ Hbuild) as (items' & Hscan' & Hkw & Hpf).
  rewrite Hscan in Hscan'. injection Hscan' as <-. auto.
Qed.

Lemma collected_NoDup (E : Env) (date_range mode group_by : PyVal)
    (include_url : bool) (word_groups : list WordGroup)
    (items : list (string * NewsItem)) (kw pf : Buckets) :
  collected E date_range mode include_url word_groups items kw pf ->
  NoDup (map fst (chosen_buckets group_by kw pf)).
Proof.
  intros Hcol. destruct (collected_buckets _ _ _ _ _ _ _ _ Hcol) as [-> ->].
  unfold chosen_buckets.
  destruct (String.eqb (effective_group_by group_by) "keyword");
    apply NoDup_add_events; constructor.
Qed.

(** An entry of the sorted bucket list is the bucket of its key. *)
Lemma sorted_entry (b : Buckets) (kv : string * list NewsItem) :
  NoDup (map fst b) -> In kv (sorted_buckets b) ->
  snd kv = bucket_of (fst kv) b /\ dict_mem (fst kv) b = true.
Proof.
  intros Hnd Hin. destruct kv as [k l]. simpl.
  assert (Hin' : In (k, l) b).
  { eapply Permutation_in; [apply sort_desc_on_perm | exact Hin]. }
  destruct (bucket_of_entry k l b Hnd Hin') as [-> ->]. auto.
Qed.


Lemma limited_length (cap : Z) (l : list NewsItem) :
  List.length (limited cap l) = Nat.min (Z.to_nat cap) (List.length l).
Proof. apply length_firstn. Qed.



Lemma collected_in_encounter_order (E : Env) (date_range mode : PyVal)
    (include_url : bool) (word_groups : list WordGroup)
    (items : list (string * NewsItem)) (kw pf : Buckets) :
  collected E date_range mode include_url word_groups items kw pf ->
  in_encounter_order word_groups items kw pf.
Proof.
  intros Hcol key. destruct (collected_buckets _ _ _ _ _ _ _ _ Hcol) as [-> ->].
  rewrite !bucket_of_add_events. split; reflexivity.
Qed.




Lemma StronglySorted_map {A B : Type} (R : B -> B -> Prop) (f : A -> B) (l : list A) :
  StronglySorted (fun x y => R (f x) (f y)) l -> StronglySorted R (map f l).
Proof.
  induction 1 as [|x l Hs IH Hall]; simpl; constructor.
  - exact IH.
  - apply Forall_map. exact Hall.
Qed.

Lemma filter_map_comm {A B : Type} (p : B -> bool) (f : A -> B) (l : list A) :
  filter p (map f l) = map f (filter (fun x => p (f x)) l).
Proof.
  induction l as [|x l IH]; simpl.
  - reflexivity.
  - rewrite IH. destruct (p (f x)); reflexivity.
Qed.

Lemma sorted_buckets_descending (cap : Z) (b : Buckets) :
  by_descending_count b (map (bucket_view cap) (sorted_buckets b)).
Proof.
  split.
  - apply StronglySorted_map.
    apply StronglySorted_weaken with (R := fun x y => bucket_size y <= bucket_size x).
    + intros x y Hxy. unfold group_count, bucket_view, bucket_size in *.
      cbn [fst snd]. lia.
    + apply sort_desc_on_sorted.
  - intros c. rewrite filter_map_comm, map_map.
    unfold group_key, group_count, bucket_view. cbn [fst snd].
    assert (Hext : forall l : Buckets,
               filter (fun kv => Nat.eqb (List.length (snd kv)) c) l
               = filter (fun kv => bucket_size kv =? Z.of_nat c) l).
    { intros l. apply filter_ext. intros kv. unfold bucket_size.
      destruct (Nat.eqb_spec (List.length (snd kv)) c),
               (Z.eqb_spec (Z.of_nat (List.length (snd kv))) (Z.of_nat c));
        try reflexivity; lia. }
    rewrite !Hext. unfold sorted_buckets. rewrite sort_desc_on_stable.
    reflexivity.
Qed.

(** C5: the groups of a success answer descend in member count, groups of
    equal count keep the order in which their buckets were first inserted,
    and a store in which P1 holds three titles and P2 one yields [P1, P2],
    whichever of the two the scan meets first. *)
Theorem groups_by_descending_count :
  (forall (E : Env) (date_range mode group_by max_news : PyVal)
          (include_url : bool) (s : Summary),
      get_news_for_summary E date_range mode group_by max_news include_url
        = Ok (Success s) ->
      exists word_groups items kw pf,
        collected E date_range mode include_url word_groups items kw pf /\
        by_descending_count (chosen_buckets group_by kw pf) (group_views s) /\
        map fst kw = insertion_order (keyword_events word_groups items) /\
        map fst pf = insertion_order items) /\
  (exists s, get_news_for_summary sample_env (VStr "2025-01-01") VNone
               (VStr "platform") VNone false = Ok (Success s) /\
             keys_and_counts s = [("p1", 3%nat); ("p2", 1%nat)]) /\
  (exists s, get_news_for_summary sample_env (VStr "2025-01-03") VNone
               (VStr "platform") VNone false = Ok (Success s) /\
             keys_and_counts s = [("p1", 3%nat); ("p2", 1%nat)]).
Proof.
  split; [|split].
  - intros E date_range mode group_by max_news include_url s H.
    destruct (summary_success _ _ _ _ _ _ _ H)
      as (word_groups & items & kw & pf & Hcol & Hviews & _ & _).
    exists word_groups, items, kw, pf. split; [exact Hcol|].
    split; [rewrite Hviews; apply sorted_buckets_descending|].
    destruct (collected_buckets _ _ _ _ _ _ _ _ Hcol) as [-> ->].
    split; apply keys_from_empty.
  - eexists. split; vm_compute; reflexivity.
  - eexists. split; vm_compute; reflexivity.
Qed.

Lemma groups_by_descending_count_witness :
  exists word_groups items kw pf,
    collected sample_env (VStr "2025-01-01") VNone false word_groups items kw pf /\
    by_descending_count (chosen_buckets (VStr "keyword") kw pf)
                        (group_views sample_keyword_summary) /\
    map fst kw = insertion_order (keyword_events word_groups items) /\
    map fst pf = insertion_order items.
Proof.
  apply (proj1 groups_by_descending_count sample_env (VStr "2025-01-01") VNone
           (VStr "keyword") (VInt 2) false sample_keyword_summary).
  vm_compute. reflexivity.
Defined.

(** ** Matching titles against the taxonomy *)

Lemma prefix_spec (sub s : string) :
  String.prefix sub s = true <-> exists post, s = (sub ++ post)%string.
Proof.
  revert s. induction sub as [|a sub IH]; intros [|b s]; simpl.
  - split; [intros _; exists ""%string; reflexivity | reflexivity].
  - split; [intros _; exists (String b s); reflexivity | reflexivity].
  - split; [discriminate | intros (post & H); discriminate H].
  - destruct (ascii_dec a b) as [<-|Hab].
    + rewrite IH. split; intros (post & H); exists post.
      * rewrite H. reflexivity.
      * injection H as ->. reflexivity.
    + split; [discriminate|]. intros (post & H). injection H as Hb _.
      congruence.
Qed.

(** [contains] is containment of a contiguous run of characters, compared
    character by character. *)
Lemma contains_spec (sub s : string) :
  contains sub s = true <-> exists pre post, s = (pre ++ sub ++ post)%string.
Proof.
  induction s as [|c s IH]; cbn [contains].
  - rewrite orb_false_r, prefix_spec. split.
    + intros (post & H). exists ""%string, post. exact H.
    + intros (pre & post & H). destruct pre as [|? ?]; [|discriminate H].
      exists post. exact H.
  - rewrite orb_true_iff, prefix_spec, IH. split.
    + intros [(post & H)|(pre & post & H)].
      * exists ""%string, post. exact H.
      * exists (String c pre), post. simpl. rewrite H. reflexivity.
    + intros (pre & post & H). destruct pre as [|c' pre]; simpl in H.
      * left. exists post. exact H.
      * right. injection H as _ H. exists pre, post. exact H.
Qed.

Lemma nonempty_spec (s : string) : nonempty s = true <-> s <> ""%string.
Proof.
  destruct s; simpl; split; intros H; congruence.
Qed.

Lemma term_matches_spec (t w : string) :
  term_matches t w = true <-> w <> ""%string /\ contains w t = true.
Proof.
  unfold term_matches. rewrite andb_true_iff, nonempty_spec. reflexivity.
Qed.

Lemma In_candidate_terms (w : string) (word_groups : list WordGroup) :
  In w (candidate_terms word_groups) <->
  exists g, In g word_groups /\ In w (all_words g).
Proof. unfold candidate_terms. apply in_flat_map. Qed.

Lemma In_events_for (key : string) (item : NewsItem) (evs : list (string * NewsItem)) :
  In item (events_for key evs) <-> In (key, item) evs.
Proof.
  unfold events_for. rewrite in_map_iff. split.
  - intros ([k it] & Hsnd & Hin). simpl in Hsnd. subst it.
    apply filter_In in Hin. destruct Hin as [Hin Heq]. simpl in Heq.
    apply String.eqb_eq in Heq. subst k. exact Hin.
  - intros Hin. exists (key, item). split; [reflexivity|].
    apply filter_In. split; [exact Hin | apply String.eqb_refl].
Qed.

Lemma In_keyword_events (w : string) (item : NewsItem)
    (word_groups : list WordGroup) (items : list (string * NewsItem)) :
  In (w, item) (keyword_events word_groups items) <->
  exists it, In it items /\ snd it = item /\
             In w (candidate_terms word_groups) /\
             term_matches (title item) w = true.
Proof.
  unfold keyword_events. rewrite in_flat_map. split.
  - intros (it & Hit & Hin). apply in_map_iff in Hin.
    destruct Hin as (w' & Heq & Hw'). injection Heq as -> <-.
    apply filter_In in Hw'. exists it. tauto.
  - intros (it & Hit & <- & Hw & Hm). exists it. split; [exact Hit|].
    apply in_map_iff. exists w. split; [reflexivity|].
    apply filter_In. auto.
Qed.

Lemma existsb_key_In (key : string) (evs : list (string * NewsItem)) :
  existsb (fun e => String.eqb key (fst e)) evs = true <->
  exists item, In (key, item) evs.
Proof.
  rewrite existsb_exists. split.
  - intros ([k item] & Hin & Heq). simpl in Heq. apply String.eqb_eq in Heq.
    subst k. exists item. exact Hin.
  - intros (item & Hin). exists (key, item). split; [exact Hin|].
    apply String.eqb_refl.
Qed.

(** The record behind every scanned item, and the item of every record. *)
Lemma scanned_record (include_url : bool) (id_to_name : IdToName)
    (all_titles : AllTitles) (items : list (string * NewsItem))
    (pid : string) (titles : Titles) (t : string) (info : TitleInfo) :
  scanned include_url id_to_name all_titles = Ok items ->
  In (pid, titles) all_titles -> In (t, info) titles ->
  exists item,
    In (pid, item) items /\
    make_news_item include_url (dict_get_default pid pid id_to_name) t info = Ok item.
Proof.
  intros Hscan Hp Hrec.
  assert (Hv : In (mkVisit pid (dict_get_default pid pid id_to_name) t info)
                  (visits id_to_name all_titles)).
  { apply In_visits. exists pid, titles, t, info. auto. }
  destruct (Forall2_In_l _ _ _ _ (scanned_visits _ _ _ _ Hscan) Hv)
    as ([pid' item] & Hin & Hitem).
  apply visit_item_Ok in Hitem. simpl in Hitem. destruct Hitem as [-> Hitem].
  exists item. auto.
Qed.

Lemma scanned_item (include_url : bool) (id_to_name : IdToName)
    (all_titles : AllTitles) (items : list (string * NewsItem))
    (it : string * NewsItem) :
  scanned include_url id_to_name all_titles = Ok items -> In it items ->
  exists titles t info,
    In (fst it, titles) all_titles /\ In (t, info) titles /\
    make_news_item include_url (dict_get_default (fst it) (fst it) id_to_name) t info
      = Ok (snd it).
Proof.
  intros Hscan Hin.
  destruct (Forall2_In_r _ _ _ _ (scanned_visits _ _ _ _ Hscan) Hin)
    as (v & Hv & Hitem).
  apply visit_item_Ok in Hitem. destruct Hitem as [Hfst Hitem].
  apply In_visits in Hv. destruct Hv as (pid & titles & t & info & Hp & Hrec & ->).
  simpl in *. subst pid. exists titles, t, info. auto.
Qed.

(** C2: for every title and every keyword group, each candidate term of the
    flattened required and normal lists that is a non-empty substring of the
    title receives the title's item in the bucket keyed by that very term; a
    title matching two distinct terms is therefore in two buckets, and a
    bucket exists only for a term that matches some title.  Containment is
    the exact, character by character one. *)
Theorem titles_go_to_term_buckets (include_url : bool)
    (word_groups : list WordGroup) (id_to_name : IdToName)
    (all_titles : AllTitles) (kw pf : Buckets) :
  build_buckets include_url word_groups id_to_name all_titles = Ok (kw, pf) ->
  (forall pid titles t info g w,
      In (pid, titles) all_titles -> In (t, info) titles ->
      In g word_groups -> In w (all_words g) ->
      w <> ""%string -> contains w t = true ->
      exists item,
        make_news_item include_url (dict_get_default pid pid id_to_name) t info
          = Ok item /\
        dict_mem w kw = true /\ In item (bucket_of w kw)) /\
  (forall pid titles t info g w1 w2,
      In (pid, titles) all_titles -> In (t, info) titles ->
      In g word_groups -> In w1 (all_words g) -> In w2 (all_words g) ->
      w1 <> w2 ->
      w1 <> ""%string -> contains w1 t = true ->
      w2 <> ""%string -> contains w2 t = true ->
      exists item l1 l2,
        In (w1, l1) kw /\ In (w2, l2) kw /\ In item l1 /\ In item l2 /\
        title item = t) /\
  (forall w, dict_mem w kw = true ->
      exists pid titles t info g,
        In (pid, titles) all_titles /\ In (t, info) titles /\
        In g word_groups /\ In w (all_words g) /\
        w <> ""%string /\ contains w t = true) /\
  (forall w t, contains w t = true <->
      exists pre post, t = (pre ++ w ++ post)%string).
Proof.
  intros Hbuild.
  destruct (build_buckets_Ok _ _ _ _ _ _ Hbuild) as (items & Hscan & Hkw & Hpf).
  assert (Hadd : forall pid titles t info g w,
      In (pid, titles) all_titles -> In (t, info) titles ->
      In g word_groups -> In w (all_words g) ->
      w <> ""%string -> contains w t = true ->
      exists item,
        make_news_item include_url (dict_get_default pid pid id_to_name) t info
          = Ok item /\
        dict_mem w kw = true /\ In item (bucket_of w kw)).
  { intros pid titles t info g w Hp Hrec Hg Hw Hne Hsub.
    destruct (scanned_record _ _ _ _ _ _ _ _ Hscan Hp Hrec) as (item & Hin & Hitem).
    exists item. split; [exact Hitem|].
    assert (Hev : In (w, item) (keyword_events word_groups items)).
    { apply In_keyword_events. exists (pid, item).
      split; [exact Hin|]. split; [reflexivity|].
      split; [apply In_candidate_terms; exists g; auto|].
      rewrite (make_news_item_title _ _ _ _ _ Hitem).
      apply term_matches_spec. auto. }
    subst kw. rewrite dict_mem_add_events, bucket_of_add_events. simpl. split.
    - apply existsb_key_In. exists item. exact Hev.
    - apply In_events_for. exact Hev. }
  split; [exact Hadd|]. split; [|split].
  - intros pid titles t info g w1 w2 Hp Hrec Hg Hw1 Hw2 Hneq Hne1 Hsub1 Hne2 Hsub2.
    destruct (Hadd pid titles t info g w1 Hp Hrec Hg Hw1 Hne1 Hsub1)
      as (item & Hitem & Hmem1 & Hin1).
    destruct (Hadd pid titles t info g w2 Hp Hrec Hg Hw2 Hne2 Hsub2)
      as (item' & Hitem' & Hmem2 & Hin2).
    rewrite Hitem in Hitem'. injection Hitem' as <-.
    exists item, (bucket_of w1 kw), (bucket_of w2 kw).
    split; [apply dict_mem_entry; exact Hmem1|].
    split; [apply dict_mem_entry; exact Hmem2|].
    split; [exact Hin1|]. split; [exact Hin2|].
    apply (make_news_item_title _ _ _ _ _ Hitem).
  - intros w Hmem. subst kw. rewrite dict_mem_add_events in Hmem. simpl in Hmem.
    apply existsb_key_In in Hmem. destruct Hmem as (item & Hev).
    apply In_keyword_events in Hev.
    destruct Hev as (it & Hit & <- & Hw & Hm).
    destruct (scanned_item _ _ _ _ _ Hscan Hit) as (titles & t & info & Hp & Hrec & Hitem).
    apply In_candidate_terms in Hw. destruct Hw as (g & Hg & Hw).
    rewrite (make_news_item_title _ _ _ _ _ Hitem) in Hm.
    apply term_matches_spec in Hm. destruct Hm as [Hne Hsub].
    exists (fst it), titles, t, info, g. auto 10.
  - intros w t. apply contains_spec.
Qed.

Lemma titles_go_to_term_buckets_witness :
  exists item,
    make_news_item false (dict_get_default "p1" "p1" sample_names) "New AI chip"
      (with_ranks [1; 2]) = Ok item /\
    dict_mem "chip" (fst sample_buckets) = true /\
    In item (bucket_of "chip" (fst sample_buckets)).
Proof.
  apply (proj1 (titles_go_to_term_buckets false sample_taxonomy sample_names
                  sample_titles (fst sample_buckets) (snd sample_buckets) eq_refl)
           "p1"
           [("AI breakthrough", with_ranks [3]); ("New AI chip", with_ranks [1; 2]);
            ("Weather", with_ranks [1])]
           "New AI chip" (with_ranks [1; 2])
           {| required := None;
              normal := Some [WordStr "AI"; WordDict [("word", "chip")];
                              WordStr "quantum"] |}
           "chip").
  - right. left. reflexivity.
  - right. left. reflexivity.
  - left. reflexivity.
  - right. left. reflexivity.
  - discriminate.
  - reflexivity.
Defined.

(** ** Novelty *)

Lemma is_new_spec (include_url : bool) (pn t : string) (info : TitleInfo)
    (item : NewsItem) (l : list Z) :
  make_news_item include_url pn t info = Ok item -> ranks info = Some l ->
  (is_new item = true <-> List.length l = 1%nat).
Proof.
  intros Hitem Hl. apply make_news_item_Ok in Hitem.
  destruct Hitem as (l' & Hl' & ->). rewrite Hl in Hl'. injection Hl' as <-.
  simpl. apply Nat.eqb_eq.
Qed.

(** C8: every title record the scan processes yields a news item whose
    [is_new] flag is true exactly when the record's rank history has length
    1, and every item found in a bucket is such an item. *)
Theorem is_new_iff_single_rank (include_url : bool) (word_groups : list WordGroup)
    (id_to_name : IdToName) (all_titles : AllTitles) (kw pf : Buckets) :
  build_buckets include_url word_groups id_to_name all_titles = Ok (kw, pf) ->
  (forall pid titles t info,
      In (pid, titles) all_titles -> In (t, info) titles ->
      exists item l,
        ranks info = Some l /\
        make_news_item include_url (dict_get_default pid pid id_to_name) t info
          = Ok item /\
        In item (bucket_of pid pf) /\
        (is_new item = true <-> List.length l = 1%nat)) /\
  (forall key item,
      In item (bucket_of key kw) \/ In item (bucket_of key pf) ->
      exists pid titles t info l,
        In (pid, titles) all_titles /\ In (t, info) titles /\
        ranks info = Some l /\
        make_news_item include_url (dict_get_default pid pid id_to_name) t info
          = Ok item /\
        (is_new item = true <-> List.length l = 1%nat)).
Proof.
  intros Hbuild.
  destruct (build_buckets_Ok _ _ _ _ _ _ Hbuild) as (items & Hscan & Hkw & Hpf).
  split.
  - intros pid titles t info Hp Hrec.
    destruct (scanned_record _ _ _ _ _ _ _ _ Hscan Hp Hrec) as (item & Hin & Hitem).
    destruct (make_news_item_Ok _ _ _ _ _ Hitem) as (l & Hl & _).
    exists item, l. split; [exact Hl|]. split; [exact Hitem|]. split.
    + subst pf. rewrite bucket_of_add_events. simpl.
      apply In_events_for. exact Hin.
    + apply (is_new_spec _ _ _ _ _ _ Hitem Hl).
  - intros key item Hin.
    assert (Hit : exists it, In it items /\ snd it = item).
    { destruct Hin as [Hin|Hin].
      - subst kw. rewrite bucket_of_add_events in Hin. simpl in Hin.
        apply In_events_for, In_keyword_events in Hin.
        destruct Hin as (it & Hit & Hsnd & _). exists it. auto.
      - subst pf. rewrite bucket_of_add_events in Hin. simpl in Hin.
        apply In_events_for in Hin. exists (key, item). auto. }
    destruct Hit as (it & Hit & <-).
    destruct (scanned_item _ _ _ _ _ Hscan Hit) as (titles & t & info & Hp & Hrec & Hitem).
    destruct (make_news_item_Ok _ _ _ _ _ Hitem) as (l & Hl & _).
    exists (fst it), titles, t, info, l.
    repeat (split; [assumption|]).
    apply (is_new_spec _ _ _ _ _ _ Hitem Hl).
Qed.

Lemma is_new_iff_single_rank_witness :
  exists item l,
    ranks (with_ranks [3]) = Some l /\
    make_news_item false (dict_get_default "p1" "p1" sample_names) "AI breakthrough"
      (with_ranks [3]) = Ok item /\
    In item (bucket_of "p1" (snd sample_buckets)) /\
    (is_new item = true <-> List.length l = 1%nat).
Proof.
  apply (proj1 (is_new_iff_single_rank false sample_taxonomy sample_names
                  sample_titles (fst sample_buckets) (snd sample_buckets) eq_refl)
           "p1"
           [("AI breakthrough", with_ranks [3]); ("New AI chip", with_ranks [1; 2]);
            ("Weather", with_ranks [1])]
           "AI breakthrough" (with_ranks [3])).
  - right. left. reflexivity.
  - left. reflexivity.
Defined.

(** ** Terms that the taxonomy names more than once *)

Lemma events_for_one_item (w t : string) (x : NewsItem) (terms : list string) :
  events_for w (map (fun w' => (w', x)) (filter (term_matches t) terms)) =
  repeat x (if term_matches t w then count_occ string_dec terms w else 0%nat).
Proof.
  induction terms as [|a terms IH]; simpl.
  - destruct (term_matches t w); reflexivity.
  - destruct (string_dec a w) as [->|Hneq].
    + destruct (term_matches t w) eqn:Hm; simpl.
      * unfold events_for in *. simpl. rewrite String.eqb_refl. simpl.
        rewrite IH. reflexivity.
      * exact IH.
    + destruct (term_matches t a); simpl.
      * unfold events_for in *. simpl.
        destruct (String.eqb_spec w a) as [Heq|_]; [congruence|].
        exact IH.
      * exact IH.
Qed.

(** Every scanned item whose title holds the term is in the term's bucket as
    often as the taxonomy names the term. *)
Lemma events_for_keyword_repeat (w : string) (word_groups : list WordGroup)
    (items : list (string * NewsItem)) :
  events_for w (keyword_events word_groups items) =
  flat_map (fun it => repeat (snd it)
                        (if term_matches (title (snd it)) w
                         then term_multiplicity w word_groups else 0%nat))
           items.
Proof.
  induction items as [|it items IH].
  - reflexivity.
  - change (keyword_events word_groups (it :: items))
      with (map (fun w' => (w', snd it))
                (filter (term_matches (title (snd it))) (candidate_terms word_groups))
            ++ keyword_events word_groups items).
    rewrite events_for_app, IH, events_for_one_item. reflexivity.
Qed.

Lemma repeat_flat_map_length {A B : Type} (m : A -> bool) (f : A -> B) (k : nat)
    (l : list A) :
  List.length (flat_map (fun x => repeat (f x) (if m x then k else 0%nat)) l)
  = (k * List.length (filter m l))%nat.
Proof.
  induction l as [|x l IH]; simpl.
  - lia.
  - rewrite length_app, repeat_length, IH.
    destruct (m x); simpl; lia.
Qed.

Lemma map_eq_In {A B C : Type} (f : A -> C) (g : B -> C) (l1 : list A) (l2 : list B)
    (a : A) :
  map f l1 = map g l2 -> In a l1 -> exists b, In b l2 /\ f a = g b.
Proof.
  intros Heq Hin. apply (in_map f) in Hin. rewrite Heq in Hin.
  apply in_map_iff in Hin. destruct Hin as (b & Hb & Hin). exists b. auto.
Qed.

(** C10, amended: a term that the flattened taxonomy names k times receives
    the item of every title that holds it k times in a row, so the count of
    its group and the total count that title k times; the news list is the
    rank-sorted bucket cut at the cap. *)
Theorem repeated_terms_repeat_items (E : Env)
    (date_range mode group_by max_news : PyVal) (include_url : bool)
    (s : KeywordSummary) :
  get_news_for_summary E date_range mode group_by max_news include_url
    = Ok (Success (ByKeyword s)) ->
  exists word_groups items kw pf,
    collected E date_range mode include_url word_groups items kw pf /\
    (forall w,
        bucket_of w kw =
        flat_map (fun it => repeat (snd it)
                              (if term_matches (title (snd it)) w
                               then term_multiplicity w word_groups else 0%nat))
                 items) /\
    Forall (fun g =>
              kg_count g =
                (term_multiplicity (keyword g) word_groups
                 * List.length (filter (fun it => term_matches (title (snd it)) (keyword g))
                                       items))%nat /\
              kg_news g = limited (effective_cap max_news)
                                  (ranked (bucket_of (keyword g) kw)))
           (keyword_groups s) /\
    ks_total_news s = sum_counts (map kg_count (keyword_groups s)).
Proof.
  intros H.
  destruct (summary_success _ _ _ _ _ _ _ H)
    as (word_groups & items & kw & pf & Hcol & Hviews & Htotal & Hg).
  exists word_groups, items, kw, pf. split; [exact Hcol|].
  assert (Hbucket : forall w,
             bucket_of w kw =
             flat_map (fun it => repeat (snd it)
                                   (if term_matches (title (snd it)) w
                                    then term_multiplicity w word_groups else 0%nat))
                      items).
  { intros w. rewrite <- events_for_keyword_repeat.
    apply (collected_in_encounter_order _ _ _ _ _ _ _ _ Hcol). }
  split; [exact Hbucket|]. split.
  - apply Forall_forall. intros g Hin.
    unfold chosen_buckets in Hviews. rewrite Hg in Hviews. simpl in Hviews.
    destruct (map_eq_In _ _ _ _ g Hviews Hin) as (kv & Hkv & Heq).
    unfold bucket_view in Heq. injection Heq as Hkey Hcount Hnews.
    assert (Hnd : NoDup (map fst kw)).
    { destruct (collected_buckets _ _ _ _ _ _ _ _ Hcol) as [-> _].
      apply NoDup_add_events. constructor. }
    destruct (sorted_entry _ kv Hnd Hkv) as [Hsnd _].
    rewrite Hcount, Hnews, Hsnd, <- Hkey. split; [|reflexivity].
    rewrite Hbucket. apply repeat_flat_map_length.
  - simpl in Htotal. rewrite Htotal, map_map. reflexivity.
Qed.

Lemma repeated_terms_repeat_items_witness :
  exists word_groups items kw pf,
    collected repeating_env (VStr "2025-01-01") VNone false word_groups items kw pf /\
    (forall w,
        bucket_of w kw =
        flat_map (fun it => repeat (snd it)
                              (if term_matches (title (snd it)) w
                               then term_multiplicity w word_groups else 0%nat))
                 items) /\
    Forall (fun g =>
              kg_count g =
                (term_multiplicity (keyword g) word_groups
                 * List.length (filter (fun it => term_matches (title (snd it)) (keyword g))
                                       items))%nat /\
              kg_news g = limited (effective_cap (VInt 1))
                                  (ranked (bucket_of (keyword g) kw)))
           (keyword_groups (keyword_part repeating_summary)) /\
    ks_total_news (keyword_part repeating_summary)
    = sum_counts (map kg_count (keyword_groups (keyword_part repeating_summary))).
Proof.
  apply (repeated_terms_repeat_items repeating_env (VStr "2025-01-01") VNone
           (VStr "keyword") (VInt 1) false (keyword_part repeating_summary)).
  vm_compute. reflexivity.
Defined.

(** C10 as stated fails: with the term [AI] named twice and a cap of 1, the
    group of [AI] counts each of its three titles twice, yet its news list
    holds one title, once. *)
Lemma capped_news_drops_repeats :
  get_news_for_summary repeating_env (VStr "2025-01-01") VNone (VStr "keyword")
    (VInt 1) false = Ok (Success repeating_summary) /\
  term_multiplicity "AI" repeating_taxonomy = 2%nat /\
  contains "AI" "New AI chip" = true /\
  exists g,
    In g (group_views repeating_summary) /\
    group_key g = "AI"%string /\
    group_count g = 6%nat /\
    total_news repeating_summary = 6%nat /\
    count_title "New AI chip" (group_news g) = 1%nat /\
    count_title "New AI chip" (group_news g)
      <> term_multiplicity "AI" repeating_taxonomy.
Proof.
  split; [vm_compute; reflexivity|].
  split; [vm_compute; reflexivity|].
  split; [vm_compute; reflexivity|].
  eexists. split; [left; reflexivity|].
  repeat split; try (vm_compute; reflexivity).
  vm_compute. discriminate.
Qed.

(** ** [search_rss] and its [days] argument *)

Lemma days_used_inside (z : Z) : 1 <= z <= 30 -> days_used z = z.
Proof.
  intros H. unfold days_used.
  destruct (Z.ltb_spec z 1), (Z.gtb_spec z 30); simpl; try reflexivity; lia.
Qed.

Lemma days_used_outside (z : Z) : z < 1 \/ 30 < z -> days_used z = 7.
Proof.
  intros H. unfold days_used.
  destruct (Z.ltb_spec z 1), (Z.gtb_spec z 30); simpl; try reflexivity; lia.
Qed.

(** C6, amended: [search_rss] searches with, and echoes, the given [days] when
    it lies between 1 and 30, and the default 7 when it lies outside. *)
Theorem days_outside_range_become_default (E : Env)
    (keyword feeds limit : PyVal) (z : Z) (include_summary : bool)
    (keyword' limit' : PyVal) :
  validate_keyword E keyword = Ok keyword' ->
  validate_limit E limit 50 = Ok limit' ->
  search_rss E keyword feeds (VInt z) limit include_summary =
    try_except
      (bind (ds_search_rss E keyword' feeds (VInt (days_used z)) limit' include_summary)
         (fun rss_list =>
            bind (py_len rss_list)
              (fun total =>
                 Ok (Success [("rss", rss_list); ("total", VInt total);
                              ("keyword", keyword'); ("feeds", feeds);
                              ("days", VInt (days_used z))])))) /\
  (1 <= z <= 30 -> days_used z = z) /\
  (z < 1 \/ 30 < z -> days_used z = 7).
Proof.
  intros Hk Hl. split; [|split; [apply days_used_inside | apply days_used_outside]].
  unfold search_rss, search_rss_body. rewrite Hk, Hl. simpl.
  unfold days_used. destruct ((z <? 1) || (z >? 30)); reflexivity.
Qed.

Lemma days_outside_range_become_default_witness :
  search_rss sample_env (VStr "AI") VNone (VInt 45) VNone false =
    try_except
      (bind (ds_search_rss sample_env (VStr "AI") VNone (VInt (days_used 45))
               (VInt 50) false)
         (fun rss_list =>
            bind (py_len rss_list)
              (fun total =>
                 Ok (Success [("rss", rss_list); ("total", VInt total);
                              ("keyword", VStr "AI"); ("feeds", VNone);
                              ("days", VInt (days_used 45))])))) /\
  (1 <= 45 <= 30 -> days_used 45 = 45) /\
  (45 < 1 \/ 30 < 45 -> days_used 45 = 7).
Proof.
  apply (days_outside_range_become_default sample_env (VStr "AI") VNone VNone 45
           false (VStr "AI") (VInt 50)); reflexivity.
Defined.

(** C6 as stated fails: [days = 0] is not clamped to 1; the search runs with
    7 and the answer echoes 7. *)
Lemma days_zero_is_not_clamped :
  exists payload,
    search_rss sample_env (VStr "AI") VNone (VInt 0) VNone false
      = Ok (Success payload) /\
    dict_get "rss" payload = Some (VList [VStr "AI"; VNone; VInt 7; VInt 50]) /\
    dict_get "days" payload = Some (VInt 7) /\
    clamp_days 0 = 1 /\
    dict_get "days" payload <> Some (VInt (clamp_days 0)).
Proof.
  eexists. split; [vm_compute; reflexivity|].
  repeat split; try (vm_compute; reflexivity).
  vm_compute. discriminate.
Qed.

(** ** A date without titles *)

Lemma mapM_visit_Raise (include_url : bool) (vs : list Visit) (e : PyExc) :
  mapM (visit_item include_url) vs = Raise e ->
  e = KeyError "ranks" /\ exists v, In v vs /\ ranks (at_info v) = None.
Proof.
  induction vs as [|v vs IH]; simpl; intros H.
  - discriminate H.
  - unfold visit_item at 1 in H.
    destruct (ranks (at_info v)) as [l|] eqn:Hl.
    + destruct (make_news_item_total include_url (at_name v) (at_title v) _ l Hl)
        as (item & Hitem).
      rewrite Hitem in H. simpl in H.
      destruct (mapM (visit_item include_url) vs) as [ys|e'] eqn:Hrest;
        simpl in H; [discriminate H|].
      injection H as <-. destruct (IH eq_refl) as (He & v' & Hin & Hnone).
      split; [exact He|]. exists v'. split; [right; exact Hin | exact Hnone].
    + rewrite (make_news_item_missing _ _ _ _ Hl) in H. simpl in H.
      injection H as <-. split; [reflexivity|].
      exists v. split; [left; reflexivity | exact Hl].
Qed.

Lemma build_buckets_Raise (include_url : bool) (word_groups : list WordGroup)
    (id_to_name : IdToName) (all_titles : AllTitles) (e : PyExc) :
  build_buckets include_url word_groups id_to_name all_titles = Raise e ->
  e = KeyError "ranks" /\
  exists v, In v (visits id_to_name all_titles) /\ ranks (at_info v) = None.
Proof.
  rewrite build_buckets_scanned. unfold scanned.
  destruct (mapM (visit_item include_url) (visits id_to_name all_titles))
    as [items|e'] eqn:Hscan; simpl; intros H; [discriminate H|].
  injection H as <-. apply (mapM_visit_Raise _ _ _ Hscan).
Qed.

(** C7: when the store returns no titles for the resolved date the answer is
    the [DATA_NOT_FOUND] failure; when it returns titles that answer is not
    given: the call succeeds, or fails with what the taxonomy loader raised,
    or with the [KeyError] of a record without ranks. *)
Theorem no_titles_is_data_not_found (E : Env)
    (date_range mode group_by max_news : PyVal) (include_url : bool)
    (mode' normalized : PyVal) (target_date : Date E)
    (all_titles : AllTitles) (id_to_name : IdToName) (timestamps : PyVal) :
  validate_mode E mode ["daily"; "current"; "incremental"] "daily" = Ok mode' ->
  normalize_date_range E (date_range_text date_range) = Ok normalized ->
  validate_date_query E (summary_date_str normalized) = Ok target_date ->
  read_all_titles_for_date E target_date = Ok (all_titles, id_to_name, timestamps) ->
  (all_titles = [] ->
   get_news_for_summary E date_range mode group_by max_news include_url
     = Ok (Failure (data_not_found (summary_date_str normalized))) /\
   code (data_not_found (summary_date_str normalized)) = "DATA_NOT_FOUND"%string) /\
  (all_titles <> [] ->
   (exists s, get_news_for_summary E date_range mode group_by max_news include_url
                = Ok (Success s)) \/
   (exists e, parse_frequency_words E = Raise e /\
              get_news_for_summary E date_range mode group_by max_news include_url
                = try_except (Raise e)) \/
   (exists v, In v (visits id_to_name all_titles) /\ ranks (at_info v) = None /\
              get_news_for_summary E date_range mode group_by max_news include_url
                = Ok (Failure (internal_error (repr_str "ranks"))))).
Proof.
  intros Hmode Hnorm Hdate Hread.
  unfold get_news_for_summary, get_news_for_summary_body.
  rewrite Hmode. cbn [bind]. rewrite Hnorm. cbn [bind]. rewrite Hdate. cbn [bind].
  rewrite Hread. cbn [bind fst snd]. split.
  - intros ->. split; reflexivity.
  - intros Hne. destruct all_titles as [|p rest] eqn:Hall; [congruence|].
    rewrite <- Hall in *. clear Hall Hne. unfold summarize.
    destruct (parse_frequency_words E) as [word_groups|e] eqn:Hwords; cbn [bind].
    + destruct (build_buckets include_url word_groups id_to_name all_titles)
        as [[kw pf]|e] eqn:Hbuild; cbn [bind fst snd].
      * left. destruct (String.eqb (effective_group_by group_by) "keyword");
          eexists; reflexivity.
      * right. right. destruct (build_buckets_Raise _ _ _ _ _ Hbuild)
          as (-> & v & Hin & Hnone).
        exists v. split; [exact Hin|]. split; [exact Hnone|]. reflexivity.
    + right. left. exists e. split; reflexivity.
Qed.

Lemma no_titles_is_data_not_found_witness :
  get_news_for_summary sample_env (VStr "2025-01-02") VNone VNone VNone false
    = Ok (Failure (data_not_found (VStr "2025-01-02"))) /\
  code (data_not_found (VStr "2025-01-02")) = "DATA_NOT_FOUND"%string.
Proof.
  apply (proj1 (no_titles_is_data_not_found sample_env (VStr "2025-01-02") VNone
                  VNone VNone false (VStr "daily") (VStr "2025-01-02")
                  (mkDate 2025 1 2) [] [] VNone eq_refl eq_refl eq_refl eq_refl)).
  reflexivity.
Defined.

(** ** The envelope *)

Lemma try_except_enveloped {P : Type} (body : Outcome (Response P)) :
  enveloped body (try_except body).
Proof.
  destruct body as [r|[d|msg|name|inner]]; reflexivity.
Qed.

Lemma dict_get_dict_set (k : string) (v : PyVal) (d : Dict) :
  dict_get k (dict_set k v d) = Some v.
Proof.
  induction d as [|[k' v'] d IH]; simpl.
  - rewrite String.eqb_refl. reflexivity.
  - destruct (String.eqb k k') eqn:Hk; simpl; rewrite Hk; [reflexivity | exact IH].
Qed.

(** The [success] key of the dictionary tells which of the two it is, also
    when the payload spread into it had a [success] key of its own. *)
Lemma response_dict_success (r : Response Dict) :
  dict_get "success" (response_dict r) = Some (VBool (is_success r)).
Proof.
  destruct r as [p|e]; simpl.
  - apply dict_get_dict_set.
  - reflexivity.
Qed.

Lemma response_dict_error (e : ErrorDict) :
  dict_get "error" (response_dict (Failure e)) = Some (VDict (error_dict e)).
Proof. reflexivity. Qed.

Lemma bind_Raise_inv {A B : Type} (m : Outcome A) (f : A -> Outcome B) (e : PyExc) :
  bind m f = Raise e -> m = Raise e \/ exists a, m = Ok a /\ f a = Raise e.
Proof.
  destruct m as [a|e']; simpl; intros H.
  - right. exists a. split; [reflexivity | exact H].
  - left. injection H as ->. reflexivity.
Qed.

Ltac ok_binds H :=
  repeat (apply bind_Ok_inv in H;
          let x := fresh "x" in
          let Hx := fresh "Hx" in
          destruct H as (x & Hx & H)).

Ltac ends_in_success H := ok_binds H; injection H as <-; exact I.

(** Where the exception of a failed step comes from. *)
Ltac origin H :=
  first [ discriminate H
        | left; solve [econstructor; exact H]
        | right; solve [econstructor; exact H] ].

Ltac trace H :=
  repeat (apply bind_Raise_inv in H;
          destruct H as [H | (? & _ & H)]; [origin H|]);
  try origin H.

(** What the operations' own Python raises is an [Exception] with a
    message. *)
Lemma own_exception_message (e : PyExc) :
  own_exception e -> exists msg, e = OtherException msg.
Proof.
  intros [v H|v H|v H|H].
  - destruct v; simpl in H; try discriminate H; injection H as <-;
      eexists; reflexivity.
  - destruct v; simpl in H; try discriminate H; injection H as <-;
      eexists; reflexivity.
  - unfold effective_days in H.
    destruct (py_int_value v); [discriminate H|]. injection H as <-.
    eexists. reflexivity.
  - subst e. eexists. reflexivity.
Qed.

Lemma get_latest_news_traced (E : Env) (platforms limit : PyVal) (include_url : bool) :
  traced E [] (get_latest_news_body E platforms limit include_url).
Proof.
  split.
  - intros e H. unfold get_latest_news_body in H. trace H.
  - intros r H. unfold get_latest_news_body in H. ends_in_success H.
Qed.

Lemma search_news_by_keyword_traced (E : Env)
    (keyword date_range platforms limit : PyVal) :
  traced E [] (search_news_by_keyword_body E keyword date_range platforms limit).
Proof.
  split.
  - intros e H. unfold search_news_by_keyword_body in H. trace H.
    apply bind_Raise_inv in H. destruct H as [H | (? & _ & H)].
    + destruct limit; origin H.
    + trace H.
  - intros r H. unfold search_news_by_keyword_body in H. ends_in_success H.
Qed.

Lemma get_trending_topics_traced (E : Env) (top_n mode extract_mode : PyVal) :
  traced E ["INVALID_PARAMETER"%string]
         (get_trending_topics_body E top_n mode extract_mode).
Proof.
  split.
  - intros e H. unfold get_trending_topics_body in H.
    apply bind_Raise_inv in H. destruct H as [H | (? & _ & H)]; [origin H|].
    apply bind_Raise_inv in H. destruct H as [H | (? & _ & H)]; [origin H|].
    cbv zeta in H.
    destruct extract_mode;
      try (destruct (negb (py_in_strings _ _)); [discriminate H|]);
      trace H.
  - intros r H. unfold get_trending_topics_body in H.
    apply bind_Ok_inv in H. destruct H as (top_n' & _ & H).
    apply bind_Ok_inv in H. destruct H as (mode' & _ & H).
    cbv zeta in H.
    destruct extract_mode;
      try (destruct (negb (py_in_strings _ _));
           [injection H as <-; left; reflexivity|]);
      ends_in_success H.
Qed.

Lemma get_news_by_date_traced (E : Env) (date_range platforms limit : PyVal)
    (include_url : bool) :
  traced E [] (get_news_by_date_body E date_range platforms limit include_url).
Proof.
  split.
  - intros e H. unfold get_news_by_date_body in H. trace H.
  - intros r H. unfold get_news_by_date_body in H. ends_in_success H.
Qed.

Lemma get_latest_rss_traced (E : Env) (feeds limit : PyVal) (include_summary : bool) :
  traced E [] (get_latest_rss_body E feeds limit include_summary).
Proof.
  split.
  - intros e H. unfold get_latest_rss_body in H. trace H.
  - intros r H. unfold get_latest_rss_body in H. ends_in_success H.
Qed.

Lemma search_rss_traced (E : Env) (keyword feeds days limit : PyVal)
    (include_summary : bool) :
  traced E [] (search_rss_body E keyword feeds days limit include_summary).
Proof.
  split.
  - intros e H. unfold search_rss_body in H. trace H.
  - intros r H. unfold search_rss_body in H. ends_in_success H.
Qed.

Lemma get_rss_feeds_status_traced (E : Env) :
  traced E [] (get_rss_feeds_status_body E).
Proof.
  split.
  - intros e H. unfold get_rss_feeds_status_body in H. trace H.
  - intros r H. unfold get_rss_feeds_status_body in H. ends_in_success H.
Qed.

Lemma get_news_for_summary_traced (E : Env)
    (date_range mode group_by max_news : PyVal) (include_url : bool) :
  traced E ["DATA_NOT_FOUND"%string]
    (get_news_for_summary_body E date_range mode group_by max_news include_url).
Proof.
  split.
  - intros e H. unfold get_news_for_summary_body in H. trace H.
    destruct (fst (fst _)); [discriminate H|].
    unfold summarize in H.
    apply bind_Raise_inv in H. destruct H as [H | (word_groups & _ & H)];
      [origin H|].
    apply bind_Raise_inv in H. destruct H as [H | (st & _ & H)].
    + right. apply own_ranks. apply (build_buckets_Raise _ _ _ _ _ H).
    + destruct (String.eqb _ _); discriminate H.
  - intros r H. unfold get_news_for_summary_body in H.
    ok_binds H. destruct (fst (fst x2)).
    + injection H as <-. left. reflexivity.
    + unfold summarize in H. ok_binds H.
      destruct (String.eqb _ _); injection H as <-; exact I.
Qed.

(** An operation whose collaborators raise nothing but what the [except]
    clauses catch returns a response that can be explained. *)
Lemma traced_answer {P : Type} (E : Env) (codes : list string)
    (body : Outcome (Response P)) :
  traced E codes body ->
  (forall e, raised_in E e -> catchable e) ->
  exists r, try_except body = Ok r /\ explained E codes r.
Proof.
  intros [Hraise Hok] Hcatch. destruct body as [r|e].
  - exists r. split; [reflexivity|]. specialize (Hok r eq_refl).
    destruct r as [p|err]; simpl; auto.
  - destruct (Hraise e eq_refl) as [Hcol|Hown].
    + pose proof (Hcatch e Hcol) as Hc.
      destruct e as [d|msg|name|inner]; simpl in Hc; try contradiction.
      * exists (Failure d). split; [reflexivity|]. left. exists d. auto.
      * exists (Failure (internal_error msg)). split; [reflexivity|].
        right. left. exists msg. auto.
    + destruct (own_exception_message e Hown) as (msg & ->).
      exists (Failure (internal_error msg)). split; [reflexivity|].
      right. left. exists msg. auto.
Qed.

Lemma every_operation (E : Env)
    (Q : forall P : Type,
        list string -> Outcome (Response P) -> Outcome (Response P) -> Prop) :
  (forall (P : Type) codes (body : Outcome (Response P)),
      traced E codes body -> Q P codes body (try_except body)) ->
  for_every_operation E Q.
Proof.
  intros HQ. unfold for_every_operation.
  split; [intros; apply HQ, get_latest_news_traced|].
  split; [intros; apply HQ, search_news_by_keyword_traced|].
  split; [intros; apply HQ, get_trending_topics_traced|].
  split; [intros; apply HQ, get_news_by_date_traced|].
  split; [intros; apply HQ, get_latest_rss_traced|].
  split; [intros; apply HQ, search_rss_traced|].
  split; [apply HQ, get_rss_feeds_status_traced|].
  intros; apply HQ, get_news_for_summary_traced.
Qed.

(** C9, amended: every public operation turns what its [try] block does
    into a response as far as its two [except] clauses reach.  A normal end
    returns the response built, an [MCPError] gives the failure with that
    error's dictionary, any other [Exception] the failure with code
    [INTERNAL_ERROR] and the exception's message alone; an exception that is
    no [Exception], or whose rendering in the handler raises, is not caught
    and leaves the operation.  So when the collaborators raise nothing but
    exceptions the clauses catch, every operation returns a response for
    every input, and that response is a success, the dictionary of an
    [MCPError] a collaborator raised, the [INTERNAL_ERROR] failure for the
    message of an exception raised by a collaborator or by the operation's
    own Python, or one of the two explicit failure returns.  In the
    dictionary of a response the [success] key is [True] exactly for a
    success. *)
Theorem operations_answer_what_except_catches (E : Env) :
  for_every_operation E (fun P codes body result => enveloped body result) /\
  ((forall e, raised_in E e -> catchable e) ->
   for_every_operation E
     (fun P codes body result => exists r, result = Ok r /\ explained E codes r)) /\
  (forall r : Response Dict,
      dict_get "success" (response_dict r) = Some (VBool (is_success r))) /\
  (forall e : ErrorDict,
      dict_get "error" (response_dict (Failure e)) = Some (VDict (error_dict e))).
Proof.
  split; [|split; [|split]].
  - apply every_operation. intros P codes body _. apply try_except_enveloped.
  - intros Hcatch. apply every_operation. intros P codes body Htraced.
    apply (traced_answer E codes body Htraced Hcatch).
  - apply response_dict_success.
  - apply response_dict_error.
Qed.

(** The collaborators of the sample environment raise validation errors
    and nothing else. *)
Lemma sample_env_raises_catchable (e : PyExc) :
  raised_in sample_env e -> catchable e.
Proof.
  intros H.
  destruct H as [v H|v dflt H|v H|v H|v dflt H|v valid dflt H|v H|v H
                |a b c H|a b c d H|a b c H|t a b c H|a b c H|a b c d f H|H|t H|H];
    cbn in H; try discriminate H.
  - destruct v; discriminate H.
  - destruct v; discriminate H.
  - unfold spec_validate_mode in H.
    destruct v; try discriminate H;
      destruct (py_in_strings _ valid); try discriminate H;
      injection H as <-; exact I.
  - unfold spec_validate_date_query in H.
    destruct v; try (injection H as <-; exact I).
    destruct (parse_relative_date _ s); [discriminate H|].
    destruct (parse_iso_date s); [discriminate H|].
    injection H as <-. exact I.
  - unfold spec_normalize_date_range in H.
    destruct v; try discriminate H.
    destruct (json_object s) as [d|]; [|discriminate H].
    destruct (dict_mem "start" d && dict_mem "end" d); discriminate H.
  - unfold sample_store in H.
    destruct ((year t =? 2025) && (month t =? 1) && (day t =? 1));
      [discriminate H|].
    destruct ((year t =? 2025) && (month t =? 1) && (day t =? 3));
      discriminate H.
Qed.

Lemma operations_answer_what_except_catches_witness :
  for_every_operation sample_env
    (fun P codes body result =>
       exists r, result = Ok r /\ explained sample_env codes r).
Proof.
  apply (proj1 (proj2 (operations_answer_what_except_catches sample_env))).
  exact sample_env_raises_catchable.
Defined.

(** C9 as stated fails: when the data service raises [SystemExit], which is
    no [Exception], [get_latest_news] returns no dictionary; the exception
    leaves it. *)
Lemma system_exit_leaves_the_operation :
  raised_in exiting_env (BaseException "SystemExit") /\
  get_latest_news exiting_env VNone VNone false
    = Raise (BaseException "SystemExit") /\
  forall r, get_latest_news exiting_env VNone VNone false <> Ok r.
Proof.
  split; [|split].
  - apply (raised_get_latest_news exiting_env _ VNone VNone false). reflexivity.
  - reflexivity.
  - intros r H. discriminate H.
Qed.

(** ** A date range given as an object or as its JSON text *)

(** [get_news_for_summary] turns a dictionary into text with [str], so what
    the resolver receives is the Python notation of the dictionary. *)
Lemma summary_reads_object_as_repr (E : Env) (d : Dict)
    (mode group_by max_news : PyVal) (include_url : bool) :
  get_news_for_summary E (VDict d) mode group_by max_news include_url =
  get_news_for_summary E (VStr (py_repr (VDict d))) mode group_by max_news include_url.
Proof. reflexivity. Qed.

(** [get_news_by_date] hands the object itself to the resolver: with a
    resolver that reads the JSON text of a range as that range, and leaves a
    range alone, text and object give the same answer. *)
Lemma by_date_text_or_object (E : Env) (text : string) (range : Dict)
    (platforms limit : PyVal) (include_url : bool) :
  normalize_date_range E (VStr text) = Ok (VDict range) ->
  normalize_date_range E (VDict range) = Ok (VDict range) ->
  get_news_by_date E (VStr text) platforms limit include_url =
  get_news_by_date E (VDict range) platforms limit include_url.
Proof.
  intros Htext Hobj. unfold get_news_by_date, get_news_by_date_body.
  rewrite Htext, Hobj. reflexivity.
Qed.

Lemma append_snoc (acc : string) (c : ascii) (s : string) :
  (snoc acc c ++ s)%string = (acc ++ String c s)%string.
Proof.
  unfold snoc. induction acc as [|a acc IH]; simpl.
  - reflexivity.
  - rewrite IH. reflexivity.
Qed.

Lemma json_scan_value (key acc : string) (members : Dict) (s rest : string) :
  plain s = true ->
  json_scan (JInValue key acc false) members (s ++ String dquote rest)%string =
  json_scan JCommaOrClose (dict_set key (VStr (acc ++ s)%string) members) rest.
Proof.
  revert acc. induction s as [|c s IH]; intros acc Hp.
  - simpl. replace (acc ++ "")%string with acc; [reflexivity|].
    clear. induction acc as [|a acc IH]; simpl; [|rewrite <- IH]; reflexivity.
  - simpl in Hp. apply andb_true_iff in Hp. destruct Hp as [Hc Hp].
    apply andb_true_iff in Hc. destruct Hc as [Hq Hb].
    apply negb_true_iff in Hq, Hb.
    cbn [append json_scan]. rewrite Hb, Hq, IH by exact Hp.
    rewrite append_snoc. reflexivity.
Qed.


Lemma string_append_assoc (a b c : string) :
  ((a ++ b) ++ c)%string = (a ++ (b ++ c))%string.
Proof. induction a as [|x a IH]; simpl; [|rewrite IH]; reflexivity. Qed.

Lemma json_scan_range_head (members : Dict) (x : string) :
  json_scan JOpen members
    (String "{" (String dquote ("start" ++ String dquote (": " ++ String dquote x))))%string
  = json_scan (JInValue "start" "" false) members x.
Proof. reflexivity. Qed.

Lemma json_scan_range_middle (members : Dict) (x : string) :
  json_scan JCommaOrClose members
    (", " ++ String dquote ("end" ++ String dquote (": " ++ String dquote x)))%string
  = json_scan (JInValue "end" "" false) members x.
Proof. reflexivity. Qed.

Lemma json_object_range (s e : string) :
  plain s = true -> plain e = true ->
  json_object (json_range s e) = Some [("start", VStr s); ("end", VStr e)].
Proof.
  intros Hs He. unfold json_object, json_range, quoted.
  cbn [append]. rewrite !string_append_assoc. cbn [append].
  etransitivity; [apply json_scan_range_head|].
  rewrite json_scan_value by exact Hs.
  etransitivity; [apply json_scan_range_middle|].
  rewrite json_scan_value by exact He.
  reflexivity.
Qed.

(** The reference resolver reads what [json.dumps] writes for a range. *)
Lemma spec_normalize_reads_json (s e : string) :
  plain s = true -> plain e = true ->
  spec_normalize_date_range (VStr (json_range s e)) = Ok (range_object s e).
Proof.
  intros Hs He. unfold spec_normalize_date_range.
  rewrite json_object_range by assumption. reflexivity.
Qed.

(** With the reference resolver, [get_news_by_date] answers the JSON text of
    a range as it answers the range. *)
Lemma reference_by_date_text_or_object (today : CalDate)
    (store : CalDate -> Outcome (AllTitles * IdToName * PyVal))
    (taxonomy : Outcome (list WordGroup)) (s e : string)
    (platforms limit : PyVal) (include_url : bool) :
  plain s = true -> plain e = true ->
  get_news_by_date (reference_env today store taxonomy) (VStr (json_range s e))
    platforms limit include_url =
  get_news_by_date (reference_env today store taxonomy) (range_object s e)
    platforms limit include_url.
Proof.
  intros Hs He. apply by_date_text_or_object.
  - apply spec_normalize_reads_json; assumption.
  - reflexivity.
Qed.

(** The Python notation of a range is not its JSON text: it opens with a
    single quote, which the reader of serialized ranges does not accept. *)
Lemma spec_normalize_keeps_repr (s e : string) :
  spec_normalize_date_range (VStr (py_repr (range_object s e)))
  = Ok (VStr (py_repr (range_object s e))).
Proof. reflexivity. Qed.

Lemma number_of_brace (n : nat) (x : string) :
  number_of (substring 0 n (String "{" x)) = None.
Proof. destruct n; reflexivity. Qed.

Lemma strip_suffix_brace (suffix x : string) :
  match strip_suffix suffix (String "{" x) with
  | Some n => number_of n
  | None => None
  end = None.
Proof.
  unfold strip_suffix.
  destruct ((String.length suffix <=? String.length (String "{" x))%nat
            && String.eqb _ suffix); [apply number_of_brace | reflexivity].
Qed.

Lemma spec_validate_rejects_repr (today : CalDate) (s e : string) :
  spec_validate_date_query today (VStr (py_repr (range_object s e)))
  = Raise (MCPError (invalid_date (VStr (py_repr (range_object s e))))).
Proof.
  set (text := py_repr (range_object s e)).
  assert (Hshape : exists x, text = String "{" x) by (eexists; reflexivity).
  destruct Hshape as (x & Hx). unfold spec_validate_date_query.
  assert (Hrel : parse_relative_date today text = None).
  { unfold parse_relative_date. rewrite Hx.
    change (String.eqb (String "{" x) today_word || String.eqb (String "{" x) "today")
      with false.
    change (String.eqb (String "{" x) "昨天" || String.eqb (String "{" x) "yesterday")
      with false.
    cbv iota.
    pose proof (strip_suffix_brace "天前" x) as H1.
    pose proof (strip_suffix_brace " days ago" x) as H2.
    destruct (strip_suffix "天前" (String "{" x)) as [n|].
    - rewrite H1. reflexivity.
    - destruct (strip_suffix " days ago" (String "{" x)) as [n|].
      + rewrite H2. reflexivity.
      + reflexivity. }
  assert (Hiso : parse_iso_date text = None).
  { unfold parse_iso_date. rewrite Hx, number_of_brace.
    destruct (negb _); [reflexivity|]. destruct (negb _); reflexivity. }
  rewrite Hrel, Hiso. reflexivity.
Qed.

(** With the reference resolver, [get_news_for_summary] answers every range
    object with a validation failure: the object reaches the resolver as its
    Python notation, which is no date expression. *)
Lemma reference_summary_rejects_object (today : CalDate)
    (store : CalDate -> Outcome (AllTitles * IdToName * PyVal))
    (taxonomy : Outcome (list WordGroup)) (s e : string)
    (group_by max_news : PyVal) (include_url : bool) :
  get_news_for_summary (reference_env today store taxonomy) (range_object s e)
    VNone group_by max_news include_url
  = Ok (Failure (invalid_date (VStr (py_repr (range_object s e))))).
Proof.
  unfold get_news_for_summary, get_news_for_summary_body.
  cbn [validate_mode reference_env spec_validate_mode bind].
  change (date_range_text (range_object s e))
    with (VStr (py_repr (range_object s e))).
  cbn [normalize_date_range reference_env].
  rewrite spec_normalize_keeps_repr. cbn [bind summary_date_str].
  cbn [validate_date_query reference_env].
  rewrite spec_validate_rejects_repr. reflexivity.
Qed.

(** C1: the range of the specification's example, given to
    [get_news_for_summary] as JSON text, resolves to its start date and the
    call succeeds; given as the object it is first turned into text with
    [str], reaches the resolver as ['{'start': ..., 'end': ...}'] and the call
    fails with a validation error.  [get_news_by_date], which passes the
    object on untouched, answers both alike. *)
Theorem summary_rejects_range_object :
  (exists s, get_news_for_summary sample_env sample_range_text VNone VNone VNone false
             = Ok (Success s)) /\
  (exists s, get_news_for_summary sample_env sample_range_dumped VNone VNone VNone false
             = Ok (Success s)) /\
  py_str sample_range = "{'start': '2025-01-01', 'end': '2025-01-02'}"%string /\
  get_news_for_summary sample_env sample_range VNone VNone VNone false
    = Ok (Failure (invalid_date (VStr "{'start': '2025-01-01', 'end': '2025-01-02'}"))) /\
  get_news_for_summary sample_env sample_range_text VNone VNone VNone false
    <> get_news_for_summary sample_env sample_range VNone VNone VNone false /\
  get_news_by_date sample_env sample_range_text VNone VNone false
    = get_news_by_date sample_env sample_range VNone VNone false /\
  (exists p, get_news_by_date sample_env sample_range VNone VNone false
             = Ok (Success p)).
Proof.
  split; [eexists; vm_compute; reflexivity|].
  split; [eexists; vm_compute; reflexivity|].
  split; [vm_compute; reflexivity|].
  split; [vm_compute; reflexivity|].
  split; [vm_compute; discriminate|].
  split; [vm_compute; reflexivity|].
  eexists; vm_compute; reflexivity.
Qed.

(** * Further properties of the grouping engine *)

(** Everything a success answer was computed from. *)
Lemma summary_shape (E : Env) (date_range mode group_by max_news : PyVal)
    (include_url : bool) (s : Summary) :
  get_news_for_summary E date_range mode group_by max_news include_url
    = Ok (Success s) ->
  exists mode' normalized target_date all_titles id_to_name timestamps
         word_groups kw pf,
    validate_mode E mode ["daily"; "current"; "incremental"] "daily" = Ok mode' /\
    normalize_date_range E (date_range_text date_range) = Ok normalized /\
    validate_date_query E (summary_date_str normalized) = Ok target_date /\
    read_all_titles_for_date E target_date = Ok (all_titles, id_to_name, timestamps) /\
    all_titles <> [] /\
    parse_frequency_words E = Ok word_groups /\
    build_buckets include_url word_groups id_to_name all_titles = Ok (kw, pf) /\
    s = if String.eqb (effective_group_by group_by) "keyword"
        then ByKeyword (keyword_summary (strftime E target_date) mode'
                          (effective_group_by group_by)
                          (keyword_groups_of (effective_cap max_news) kw))
        else ByPlatform (platform_summary (strftime E target_date) mode'
                           (effective_group_by group_by)
                           (platform_groups_of (effective_cap max_news) id_to_name pf)).
Proof.
  unfold get_news_for_summary. intros H. apply try_except_Success in H.
  unfold get_news_for_summary_body in H.
  apply bind_Ok_inv in H. destruct H as (mode' & Hmode & H).
  apply bind_Ok_inv in H. destruct H as (normalized & Hnorm & H).
  apply bind_Ok_inv in H. destruct H as (target & Hdate & H).
  apply bind_Ok_inv in H. destruct H as ([[all_titles id_to_name] ts] & Hread & H).
  cbn [fst snd] in H.
  destruct all_titles as [|p rest] eqn:Hall; [discriminate H|].
  rewrite <- Hall in *.
  unfold summarize in H.
  apply bind_Ok_inv in H. destruct H as (word_groups & Hwords & H).
  apply bind_Ok_inv in H. destruct H as ([kw pf] & Hbuild & H).
  cbn [fst snd] in H.
  exists mode', normalized, target, all_titles, id_to_name, ts, word_groups, kw, pf.
  repeat (split; [assumption|]).
  split; [rewrite Hall; discriminate|].
  repeat (split; [assumption|]).
  destruct (String.eqb (effective_group_by group_by) "keyword");
    injection H as <-; reflexivity.
Qed.

Lemma keyword_events_no_terms (items : list (string * NewsItem)) :
  keyword_events [] items = [].
Proof.
  unfold keyword_events. induction items as [|it items IH]; simpl.
  - reflexivity.
  - exact IH.
Qed.

(** With an empty taxonomy a keyword answer is still a success, with no
    group at all and a total of zero. *)
Theorem empty_taxonomy_gives_no_groups (E : Env)
    (date_range mode group_by max_news : PyVal) (include_url : bool)
    (k : KeywordSummary) :
  parse_frequency_words E = Ok [] ->
  get_news_for_summary E date_range mode group_by max_news include_url
    = Ok (Success (ByKeyword k)) ->
  keyword_groups k = [] /\ total_keywords k = 0%nat /\ ks_total_news k = 0%nat.
Proof.
  intros Hempty H.
  destruct (summary_shape _ _ _ _ _ _ _ H)
    as (mode' & nr & d & all & names & ts & wg & kw & pf
        & _ & _ & _ & _ & _ & Hwords & Hbuild & Hs).
  rewrite Hempty in Hwords. injection Hwords as <-.
  destruct (build_buckets_Ok _ _ _ _ _ _ Hbuild) as (items & _ & Hkw & _).
  rewrite keyword_events_no_terms in Hkw. simpl in Hkw. subst kw.
  destruct (String.eqb (effective_group_by group_by) "keyword");
    [|discriminate Hs].
  injection Hs as ->. simpl. auto.
Qed.

Lemma empty_taxonomy_gives_no_groups_witness :
  keyword_groups (keyword_part empty_taxonomy_summary) = [] /\
  total_keywords (keyword_part empty_taxonomy_summary) = 0%nat /\
  ks_total_news (keyword_part empty_taxonomy_summary) = 0%nat.
Proof.
  apply (empty_taxonomy_gives_no_groups empty_taxonomy_env (VStr "2025-01-01") VNone
           (VStr "keyword") (VInt 2) false (keyword_part empty_taxonomy_summary)).
  - reflexivity.
  - vm_compute. reflexivity.
Defined.

(** The platform buckets do not depend on the taxonomy: a scan that ends
    well with one taxonomy ends well with any other and fills the same
    platform buckets. *)
Theorem platform_buckets_ignore_taxonomy (include_url : bool)
    (word_groups word_groups' : list WordGroup) (id_to_name : IdToName)
    (all_titles : AllTitles) (kw pf : Buckets) :
  build_buckets include_url word_groups id_to_name all_titles = Ok (kw, pf) ->
  exists kw',
    build_buckets include_url word_groups' id_to_name all_titles = Ok (kw', pf).
Proof.
  intros H. destruct (build_buckets_Ok _ _ _ _ _ _ H) as (items & Hscan & _ & ->).
  rewrite build_buckets_scanned, Hscan. simpl. eexists. reflexivity.
Qed.

Lemma platform_buckets_ignore_taxonomy_witness :
  exists kw',
    build_buckets false repeating_taxonomy sample_names sample_titles
      = Ok (kw', snd sample_buckets).
Proof.
  apply (platform_buckets_ignore_taxonomy false sample_taxonomy repeating_taxonomy
           sample_names sample_titles (fst sample_buckets) (snd sample_buckets)).
  reflexivity.
Defined.

Lemma effective_cap_positive (v : PyVal) : 1 <= effective_cap v.
Proof.
  unfold effective_cap. destruct (py_int_value v) as [z|]; [|lia].
  destruct (Z.ltb_spec z 1); lia.
Qed.

Lemma added_bucket_nonempty (key : string) (evs : list (string * NewsItem)) :
  dict_mem key (add_events evs []) = true ->
  bucket_of key (add_events evs []) <> [].
Proof.
  rewrite dict_mem_add_events, bucket_of_add_events. simpl. intros Hmem.
  apply existsb_key_In in Hmem. destruct Hmem as (item & Hin).
  apply In_events_for in Hin. intros Hnil. rewrite Hnil in Hin. contradiction.
Qed.

Lemma chosen_bucket_nonempty (E : Env) (date_range mode group_by : PyVal)
    (include_url : bool) (word_groups : list WordGroup)
    (items : list (string * NewsItem)) (kw pf : Buckets) (key : string) :
  collected E date_range mode include_url word_groups items kw pf ->
  dict_mem key (chosen_buckets group_by kw pf) = true ->
  bucket_of key (chosen_buckets group_by kw pf) <> [].
Proof.
  intros Hcol. destruct (collected_buckets _ _ _ _ _ _ _ _ Hcol) as [-> ->].
  unfold chosen_buckets.
  destruct (String.eqb (effective_group_by group_by) "keyword");
    apply added_bucket_nonempty.
Qed.

(** No group of a success answer is empty: its count is at least 1 and its
    news list holds at least one item, whatever cap was asked for. *)
Theorem groups_are_never_empty (E : Env)
    (date_range mode group_by max_news : PyVal) (include_url : bool) (s : Summary) :
  get_news_for_summary E date_range mode group_by max_news include_url
    = Ok (Success s) ->
  Forall (fun g => (1 <= group_count g)%nat /\ group_news g <> [])
         (group_views s).
Proof.
  intros H.
  destruct (summary_success _ _ _ _ _ _ _ H)
    as (word_groups & items & kw & pf & Hcol & Hviews & _ & _).
  rewrite Hviews. apply Forall_forall. intros g Hg. apply in_map_iff in Hg.
  destruct Hg as (kv & <- & Hkv).
  destruct (sorted_entry _ kv (collected_NoDup _ _ _ group_by _ _ _ _ _ Hcol) Hkv)
    as [Hsnd Hmem].
  pose proof (chosen_bucket_nonempty _ _ _ group_by _ _ _ _ _ _ Hcol Hmem) as Hne.
  rewrite <- Hsnd in Hne.
  unfold group_count, group_news, bucket_view. cbn [fst snd]. split.
  - destruct (snd kv); [congruence | simpl; lia].
  - intros Hnil. apply (f_equal (@List.length NewsItem)) in Hnil.
    rewrite limited_length, ranked_length in Hnil. simpl in Hnil.
    pose proof (effective_cap_positive max_news) as Hcap.
    destruct (snd kv); [congruence|]. simpl in Hnil. lia.
Qed.

Lemma groups_are_never_empty_witness :
  Forall (fun g => (1 <= group_count g)%nat /\ group_news g <> [])
         (group_views sample_platform_summary).
Proof.
  apply (groups_are_never_empty sample_env (VStr "2025-01-01") VNone
           (VStr "platform") (VInt 2) true sample_platform_summary).
  vm_compute. reflexivity.
Defined.

(** No two groups of a success answer carry the same key. *)
Theorem group_keys_are_distinct (E : Env)
    (date_range mode group_by max_news : PyVal) (include_url : bool) (s : Summary) :
  get_news_for_summary E date_range mode group_by max_news include_url
    = Ok (Success s) ->
  NoDup (map group_key (group_views s)).
Proof.
  intros H.
  destruct (summary_success _ _ _ _ _ _ _ H)
    as (word_groups & items & kw & pf & Hcol & Hviews & _ & _).
  rewrite Hviews, map_map.
  change (map (fun kv => group_key (bucket_view (effective_cap max_news) kv))
              (sorted_buckets (chosen_buckets group_by kw pf)))
    with (map fst (sorted_buckets (chosen_buckets group_by kw pf))).
  apply Permutation_NoDup with (l := map fst (chosen_buckets group_by kw pf)).
  - apply Permutation_map. symmetry. apply sort_desc_on_perm.
  - apply (collected_NoDup _ _ _ group_by _ _ _ _ _ Hcol).
Qed.

Lemma group_keys_are_distinct_witness :
  NoDup (map group_key (group_views sample_keyword_summary)).
Proof.
  apply (group_keys_are_distinct sample_env (VStr "2025-01-01") VNone
           (VStr "keyword") (VInt 2) false sample_keyword_summary).
  vm_compute. reflexivity.
Defined.

(** The news list of a group is drawn from its bucket, and when the count
    does not exceed the cap it is the whole bucket, rearranged by rank. *)
Theorem news_come_from_the_bucket (E : Env)
    (date_range mode group_by max_news : PyVal) (include_url : bool) (s : Summary) :
  get_news_for_summary E date_range mode group_by max_news include_url
    = Ok (Success s) ->
  exists word_groups items kw pf,
    collected E date_range mode include_url word_groups items kw pf /\
    Forall (fun g =>
              let bucket := bucket_of (group_key g) (chosen_buckets group_by kw pf) in
              (forall it, In it (group_news g) -> In it bucket) /\
              (Z.of_nat (group_count g) <= effective_cap max_news ->
               Permutation (group_news g) bucket))
           (group_views s).
Proof.
  intros H.
  destruct (summary_success _ _ _ _ _ _ _ H)
    as (word_groups & items & kw & pf & Hcol & Hviews & _ & _).
  exists word_groups, items, kw, pf. split; [exact Hcol|].
  rewrite Hviews. apply Forall_forall. intros g Hg. apply in_map_iff in Hg.
  destruct Hg as (kv & <- & Hkv).
  destruct (sorted_entry _ kv (collected_NoDup _ _ _ group_by _ _ _ _ _ Hcol) Hkv)
    as [Hsnd _].
  unfold group_key, group_count, group_news, bucket_view. cbn [fst snd].
  rewrite <- Hsnd. split.
  - intros it Hin. unfold limited in Hin.
    apply (sort_on_In rank). unfold ranked in Hin.
    rewrite <- (firstn_skipn (Z.to_nat (effective_cap max_news))
                  (sort_on rank (snd kv))).
    apply in_or_app. left. exact Hin.
  - intros Hle. unfold limited. rewrite firstn_all2.
    + apply sort_on_perm.
    + rewrite ranked_length. lia.
Qed.

Lemma news_come_from_the_bucket_witness :
  exists word_groups items kw pf,
    collected sample_env (VStr "2025-01-01") VNone false word_groups items kw pf /\
    Forall (fun g =>
              let bucket :=
                bucket_of (group_key g) (chosen_buckets (VStr "keyword") kw pf) in
              (forall it, In it (group_news g) -> In it bucket) /\
              (Z.of_nat (group_count g) <= effective_cap (VInt 2) ->
               Permutation (group_news g) bucket))
           (group_views sample_keyword_summary).
Proof.
  apply (news_come_from_the_bucket sample_env (VStr "2025-01-01") VNone
           (VStr "keyword") (VInt 2) false sample_keyword_summary).
  vm_compute. reflexivity.
Defined.

(** ** Totals *)

Lemma total_size_bucket_append (k : string) (it : NewsItem) (b : Buckets) :
  total_size (bucket_append k it b) = S (total_size b).
Proof.
  unfold total_size. induction b as [|[k' l] b IH]; simpl.
  - reflexivity.
  - destruct (String.eqb k k'); simpl.
    + rewrite length_app. simpl. lia.
    + rewrite IH. lia.
Qed.

Lemma total_size_add_events (evs : list (string * NewsItem)) (b : Buckets) :
  total_size (add_events evs b) = (total_size b + List.length evs)%nat.
Proof.
  revert b. induction evs as [|[k it] evs IH]; intros b; simpl.
  - lia.
  - fold (add_events evs (bucket_append k it b)).
    rewrite IH, total_size_bucket_append. lia.
Qed.

Lemma sum_counts_perm (l l' : list nat) :
  Permutation l l' -> sum_counts l = sum_counts l'.
Proof.
  unfold sum_counts. induction 1; simpl; lia.
Qed.

Lemma total_size_sorted (b : Buckets) : total_size (sorted_buckets b) = total_size b.
Proof.
  unfold total_size. apply sum_counts_perm, Permutation_map, sort_desc_on_perm.
Qed.

Lemma visits_length (id_to_name : IdToName) (all_titles : AllTitles) :
  List.length (visits id_to_name all_titles) = record_count all_titles.
Proof.
  unfold visits, record_count, sum_counts.
  induction all_titles as [|p rest IH]; simpl.
  - reflexivity.
  - rewrite length_app, length_map, IH. reflexivity.
Qed.

Lemma scanned_length (include_url : bool) (id_to_name : IdToName)
    (all_titles : AllTitles) (items : list (string * NewsItem)) :
  scanned include_url id_to_name all_titles = Ok items ->
  List.length items = record_count all_titles.
Proof.
  intros H. rewrite <- (visits_length id_to_name).
  symmetry. eapply Forall2_length. apply (scanned_visits _ _ _ _ H).
Qed.

(** Platform grouping loses no title: the total of a platform answer is the
    number of title records the store returned for the date, and the
    platform counts add up to it. *)
Theorem platform_total_is_record_count (E : Env)
    (date_range mode group_by max_news : PyVal) (include_url : bool)
    (p : PlatformSummary) :
  get_news_for_summary E date_range mode group_by max_news include_url
    = Ok (Success (ByPlatform p)) ->
  exists normalized target_date all_titles id_to_name timestamps,
    normalize_date_range E (date_range_text date_range) = Ok normalized /\
    validate_date_query E (summary_date_str normalized) = Ok target_date /\
    read_all_titles_for_date E target_date = Ok (all_titles, id_to_name, timestamps) /\
    ps_total_news p = record_count all_titles /\
    sum_counts (map pg_count (platform_groups p)) = record_count all_titles.
Proof.
  intros H.
  destruct (summary_shape _ _ _ _ _ _ _ H)
    as (mode' & nr & d & all & names & ts & wg & kw & pf
        & _ & Hnorm & Hdate & Hread & _ & _ & Hbuild & Hs).
  exists nr, d, all, names, ts.
  repeat (split; [assumption|]).
  destruct (String.eqb (effective_group_by group_by) "keyword"); [discriminate Hs|].
  injection Hs as ->. simpl.
  destruct (build_buckets_Ok _ _ _ _ _ _ Hbuild) as (items & Hscan & _ & Hpf).
  assert (Hsum : sum_counts
                   (map pg_count
                        (platform_groups_of (effective_cap max_news) names pf))
                 = record_count all).
  { unfold platform_groups_of. rewrite map_map. simpl.
    rewrite (map_ext _ (fun kv => List.length (snd kv)))
      by (intros kv; apply ranked_length).
    fold (total_size (sorted_buckets pf)).
    rewrite total_size_sorted, Hpf, total_size_add_events. simpl.
    apply (scanned_length _ _ _ _ Hscan). }
  split; exact Hsum.
Qed.

Lemma platform_total_is_record_count_witness :
  exists normalized target_date all_titles id_to_name timestamps,
    normalize_date_range sample_env (date_range_text (VStr "2025-01-01"))
      = Ok normalized /\
    validate_date_query sample_env (summary_date_str normalized) = Ok target_date /\
    read_all_titles_for_date sample_env target_date
      = Ok (all_titles, id_to_name, timestamps) /\
    ps_total_news (platform_part sample_platform_summary) = record_count all_titles /\
    sum_counts (map pg_count (platform_groups (platform_part sample_platform_summary)))
      = record_count all_titles.
Proof.
  apply (platform_total_is_record_count sample_env (VStr "2025-01-01") VNone
           (VStr "platform") (VInt 2) true (platform_part sample_platform_summary)).
  vm_compute. reflexivity.
Defined.

(** ** URLs *)

(** Every news item of a success answer is the projection of a record of
    the store that was read: its title is the record's key under some
    platform, its source is that platform's display name, and it carries
    URLs exactly when they were asked for, which are then that record's own
    [url] and [mobileUrl], the empty text standing for a missing one. *)
Theorem urls_are_those_of_the_record (E : Env)
    (date_range mode group_by max_news : PyVal) (include_url : bool) (s : Summary) :
  get_news_for_summary E date_range mode group_by max_news include_url
    = Ok (Success s) ->
  exists normalized target_date all_titles id_to_name timestamps,
    normalize_date_range E (date_range_text date_range) = Ok normalized /\
    validate_date_query E (summary_date_str normalized) = Ok target_date /\
    read_all_titles_for_date E target_date
      = Ok (all_titles, id_to_name, timestamps) /\
    Forall (fun it =>
              exists pid titles info,
                In (pid, titles) all_titles /\
                In (title it, info) titles /\
                source_name it = dict_get_default pid pid id_to_name /\
                urls it = if include_url
                          then Some (string_or_empty (url info),
                                     string_or_empty (mobileUrl info))
                          else None)
           (all_news s).
Proof.
  intros H.
  destruct (summary_success _ _ _ _ _ _ _ H)
    as (word_groups & items & kw & pf & Hcol & Hviews & _ & _).
  pose proof (collected_NoDup _ _ _ group_by _ _ _ _ _ Hcol) as Hnd.
  destruct (collected_buckets _ _ _ _ _ _ _ _ Hcol) as [Hkw Hpf].
  destruct Hcol as (mode' & nr & d & all & names & ts & _ & Hnorm & Hdate & Hread
                    & _ & _ & Hscan & _).
  exists nr, d, all, names, ts.
  split; [exact Hnorm|]. split; [exact Hdate|]. split; [exact Hread|].
  apply Forall_forall. intros it Hit. unfold all_news in Hit.
  apply in_flat_map in Hit. destruct Hit as (g & Hg & Hit).
  rewrite Hviews in Hg. apply in_map_iff in Hg. destruct Hg as (kv & <- & Hkv).
  destruct (sorted_entry _ kv Hnd Hkv) as [Hsnd _].
  unfold group_news, bucket_view in Hit. cbn [snd] in Hit.
  assert (Hin : In it (bucket_of (fst kv) (chosen_buckets group_by kw pf))).
  { rewrite <- Hsnd. apply (sort_on_In rank). unfold limited, ranked in Hit.
    rewrite <- (firstn_skipn (Z.to_nat (effective_cap max_news))
                  (sort_on rank (snd kv))).
    apply in_or_app. left. exact Hit. }
  assert (Hx : exists x, In x items /\ snd x = it).
  { unfold chosen_buckets in Hin.
    destruct (String.eqb (effective_group_by group_by) "keyword").
    - subst kw. rewrite bucket_of_add_events in Hin. simpl in Hin.
      apply In_events_for, In_keyword_events in Hin.
      destruct Hin as (x & Hx & Hsnd' & _). exists x. auto.
    - subst pf. rewrite bucket_of_add_events in Hin. simpl in Hin.
      apply In_events_for in Hin. exists (fst kv, it). auto. }
  destruct Hx as (x & Hx & <-).
  destruct (scanned_item _ _ _ _ _ Hscan Hx) as (titles & t & info & Hp & Hrec & Hitem).
  apply make_news_item_Ok in Hitem. destruct Hitem as (l & _ & ->). simpl.
  exists (fst x), titles, info. auto.
Qed.

Lemma urls_are_those_of_the_record_witness :
  exists normalized target_date all_titles id_to_name timestamps,
    normalize_date_range linked_env (date_range_text (VStr "2025-01-01"))
      = Ok normalized /\
    validate_date_query linked_env (summary_date_str normalized) = Ok target_date /\
    read_all_titles_for_date linked_env target_date
      = Ok (all_titles, id_to_name, timestamps) /\
    Forall (fun it =>
              exists pid titles info,
                In (pid, titles) all_titles /\
                In (title it, info) titles /\
                source_name it = dict_get_default pid pid id_to_name /\
                urls it = Some (string_or_empty (url info),
                                string_or_empty (mobileUrl info)))
           (all_news linked_summary).
Proof.
  apply (urls_are_those_of_the_record linked_env (VStr "2025-01-01") VNone
           (VStr "keyword") (VInt 2) true linked_summary).
  vm_compute. reflexivity.
Defined.

(** ** The two shapes of a taxonomy term *)

Lemma words_of_as_word_dict (entries : list WordEntry) :
  words_of (map as_word_dict entries) = words_of entries.
Proof.
  unfold words_of. induction entries as [|e entries IH]; simpl.
  - reflexivity.
  - rewrite IH. destruct e; reflexivity.
Qed.

Lemma words_of_as_bare_word (entries : list WordEntry) :
  words_of (map as_bare_word entries) = words_of entries.
Proof.
  unfold words_of. induction entries as [|e entries IH]; simpl.
  - reflexivity.
  - rewrite IH. destruct e; reflexivity.
Qed.

Lemma all_words_reshape (f : WordEntry -> WordEntry) (g : WordGroup) :
  (forall entries, words_of (map f entries) = words_of entries) ->
  all_words (reshape_group f g) = all_words g.
Proof.
  intros Hf. unfold all_words, reshape_group. simpl.
  destruct (required g), (normal g); simpl; rewrite ?Hf; reflexivity.
Qed.

Lemma candidate_terms_reshape (f : WordEntry -> WordEntry) (wg : list WordGroup) :
  (forall entries, words_of (map f entries) = words_of entries) ->
  candidate_terms (map (reshape_group f) wg) = candidate_terms wg.
Proof.
  intros Hf. unfold candidate_terms. induction wg as [|g wg IH]; simpl.
  - reflexivity.
  - rewrite IH, all_words_reshape by exact Hf. reflexivity.
Qed.

Lemma build_buckets_same_terms (include_url : bool) (wg wg' : list WordGroup)
    (id_to_name : IdToName) (all_titles : AllTitles) :
  candidate_terms wg' = candidate_terms wg ->
  build_buckets include_url wg' id_to_name all_titles =
  build_buckets include_url wg id_to_name all_titles.
Proof.
  intros Hterms. rewrite !build_buckets_scanned.
  unfold keyword_events. rewrite Hterms. reflexivity.
Qed.

(** A term written as [{"word": w}] and the same term written as the bare
    text [w] are interchangeable: rewriting every term of the taxonomy into
    either shape leaves both bucket dictionaries as they are. *)
Theorem term_shapes_are_interchangeable (include_url : bool)
    (word_groups : list WordGroup) (id_to_name : IdToName) (all_titles : AllTitles) :
  build_buckets include_url (map (reshape_group as_word_dict) word_groups)
    id_to_name all_titles
  = build_buckets include_url word_groups id_to_name all_titles /\
  build_buckets include_url (map (reshape_group as_bare_word) word_groups)
    id_to_name all_titles
  = build_buckets include_url word_groups id_to_name all_titles.
Proof.
  split; apply build_buckets_same_terms, candidate_terms_reshape.
  - apply words_of_as_word_dict.
  - apply words_of_as_bare_word.
Qed.

(** ** A record without ranks *)

Lemma mapM_visit_missing (include_url : bool) (vs : list Visit) :
  (exists v, In v vs /\ ranks (at_info v) = None) ->
  mapM (visit_item include_url) vs = Raise (KeyError "ranks").
Proof.
  induction vs as [|v0 vs IH]; intros (v & Hin & Hnone).
  - contradiction.
  - simpl. unfold visit_item at 1.
    destruct (ranks (at_info v0)) as [l|] eqn:Hl.
    + destruct (make_news_item_total include_url (at_name v0) (at_title v0) _ l Hl)
        as (item & Hitem).
      rewrite Hitem. simpl. rewrite IH; [reflexivity|].
      destruct Hin as [<-|Hin]; [congruence|]. exists v. auto.
    + rewrite (make_news_item_missing _ _ _ _ Hl). reflexivity.
Qed.

(** One title record without a [ranks] key fails the whole call: whatever
    the grouping, the answer is the [INTERNAL_ERROR] failure whose message is
    the [KeyError], not a summary of the other records. *)
Theorem record_without_ranks_fails_the_call (E : Env)
    (date_range mode group_by max_news : PyVal) (include_url : bool)
    (mode' normalized : PyVal) (target_date : Date E)
    (all_titles : AllTitles) (id_to_name : IdToName) (timestamps : PyVal)
    (word_groups : list WordGroup)
    (pid : string) (titles : Titles) (t : string) (info : TitleInfo) :
  validate_mode E mode ["daily"; "current"; "incremental"] "daily" = Ok mode' ->
  normalize_date_range E (date_range_text date_range) = Ok normalized ->
  validate_date_query E (summary_date_str normalized) = Ok target_date ->
  read_all_titles_for_date E target_date = Ok (all_titles, id_to_name, timestamps) ->
  parse_frequency_words E = Ok word_groups ->
  In (pid, titles) all_titles -> In (t, info) titles -> ranks info = None ->
  get_news_for_summary E date_range mode group_by max_news include_url
    = Ok (Failure (internal_error "'ranks'")).
Proof.
  intros Hmode Hnorm Hdate Hread Hwords Hp Hrec Hnone.
  unfold get_news_for_summary, get_news_for_summary_body.
  rewrite Hmode. cbn [bind]. rewrite Hnorm. cbn [bind]. rewrite Hdate. cbn [bind].
  rewrite Hread. cbn [bind fst snd].
  destruct all_titles as [|p rest] eqn:Hall; [contradiction|].
  rewrite <- Hall in *. unfold summarize. rewrite Hwords. cbn [bind].
  rewrite build_buckets_scanned. unfold scanned.
  rewrite mapM_visit_missing; [reflexivity|].
  exists (mkVisit pid (dict_get_default pid pid id_to_name) t info).
  split; [|exact Hnone]. apply In_visits. exists pid, titles, t, info. auto.
Qed.

Lemma record_without_ranks_fails_the_call_witness :
  get_news_for_summary broken_env (VStr "2025-01-01") VNone (VStr "platform")
    (VInt 2) false
  = Ok (Failure (internal_error "'ranks'")).
Proof.
  apply (record_without_ranks_fails_the_call broken_env (VStr "2025-01-01") VNone
           (VStr "platform") (VInt 2) false (VStr "daily") (VStr "2025-01-01")
           (mkDate 2025 1 1) broken_titles sample_names VNone sample_taxonomy
           "p1"
           [("AI breakthrough", with_ranks [3]);
            ("Broken", {| ranks := None; url := None; mobileUrl := None |})]
           "Broken" {| ranks := None; url := None; mobileUrl := None |});
    try reflexivity.
  - left. reflexivity.
  - right. left. reflexivity.
Defined.

(** * Further properties of the facade *)

(** ** Arguments of [get_news_for_summary] that fall back to a default *)

(** A cap that is not an integer, or is below 1, is answered as a cap
    of 10. *)
Theorem unusable_cap_means_ten (E : Env)
    (date_range mode group_by max_news : PyVal) (include_url : bool) :
  (py_int_value max_news = None \/
   exists z, py_int_value max_news = Some z /\ z < 1) ->
  get_news_for_summary E date_range mode group_by max_news include_url =
  get_news_for_summary E date_range mode group_by (VInt 10) include_url.
Proof.
  intros Hcap.
  assert (H10 : effective_cap max_news = effective_cap (VInt 10)).
  { unfold effective_cap. destruct Hcap as [->|(z & -> & Hz)].
    - reflexivity.
    - destruct (Z.ltb_spec z 1); [reflexivity | lia]. }
  unfold get_news_for_summary, get_news_for_summary_body. rewrite H10.
  reflexivity.
Qed.

Lemma unusable_cap_means_ten_witness :
  get_news_for_summary sample_env (VStr "2025-01-01") VNone VNone (VInt 0) false =
  get_news_for_summary sample_env (VStr "2025-01-01") VNone VNone (VInt 10) false.
Proof.
  apply (unusable_cap_means_ten sample_env (VStr "2025-01-01") VNone VNone
           (VInt 0) false).
  right. exists 0. split; [reflexivity | lia].
Defined.

Lemma effective_group_by_keyword (group_by : PyVal) :
  group_by <> VStr "platform" -> effective_group_by group_by = "keyword"%string.
Proof.
  intros Hne. destruct group_by as [| | |s| |]; try reflexivity.
  unfold effective_group_by, py_in_strings. simpl.
  destruct (String.eqb_spec s "keyword") as [->|_]; [reflexivity|].
  destruct (String.eqb_spec s "platform") as [->|_]; [congruence | reflexivity].
Qed.

(** Only the exact text [platform] selects platform grouping: every other
    value of [group_by], of whatever type, is answered as [keyword]; and a
    missing date range is answered as the text for today. *)
Theorem group_by_and_date_defaults (E : Env)
    (date_range mode group_by max_news : PyVal) (include_url : bool) :
  group_by <> VStr "platform" ->
  get_news_for_summary E date_range mode group_by max_news include_url =
  get_news_for_summary E date_range mode (VStr "keyword") max_news include_url /\
  get_news_for_summary E VNone mode group_by max_news include_url =
  get_news_for_summary E (VStr today_word) mode group_by max_news include_url.
Proof.
  intros Hne. split; [|reflexivity].
  unfold get_news_for_summary, get_news_for_summary_body.
  rewrite (effective_group_by_keyword group_by Hne). reflexivity.
Qed.

Lemma group_by_and_date_defaults_witness :
  get_news_for_summary sample_env (VStr "2025-01-01") VNone (VStr "Platform")
    (VInt 2) false =
  get_news_for_summary sample_env (VStr "2025-01-01") VNone (VStr "keyword")
    (VInt 2) false /\
  get_news_for_summary sample_env VNone VNone (VStr "Platform") (VInt 2) false =
  get_news_for_summary sample_env (VStr today_word) VNone (VStr "Platform")
    (VInt 2) false.
Proof.
  apply (group_by_and_date_defaults sample_env (VStr "2025-01-01") VNone
           (VStr "Platform") (VInt 2) false).
  discriminate.
Defined.

(** ** [get_trending_topics] *)

(** An extract mode other than [keywords] and [auto_extract] is refused with
    [INVALID_PARAMETER] once [top_n] and [mode] have passed validation; the
    data service plays no part in the answer. *)
Theorem unknown_extract_mode_is_refused (E : Env)
    (top_n mode extract_mode top_n' mode' : PyVal) :
  validate_top_n E top_n 10 = Ok top_n' ->
  validate_mode E mode ["daily"; "current"] "current" = Ok mode' ->
  extract_mode <> VNone ->
  py_in_strings extract_mode ["keywords"; "auto_extract"] = false ->
  get_trending_topics E top_n mode extract_mode =
  Ok (Failure {| code := "INVALID_PARAMETER";
                 message := ("不支持的提取模式: " ++ py_str extract_mode)%string;
                 suggestion := Some "支持的模式: keywords, auto_extract"%string |}).
Proof.
  intros Htop Hmode Hne Hin.
  unfold get_trending_topics, get_trending_topics_body.
  rewrite Htop. cbn [bind]. rewrite Hmode. cbn [bind]. cbv zeta.
  rewrite Hin. destruct extract_mode; try reflexivity. congruence.
Qed.

Lemma unknown_extract_mode_is_refused_witness :
  get_trending_topics sample_env VNone VNone (VStr "tfidf") =
  Ok (Failure {| code := "INVALID_PARAMETER";
                 message := ("不支持的提取模式: " ++ py_str (VStr "tfidf"))%string;
                 suggestion := Some "支持的模式: keywords, auto_extract"%string |}).
Proof.
  apply (unknown_extract_mode_is_refused sample_env VNone VNone (VStr "tfidf")
           (VInt 10) (VStr "current")); try reflexivity.
  discriminate.
Defined.

(** A missing extract mode is answered as [keywords]. *)
Theorem missing_extract_mode_is_keywords (E : Env) (top_n mode : PyVal) :
  get_trending_topics E top_n mode VNone =
  get_trending_topics E top_n mode (VStr "keywords").
Proof. reflexivity. Qed.

(** ** Answers built by spreading the data service's dictionary *)

Lemma dict_get_dict_set_other (k k' : string) (v : PyVal) (d : Dict) :
  k <> k' -> dict_get k (dict_set k' v d) = dict_get k d.
Proof.
  intros Hne. induction d as [|[k0 v0] d IH]; simpl.
  - destruct (String.eqb_spec k k'); [congruence | reflexivity].
  - destruct (String.eqb_spec k' k0) as [->|Hk0]; simpl.
    + destruct (String.eqb_spec k k0); [congruence | reflexivity].
    + destruct (String.eqb_spec k k0); [reflexivity | exact IH].
Qed.

(** When the validators accept and the data service returns a dictionary,
    [search_news_by_keyword] answers with that dictionary under
    [success: True]: every other key keeps its value, and a [success] key of
    the service's own is overwritten.  A result that is no dictionary gives
    the [INTERNAL_ERROR] failure. *)
Theorem search_answer_spreads_service_result (E : Env)
    (keyword date_range platforms limit : PyVal)
    (keyword' range' platforms' limit' search_result : PyVal) :
  validate_keyword E keyword = Ok keyword' ->
  validate_date_range E date_range = Ok range' ->
  validate_platforms E platforms = Ok platforms' ->
  match limit with
  | VNone => Ok VNone
  | _ => validate_limit E limit 100
  end = Ok limit' ->
  ds_search_news_by_keyword E keyword' range' platforms' limit' = Ok search_result ->
  match search_result with
  | VDict d =>
      search_news_by_keyword E keyword date_range platforms limit = Ok (Success d) /\
      forall k,
        dict_get k (response_dict (Success d)) =
        if String.eqb k "success" then Some (VBool true) else dict_get k d
  | _ =>
      search_news_by_keyword E keyword date_range platforms limit =
      Ok (Failure (internal_error
                     (repr_str (type_name search_result) ++ " object is not a mapping")))
  end.
Proof.
  intros Hk Hr Hp Hl Hs.
  unfold search_news_by_keyword, search_news_by_keyword_body.
  rewrite Hk. cbn [bind]. rewrite Hr. cbn [bind]. rewrite Hp. cbn [bind].
  rewrite Hl. cbn [bind]. rewrite Hs. cbn [bind].
  destruct search_result; try reflexivity.
  split; [reflexivity|]. intros k. simpl.
  destruct (String.eqb_spec k "success") as [->|Hne].
  - apply dict_get_dict_set.
  - apply dict_get_dict_set_other. exact Hne.
Qed.

Lemma search_answer_spreads_service_result_witness :
  search_news_by_keyword sample_env (VStr "AI") VNone VNone VNone
    = Ok (Success [("keyword", VStr "AI"); ("date_range", VNone);
                   ("platforms", VNone); ("limit", VNone)]) /\
  forall k,
    dict_get k (response_dict (Success [("keyword", VStr "AI"); ("date_range", VNone);
                                        ("platforms", VNone); ("limit", VNone)])) =
    if String.eqb k "success" then Some (VBool true)
    else dict_get k [("keyword", VStr "AI"); ("date_range", VNone);
                     ("platforms", VNone); ("limit", VNone)].
Proof.
  apply (search_answer_spreads_service_result sample_env (VStr "AI") VNone VNone
           VNone (VStr "AI") VNone VNone VNone
           (VDict [("keyword", VStr "AI"); ("date_range", VNone);
                   ("platforms", VNone); ("limit", VNone)]));
    reflexivity.
Defined.

(** ** [search_rss] with a [days] that is no number *)

(** When keyword and limit pass validation and [days] is neither an integer
    nor a boolean, the comparison with 1 raises and the answer is the
    [INTERNAL_ERROR] failure with the [TypeError]'s message. *)
Theorem non_numeric_days_is_an_internal_error (E : Env)
    (keyword feeds days limit : PyVal) (include_summary : bool)
    (keyword' limit' : PyVal) :
  validate_keyword E keyword = Ok keyword' ->
  validate_limit E limit 50 = Ok limit' ->
  py_int_value days = None ->
  search_rss E keyword feeds days limit include_summary =
  Ok (Failure (internal_error
                 ("'<' not supported between instances of '"
                  ++ type_name days ++ "' and 'int'"))).
Proof.
  intros Hk Hl Hd. unfold search_rss, search_rss_body.
  rewrite Hk. cbn [bind]. rewrite Hl. cbn [bind].
  unfold effective_days. rewrite Hd.
  destruct days as [|[|]| | | |]; try discriminate Hd; reflexivity.
Qed.

Lemma non_numeric_days_is_an_internal_error_witness :
  search_rss sample_env (VStr "AI") VNone VNone VNone false =
  Ok (Failure (internal_error
                 ("'<' not supported between instances of '"
                  ++ type_name VNone ++ "' and 'int'"))).
Proof.
  apply (non_numeric_days_is_an_internal_error sample_env (VStr "AI") VNone VNone
           VNone false (VStr "AI") (VInt 50)); reflexivity.
Defined.

(** ** Answers that list items *)

Ltac counts_items H :=
  apply try_except_Success in H; ok_binds H; injection H as <-;
  do 2 eexists; split; [reflexivity|]; split; [eassumption | reflexivity].

(** In a success answer of the four listing operations the [total] is the
    length of the list that the data service returned and the answer
    carries. *)
Theorem listing_answers_count_their_items (E : Env) :
  (forall platforms limit include_url p,
      get_latest_news E platforms limit include_url = Ok (Success p) ->
      exists news n, dict_get "news" p = Some news /\ py_len news = Ok n /\
                     dict_get "total" p = Some (VInt n)) /\
  (forall date_range platforms limit include_url p,
      get_news_by_date E date_range platforms limit include_url = Ok (Success p) ->
      exists news n, dict_get "news" p = Some news /\ py_len news = Ok n /\
                     dict_get "total" p = Some (VInt n)) /\
  (forall feeds limit include_summary p,
      get_latest_rss E feeds limit include_summary = Ok (Success p) ->
      exists rss n, dict_get "rss" p = Some rss /\ py_len rss = Ok n /\
                    dict_get "total" p = Some (VInt n)) /\
  (forall keyword feeds days limit include_summary p,
      search_rss E keyword feeds days limit include_summary = Ok (Success p) ->
      exists rss n, dict_get "rss" p = Some rss /\ py_len rss = Ok n /\
                    dict_get "total" p = Some (VInt n)).
Proof.
  split; [|split; [|split]].
  - intros platforms limit include_url p H.
    unfold get_latest_news, get_latest_news_body in H. counts_items H.
  - intros date_range platforms limit include_url p H.
    unfold get_news_by_date, get_news_by_date_body in H. counts_items H.
  - intros feeds limit include_summary p H.
    unfold get_latest_rss, get_latest_rss_body in H. counts_items H.
  - intros keyword feeds days limit include_summary p H.
    unfold search_rss, search_rss_body in H. counts_items H.
Qed.

(** * The summary scripts *)

(** ** The prompt *)

Lemma fold_left_map {A B C : Type} (f : C -> B -> C) (g : A -> B) (l : list A) (c : C) :
  fold_left f (map g l) c = fold_left (fun c x => f c (g x)) l c.
Proof.
  revert c. induction l as [|x l IH]; intros c; simpl; [reflexivity | apply IH].
Qed.

Lemma fold_left_ext_in {A C : Type} (f g : C -> A -> C) (l : list A) (c : C) :
  (forall c x, f c x = g c x) -> fold_left f l c = fold_left g l c.
Proof.
  intros Hfg. revert c. induction l as [|x l IH]; intros c; simpl.
  - reflexivity.
  - rewrite Hfg. apply IH.
Qed.

Lemma firstn_twice {A : Type} (n m : nat) (l : list A) :
  (n <= m)%nat -> firstn n (firstn m l) = firstn n l.
Proof.
  intros Hnm. rewrite firstn_firstn. f_equal. lia.
Qed.

Lemma add_group_shown_part (prompt : string) (g : KeywordGroup) :
  add_group prompt (shown_part g) = add_group prompt g.
Proof.
  unfold add_group, shown_part. cbn [keyword kg_count kg_news].
  rewrite firstn_twice by lia. reflexivity.
Qed.

(** The prompt shows at most ten groups and at most three news of each:
    whatever the answer holds beyond them changes nothing. *)
Theorem prompt_ignores_the_rest (keyword_groups : list KeywordGroup) :
  build_summary_prompt keyword_groups =
  build_summary_prompt (map shown_part (firstn 10 keyword_groups)).
Proof.
  unfold build_summary_prompt, add_groups.
  rewrite firstn_map, firstn_twice by lia.
  rewrite fold_left_map.
  rewrite (fold_left_ext_in (fun c x => add_group c (shown_part x)) add_group)
    by (intros; apply add_group_shown_part).
  reflexivity.
Qed.

Lemma add_group_any_cap (prompt : string) (cap : Z) (kv : string * list NewsItem) :
  3 <= cap ->
  add_group prompt (keyword_group cap kv) = add_group prompt (keyword_group 3 kv).
Proof.
  intros Hcap. unfold add_group, keyword_group, limited.
  cbn [keyword kg_count kg_news].
  rewrite !firstn_twice by lia. reflexivity.
Qed.

(** The prompt written from the groups of a bucket dictionary is the same
    for every cap of at least 3; the cap of 10 that [generate_ai_summary]
    asks for shows no more news than a cap of 3 would. *)
Theorem prompt_is_the_same_for_caps_from_three (cap : Z) (kw : Buckets) :
  3 <= cap ->
  build_summary_prompt (keyword_groups_of cap kw) =
  build_summary_prompt (keyword_groups_of 3 kw).
Proof.
  intros Hcap. unfold build_summary_prompt, add_groups, keyword_groups_of.
  rewrite !firstn_map, !fold_left_map.
  rewrite (fold_left_ext_in (fun c x => add_group c (keyword_group cap x))
             (fun c x => add_group c (keyword_group 3 x)))
    by (intros; apply add_group_any_cap; exact Hcap).
  reflexivity.
Qed.

Lemma prompt_is_the_same_for_caps_from_three_witness :
  build_summary_prompt (keyword_groups_of 10 (fst sample_buckets)) =
  build_summary_prompt (keyword_groups_of 3 (fst sample_buckets)).
Proof.
  apply (prompt_is_the_same_for_caps_from_three 10 (fst sample_buckets)). lia.
Defined.

(** ** The AI client *)

Lemma ai_request_with_base_url (C : AiClients)
    (provider api_key base_url model : PyVal) (prompt : string) :
  py_truthy base_url = true ->
  ai_request C provider api_key base_url model prompt =
  Some (openai_chat C [("api_key"%string, api_key); ("base_url"%string, base_url)]
          model [("system"%string, system_message); ("user"%string, prompt)]).
Proof.
  intros Hb. unfold ai_request, client_kwargs. rewrite Hb, orb_true_r.
  reflexivity.
Qed.

(** With a base URL set the provider is not looked at: the call goes to the
    OpenAI-format client, with the base URL among its arguments, also when
    the provider is [anthropic] or unknown; both scripts agree on this. *)
Theorem base_url_overrides_the_provider (C : AiClients)
    (provider api_key base_url model : PyVal) (prompt : string) :
  py_truthy base_url = true ->
  call_ai_api C provider api_key base_url model prompt =
    match openai_chat C [("api_key"%string, api_key); ("base_url"%string, base_url)]
            model [("system"%string, system_message); ("user"%string, prompt)] with
    | Replied content => ([], content)
    | ImportFailed msg | CallFailed msg =>
        ([("[ERROR] AI API call failed: " ++ msg)%string], VNone)
    end /\
  call_ai_api C provider api_key base_url model prompt =
  call_ai_api C (VStr "openai") api_key base_url model prompt /\
  _call_ai_api C provider api_key base_url model prompt =
  _call_ai_api C (VStr "openai") api_key base_url model prompt.
Proof.
  intros Hb. unfold call_ai_api, _call_ai_api.
  rewrite !(ai_request_with_base_url C _ _ _ _ _ Hb).
  repeat split.
Qed.

Lemma base_url_overrides_the_provider_witness :
  call_ai_api echo_clients (VStr "anthropic") (VStr "key") (VStr "https://proxy")
    (VStr "m") "hello" =
    match openai_chat echo_clients
            [("api_key"%string, VStr "key"); ("base_url"%string, VStr "https://proxy")]
            (VStr "m") [("system"%string, system_message); ("user"%string, "hello"%string)]
    with
    | Replied content => ([], content)
    | ImportFailed msg | CallFailed msg =>
        ([("[ERROR] AI API call failed: " ++ msg)%string], VNone)
    end /\
  call_ai_api echo_clients (VStr "anthropic") (VStr "key") (VStr "https://proxy")
    (VStr "m") "hello" =
  call_ai_api echo_clients (VStr "openai") (VStr "key") (VStr "https://proxy")
    (VStr "m") "hello" /\
  _call_ai_api echo_clients (VStr "anthropic") (VStr "key") (VStr "https://proxy")
    (VStr "m") "hello" =
  _call_ai_api echo_clients (VStr "openai") (VStr "key") (VStr "https://proxy")
    (VStr "m") "hello".
Proof.
  apply (base_url_overrides_the_provider echo_clients (VStr "anthropic") (VStr "key")
           (VStr "https://proxy") (VStr "m") "hello").
  reflexivity.
Defined.

(** The Anthropic client is reached with provider [anthropic] and no base
    URL, and then gets the API key as its only argument. *)
Theorem anthropic_needs_an_empty_base_url (C : AiClients)
    (api_key base_url model : PyVal) (prompt : string) :
  py_truthy base_url = false ->
  call_ai_api C (VStr "anthropic") api_key base_url model prompt =
    match anthropic_messages C [("api_key"%string, api_key)] model
            [("user"%string, prompt)] with
    | Replied content => ([], content)
    | ImportFailed msg | CallFailed msg =>
        ([("[ERROR] AI API call failed: " ++ msg)%string], VNone)
    end.
Proof.
  intros Hb. unfold call_ai_api, ai_request, client_kwargs. rewrite Hb.
  reflexivity.
Qed.

Lemma anthropic_needs_an_empty_base_url_witness :
  call_ai_api echo_clients (VStr "anthropic") (VStr "key") (VStr "") (VStr "m") "hello" =
    match anthropic_messages echo_clients [("api_key"%string, VStr "key")] (VStr "m")
            [("user"%string, "hello"%string)] with
    | Replied content => ([], content)
    | ImportFailed msg | CallFailed msg =>
        ([("[ERROR] AI API call failed: " ++ msg)%string], VNone)
    end.
Proof.
  apply (anthropic_needs_an_empty_base_url echo_clients (VStr "key") (VStr "")
           (VStr "m") "hello").
  reflexivity.
Defined.

(** ** [generate_ai_summary] *)

(** Without an API key, or when the query for today's news fails, the script
    returns [None] after one error line; neither answer depends on the AI
    clients, which are not called. *)
Theorem no_summary_without_key_or_data (load_config : Outcome Dict) (E : Env)
    (C : AiClients) (config ai_config : Dict) :
  load_config = Ok config ->
  config_section "AI" config = Ok ai_config ->
  (py_truthy (dict_get_default "API_KEY" (VStr "") ai_config) = false ->
   generate_ai_summary load_config E C =
   Ok (["Generating AI summary..."%string; "[ERROR] AI_API_KEY not configured"%string],
       VNone)) /\
  (py_truthy (dict_get_default "API_KEY" (VStr "") ai_config) = true ->
   forall e,
     get_news_for_summary E VNone (VStr "current") (VStr "keyword") (VInt 10) true
       = Ok (Failure e) ->
     generate_ai_summary load_config E C =
     Ok (["Generating AI summary..."%string; ("[ERROR] " ++ message e)%string], VNone)).
Proof.
  intros Hload Hai. unfold generate_ai_summary.
  rewrite Hload. cbn [bind]. rewrite Hai. cbn [bind]. split.
  - intros ->. reflexivity.
  - intros -> e ->. reflexivity.
Qed.

Lemma no_summary_without_key_or_data_witness :
  generate_ai_summary (Ok keyless_config) sample_env echo_clients =
  Ok (["Generating AI summary..."%string; "[ERROR] AI_API_KEY not configured"%string],
      VNone).
Proof.
  apply (proj1 (no_summary_without_key_or_data (Ok keyless_config) sample_env
                  echo_clients keyless_config
                  [("PROVIDER"%string, VStr "openai")] eq_refl eq_refl)).
  reflexivity.
Defined.

(** ** [_generate_ai_summary] *)




Lemma platform_answer_has_no_keyword_groups (E : Env)
    (date_range mode max_news : PyVal) (include_url : bool) (s : Summary) :
  get_news_for_summary E date_range mode (VStr "platform") max_news include_url
    = Ok (Success s) ->
  summary_keyword_groups s = [].
Proof.
  intros H.
  destruct (summary_success _ _ _ _ _ _ _ H) as (wg & items & kw & pf & _ & _ & _ & Hg).
  destruct s as [k|p]; [discriminate Hg | reflexivity].
Qed.

(** With [GROUP_BY] set to [platform] the query succeeds with platform
    groups and the method reads its [keyword_groups], which are not there:
    the prompt sent to the client is the template and the time, without a
    single piece of news. *)
Theorem platform_grouping_sends_a_prompt_without_news (config : Dict) (now : string)
    (E : Env) (C : AiClients) (ai_config summary_config : Dict)
    (template : string) (s : Summary) :
  config_section "AI" config = Ok ai_config ->
  config_section "SUMMARY" ai_config = Ok summary_config ->
  py_truthy (dict_get_default "ENABLED" (VBool false) summary_config) = true ->
  py_truthy (dict_get_default "API_KEY" (VStr "") ai_config) = true ->
  dict_get_default "GROUP_BY" (VStr "keyword") summary_config = VStr "platform" ->
  dict_get_default "PROMPT_TEMPLATE" (VStr default_prompt_template) summary_config
    = VStr template ->
  get_news_for_summary E VNone
    (dict_get_default "MODE" (VStr "current") summary_config)
    (VStr "platform")
    (dict_get_default "MAX_NEWS_PER_KEYWORD" (VInt 10) summary_config)
    (py_truthy (dict_get_default "INCLUDE_URL" (VBool true) summary_config))
    = Ok (Success s) ->
  _generate_ai_summary config now E C =
  Ok (checked_reply
        (_call_ai_api C
           (dict_get_default "PROVIDER" (VStr "openai") ai_config)
           (dict_get_default "API_KEY" (VStr "") ai_config)
           (dict_get_default "BASE_URL" (VStr "") ai_config)
           (dict_get_default "MODEL" (VStr "gpt-4") ai_config)
           (template ++ newline ++ newline ++ "生成时间: " ++ now
            ++ newline ++ newline)%string)).
Proof.
  intros Hai Hsum Hen Hkey Hgb Htpl Hq. unfold _generate_ai_summary.
  rewrite Hai. cbn [bind]. rewrite Hsum. cbn [bind]. rewrite Hen, Hkey. cbn [negb].
  unfold summarize_with_ai. rewrite Hgb, Hq. cbn [bind].
  rewrite (platform_answer_has_no_keyword_groups _ _ _ _ _ _ Hq).
  unfold _build_summary_prompt. rewrite Htpl. cbn [template_text bind].
  unfold add_groups. cbn [firstn fold_left].
  rewrite !string_append_assoc. unfold checked_reply.
  match goal with
  | |- context [py_truthy (snd ?reply)] => destruct (py_truthy (snd reply))
  end; reflexivity.
Qed.

Lemma platform_grouping_sends_a_prompt_without_news_witness :
  _generate_ai_summary platform_config "2025-01-05 08:00"
    (reference_env (mkDate 2025 1 1) sample_store (Ok sample_taxonomy)) echo_clients =
  Ok (checked_reply
        (_call_ai_api echo_clients (VStr "openai") (VStr "key") (VStr "") (VStr "gpt-4")
           (default_prompt_template ++ newline ++ newline ++ "生成时间: "
            ++ "2025-01-05 08:00" ++ newline ++ newline)%string)).
Proof.
  apply (platform_grouping_sends_a_prompt_without_news platform_config
           "2025-01-05 08:00"
           (reference_env (mkDate 2025 1 1) sample_store (Ok sample_taxonomy))
           echo_clients
           [("API_KEY"%string, VStr "key");
            ("SUMMARY"%string,
             VDict [("ENABLED"%string, VBool true);
                    ("GROUP_BY"%string, VStr "platform")])]
           [("ENABLED"%string, VBool true); ("GROUP_BY"%string, VStr "platform")]
           default_prompt_template
           (summary_of
              (get_news_for_summary
                 (reference_env (mkDate 2025 1 1) sample_store (Ok sample_taxonomy))
                 VNone (VStr "current") (VStr "platform") (VInt 10) true)));
    reflexivity.
Defined.

(** ** [send_ai_notification] *)

Lemma py_truthy_and (a b : PyVal) :
  py_truthy (py_and a b) = py_truthy a && py_truthy b.
Proof.
  unfold py_and. destruct (py_truthy a) eqn:Ha; [reflexivity | exact Ha].
Qed.

(** A channel counts as configured when one of the seven single settings is
    set, or when both the Telegram token and the Telegram chat id are: a
    token without a chat id, or a chat id without a token, is no channel. *)
Theorem telegram_needs_token_and_chat (notification_config : Dict) :
  has_any_channel notification_config =
  existsb (fun key => py_truthy (config_value key notification_config))
          single_channel_keys
  || (py_truthy (config_value "TELEGRAM_BOT_TOKEN" notification_config)
      && py_truthy (config_value "TELEGRAM_CHAT_ID" notification_config)).
Proof.
  unfold has_any_channel, channel_settings, single_channel_keys.
  cbn [existsb]. rewrite py_truthy_and.
  destruct (py_truthy (config_value "FEISHU_WEBHOOK_URL" notification_config)),
           (py_truthy (config_value "DINGTALK_WEBHOOK_URL" notification_config)),
           (py_truthy (config_value "TELEGRAM_BOT_TOKEN" notification_config)),
           (py_truthy (config_value "TELEGRAM_CHAT_ID" notification_config)),
           (py_truthy (config_value "WEWORK_WEBHOOK_URL" notification_config)),
           (py_truthy (config_value "EMAIL_TO" notification_config)),
           (py_truthy (config_value "NTFY_SERVER_URL" notification_config)),
           (py_truthy (config_value "BARK_URL" notification_config)),
           (py_truthy (config_value "SLACK_WEBHOOK_URL" notification_config));
    reflexivity.
Qed.

Lemma no_success_iff_none_truthy (l : list PyVal) :
  Nat.eqb (List.length (filter py_truthy l)) 0 = negb (existsb py_truthy l).
Proof.
  induction l as [|v l IH]; simpl.
  - reflexivity.
  - destruct (py_truthy v); simpl; [reflexivity | exact IH].
Qed.

(** When the summary file can be read, the configuration names a channel
    and the dispatcher returns, the script reports success exactly when at
    least one channel reported success; with no channel result at all it
    reports failure. *)
Theorem notification_succeeds_iff_a_channel_did
    (files : string -> option (Outcome string)) (load_config : Outcome Dict)
    (dispatch : Dict -> string -> Outcome Dict) (summary_file content : string)
    (config notification_config results : Dict) :
  files summary_file = Some (Ok content) ->
  load_config = Ok config ->
  config_section "NOTIFICATION" config = Ok notification_config ->
  has_any_channel notification_config = true ->
  dispatch config content = Ok results ->
  exists log,
    send_ai_notification files load_config dispatch summary_file
      = Ok (log, existsb py_truthy (map snd results)).
Proof.
  intros Hfile Hload Hsec Hany Hres. unfold send_ai_notification.
  rewrite Hfile. cbn [bind]. rewrite Hload. cbn [bind]. rewrite Hsec. cbn [bind].
  rewrite Hany. cbn [negb]. rewrite Hres. cbn [bind].
  unfold success_count. rewrite no_success_iff_none_truthy.
  destruct (existsb py_truthy (map snd results)); simpl; eexists; reflexivity.
Qed.

Lemma notification_succeeds_iff_a_channel_did_witness :
  exists log,
    send_ai_notification (fun _ => Some (Ok "summary"%string)) (Ok telegram_config)
      (fun _ _ => Ok [("telegram"%string, VBool false)]) "summary.md"
    = Ok (log, existsb py_truthy
                 (map snd [("telegram"%string, VBool false)])).
Proof.
  apply (notification_succeeds_iff_a_channel_did
           (fun _ => Some (Ok "summary"%string)) (Ok telegram_config)
           (fun _ _ => Ok [("telegram"%string, VBool false)]) "summary.md" "summary"
           telegram_config
           [("TELEGRAM_BOT_TOKEN"%string, VStr "token");
            ("TELEGRAM_CHAT_ID"%string, VStr "42")]
           [("telegram"%string, VBool false)]);
    reflexivity.
Defined.
